(** * qdbmp: a shallow embedding of [qdbmp.c] and its specification

    The C source is embedded function by function.  Fixed-width integers
    are [Z] with the wrap-around written out ([u16], [u32], [s32]); bytes
    are [Byte.byte]; the two heap blocks of a bitmap are lists of bytes
    indexed from 0; a read or write outside a block is the outcome
    [Undefined].  The C library is an explicit environment: which
    allocations succeed, what freshly [malloc]ed memory holds, what
    [fopen] finds. *)

From Stdlib Require Import ZArith List Lia Bool.
From Stdlib.Strings Require Import Byte String.
From stdpp Require Import base list.
Import ListNotations.
Local Open Scope Z_scope.

(** ** Machine integers *)

Definition u8  (z : Z) : Z := z mod 2^8.
Definition u16 (z : Z) : Z := z mod 2^16.
Definition u32 (z : Z) : Z := z mod 2^32.

(** Conversion of a 32-bit pattern to [int] (two's complement). *)
Definition s32 (z : Z) : Z :=
  let w := u32 z in if w <? 2^31 then w else w - 2^32.

Definition byte_to_Z (b : byte) : Z := Z.of_N (Byte.to_N b).

(** The cast [(uint8_t) z]. *)
Definition Z_to_byte (z : Z) : byte :=
  match Byte.of_N (Z.to_N (u8 z)) with
  | Some b => b
  | None => x00
  end.

(** ** Status codes *)

(** Modelled from the spec: [qdbmp.h] is absent; the constructors are the
    [BMP_STATUS] names that [qdbmp.c] assigns to [BMP_LAST_ERROR_CODE], in
    the order of its [BMP_ERROR_STRING] table (section 7 of the
    specification lists the same kinds). *)
Inductive BMP_STATUS : Set :=
| BMP_OK
| BMP_ERROR
| BMP_OUT_OF_MEMORY
| BMP_IO_ERROR
| BMP_FILE_NOT_FOUND
| BMP_FILE_NOT_SUPPORTED
| BMP_FILE_INVALID
| BMP_INVALID_ARGUMENT
| BMP_TYPE_MISMATCH.

(** ** Data structures *)

Record BMP_Header : Set := mkHeader {
  Magic : Z;            (* uint16_t *)
  FileSize : Z;         (* uint32_t *)
  Reserved1 : Z;        (* uint16_t *)
  Reserved2 : Z;        (* uint16_t *)
  DataOffset : Z;       (* uint32_t *)
  HeaderSize : Z;       (* uint32_t *)
  Width : Z;            (* uint32_t *)
  Height : Z;           (* uint32_t *)
  Planes : Z;           (* uint16_t *)
  BitsPerPixel : Z;     (* uint16_t *)
  CompressionType : Z;  (* uint32_t *)
  ImageDataSize : Z;    (* uint32_t *)
  HPixelsPerMeter : Z;  (* uint32_t *)
  VPixelsPerMeter : Z;  (* uint32_t *)
  ColorsUsed : Z;       (* uint32_t *)
  ColorsRequired : Z    (* uint32_t *)
}.

(** [struct _BMP]: [Palette] is [None] for the NULL pointer; [Data] is
    the block [Data] points to. *)
Record BMP : Type := mkBMP {
  Header : BMP_Header;
  Palette : option (list byte);
  Data : list byte
}.

Definition BMP_PALETTE_SIZE : Z := 256 * 4.

(** ** The C library *)

Record environment : Type := mkEnv {
  (* does [malloc]/[calloc] of that many bytes succeed? *)
  can_alloc : Z -> bool;
  (* [sizeof(BMP)] on the platform *)
  sizeof_BMP : Z;
  (* the byte found at each offset of a block fresh from [malloc] *)
  junk : nat -> byte;
  (* [fopen(name, "rb")]: the contents of the file, if it opens *)
  fopen_rb : string -> option (list byte);
  (* [fopen(name, "wb")]: if the file opens, how many bytes its stream
     takes before an [fwrite] comes back short *)
  fopen_wb : string -> option nat
}.

(** What running a function can lead to: it returns, it touches memory
    outside a block, or the loop budget of the model is used up. *)
Inductive outcome (A : Type) : Type :=
| Returns (a : A)
| Undefined
| OutOfFuel.
Arguments Returns {A} a.
Arguments Undefined {A}.
Arguments OutOfFuel {A}.

(** Blocks: [calloc] gives zeros, [malloc] gives whatever was there. *)
Definition calloc_block (n : Z) : list byte := replicate (Z.to_nat n) x00.
Definition malloc_block (env : environment) (n : Z) : list byte :=
  junk env <$> seq 0 (Z.to_nat n).

(** [memcpy]-like access to a block at a non-negative offset. *)
Definition read_block (blk : list byte) (off n : Z) : option (list byte) :=
  if (0 <=? off) && (0 <=? n) && (off + n <=? Z.of_nat (length blk))
  then Some (take (Z.to_nat n) (drop (Z.to_nat off) blk))
  else None.

Definition write_block (blk : list byte) (off : Z) (bs : list byte) : option (list byte) :=
  if (0 <=? off) && (off + Z.of_nat (length bs) <=? Z.of_nat (length blk))
  then Some (take (Z.to_nat off) blk ++ bs ++ drop (Z.to_nat off + length bs) blk)
  else match bs with [] => Some blk | _ => None end.

(** ** BMP_Create *)

Definition BMP_Create (env : environment) (width height depth : Z)
  : option BMP * BMP_STATUS :=
  let bytes_per_pixel := Z.shiftr depth 3 in
  if (height <=? 0) || (width <=? 0) then (None, BMP_INVALID_ARGUMENT)
  else if negb (depth =? 8) && negb (depth =? 24) && negb (depth =? 32)
  then (None, BMP_FILE_NOT_SUPPORTED)
  else if negb (can_alloc env (sizeof_BMP env)) then (None, BMP_OUT_OF_MEMORY)
  else
    let bytes_per_row := u32 (width * bytes_per_pixel) in
    let bytes_per_row :=
      u32 (bytes_per_row +
           (if negb (bytes_per_row mod 4 =? 0) then 4 - bytes_per_row mod 4 else 0)) in
    let image_data_size := u32 (bytes_per_row * height) in
    let hdr := {|
      Magic := 0x4D42;
      FileSize := u32 (image_data_size + 54 + (if depth =? 8 then BMP_PALETTE_SIZE else 0));
      Reserved1 := 0;
      Reserved2 := 0;
      DataOffset := 54 + (if depth =? 8 then BMP_PALETTE_SIZE else 0);
      HeaderSize := 40;
      Width := width;
      Height := height;
      Planes := 1;
      BitsPerPixel := depth;
      CompressionType := 0;
      ImageDataSize := image_data_size;
      HPixelsPerMeter := 0;
      VPixelsPerMeter := 0;
      ColorsUsed := 0;
      ColorsRequired := 0 |} in
    if (depth =? 8) && negb (can_alloc env BMP_PALETTE_SIZE)
    then (None, BMP_OUT_OF_MEMORY)
    else
      let palette :=
        if depth =? 8 then Some (calloc_block BMP_PALETTE_SIZE) else None in
      if negb (can_alloc env image_data_size) then (None, BMP_OUT_OF_MEMORY)
      else (Some {| Header := hdr; Palette := palette; Data := calloc_block image_data_size |},
            BMP_OK).

(** ** Streams *)

(** An input stream is the bytes not yet read.  [fread ptr 1 n f] hands
    over at most [n] of them. *)
Definition FILE_in : Type := list byte.

Definition fread (n : Z) (f : FILE_in) : list byte * FILE_in :=
  (take (Z.to_nat n) f, drop (Z.to_nat n) f).

(** [fread(ptr, size, 1, f)]: one item; the count is 1 only when the
    whole item was there. *)
Definition fread_item (size : Z) (f : FILE_in) : option (list byte) * FILE_in :=
  let '(bs, f') := fread size f in
  if Z.of_nat (length bs) =? size then (Some bs, f') else (None, f').

(** An output stream, as the counts [fwrite] returns show it: the bytes
    it has taken so far and how many more it takes before a write comes
    back short.  [fwrite ptr 1 n f] hands over as many of the [n] bytes
    as the stream takes and returns that count.  The stream [fopen]
    gives is buffered: a byte is taken once it is in the buffer, and
    whether it reaches the device shows only at a flush.  [room] is
    therefore not the free space of the device, and the properties of
    [BMP_WriteFile] below are stated for streams that take every byte. *)
Record FILE_out : Type := mkOut {
  written : list byte;
  room : nat
}.

Definition fwrite (bs : list byte) (f : FILE_out) : Z * FILE_out :=
  let k := Nat.min (length bs) (room f) in
  (Z.of_nat k, {| written := written f ++ take k bs; room := (room f - k)%nat |}).

(** [fwrite(ptr, size, 1, f) == 1] *)
Definition fwrite_item (bs : list byte) (f : FILE_out) : bool * FILE_out :=
  let '(k, f') := fwrite bs f in (k =? Z.of_nat (length bs), f').

(** ** Little-endian integers *)

(** The bytes are shifted and or-ed as [int]s; storing into [*x]
    converts to the unsigned type. *)
Definition Readuint32_t (f : FILE_in) : option Z * FILE_in :=
  match fread_item 4 f with
  | (Some [l0; l1; l2; l3], f') =>
      (Some (u32 (Z.lor (Z.lor (Z.lor (Z.shiftl (byte_to_Z l3) 24)
                                      (Z.shiftl (byte_to_Z l2) 16))
                               (Z.shiftl (byte_to_Z l1) 8))
                        (byte_to_Z l0))), f')
  | (_, f') => (None, f')
  end.

Definition Readuint16_t (f : FILE_in) : option Z * FILE_in :=
  match fread_item 2 f with
  | (Some [l0; l1], f') =>
      (Some (u16 (Z.lor (Z.shiftl (byte_to_Z l1) 8) (byte_to_Z l0))), f')
  | (_, f') => (None, f')
  end.

Definition Writeuint32_t (x : Z) (f : FILE_out) : bool * FILE_out :=
  let l3 := Z_to_byte (Z.shiftr (Z.land x 0xff000000) 24) in
  let l2 := Z_to_byte (Z.shiftr (Z.land x 0x00ff0000) 16) in
  let l1 := Z_to_byte (Z.shiftr (Z.land x 0x0000ff00) 8) in
  let l0 := Z_to_byte (Z.shiftr (Z.land x 0x000000ff) 0) in
  fwrite_item [l0; l1; l2; l3] f.

Definition Writeuint16_t (x : Z) (f : FILE_out) : bool * FILE_out :=
  let l1 := Z_to_byte (Z.shiftr (Z.land x 0xff00) 8) in
  let l0 := Z_to_byte (Z.shiftr (Z.land x 0x00ff) 0) in
  fwrite_item [l0; l1] f.

(** ** ReadHeader and WriteHeader *)

(** Field-by-field reading that stops at the first short read. *)
Definition reader (A : Type) : Type := FILE_in -> option A * FILE_in.

Definition rbind {A B} (r : reader A) (k : A -> reader B) : reader B :=
  fun f => match r f with
           | (Some a, f') => k a f'
           | (None, f') => (None, f')
           end.

Notation "'let*' x ':=' r 'in' k" := (rbind r (fun x => k))
  (at level 10, x name, r at level 100, k at level 200).

(** [None] stands for the return value [BMP_IO_ERROR], [Some h] for
    [BMP_OK] with the header filled in.  (The fields already stored when
    a read fails are dropped here: the only caller frees the object.) *)
Definition ReadHeader : reader BMP_Header :=
  let* magic := Readuint16_t in
  let* file_size := Readuint32_t in
  let* reserved1 := Readuint16_t in
  let* reserved2 := Readuint16_t in
  let* data_offset := Readuint32_t in
  let* header_size := Readuint32_t in
  let* width := Readuint32_t in
  let* height := Readuint32_t in
  let* planes := Readuint16_t in
  let* bits_per_pixel := Readuint16_t in
  let* compression_type := Readuint32_t in
  let* image_data_size := Readuint32_t in
  let* h_pixels_per_meter := Readuint32_t in
  let* v_pixels_per_meter := Readuint32_t in
  let* colors_used := Readuint32_t in
  let* colors_required := Readuint32_t in
  (fun f => (Some {|
     Magic := magic; FileSize := file_size; Reserved1 := reserved1;
     Reserved2 := reserved2; DataOffset := data_offset;
     HeaderSize := header_size; Width := width; Height := height;
     Planes := planes; BitsPerPixel := bits_per_pixel;
     CompressionType := compression_type; ImageDataSize := image_data_size;
     HPixelsPerMeter := h_pixels_per_meter; VPixelsPerMeter := v_pixels_per_meter;
     ColorsUsed := colors_used; ColorsRequired := colors_required |}, f)).

(** Writes chained with the same early exit. *)
Definition writer : Type := FILE_out -> bool * FILE_out.

Definition wseq (w1 w2 : writer) : writer :=
  fun f => match w1 f with
           | (true, f') => w2 f'
           | (false, f') => (false, f')
           end.

Notation "w1 >>> w2" := (wseq w1 w2) (at level 65, right associativity).

Definition WriteHeader (bmp : option BMP) (f : FILE_out) : BMP_STATUS * FILE_out :=
  match bmp with
  | None => (BMP_INVALID_ARGUMENT, f)
  | Some b =>
      let h := Header b in
      let '(ok, f') :=
        (Writeuint16_t (Magic h) >>>
         Writeuint32_t (FileSize h) >>>
         Writeuint16_t (Reserved1 h) >>>
         Writeuint16_t (Reserved2 h) >>>
         Writeuint32_t (DataOffset h) >>>
         Writeuint32_t (HeaderSize h) >>>
         Writeuint32_t (Width h) >>>
         Writeuint32_t (Height h) >>>
         Writeuint16_t (Planes h) >>>
         Writeuint16_t (BitsPerPixel h) >>>
         Writeuint32_t (CompressionType h) >>>
         Writeuint32_t (ImageDataSize h) >>>
         Writeuint32_t (HPixelsPerMeter h) >>>
         Writeuint32_t (VPixelsPerMeter h) >>>
         Writeuint32_t (ColorsUsed h) >>>
         Writeuint32_t (ColorsRequired h)) f in
      (if ok then BMP_OK else BMP_IO_ERROR, f')
  end.

(** ** BMP_ReadFile *)

(** The row loop.  [idx] is the [int] loop counter; [Returns None] is the
    exit through [BMP_FILE_INVALID], [Returns (Some data)] the normal
    exit with the filled block. *)
Fixpoint read_rows (fuel : nat) (width idx : Z) (f : FILE_in) (data : list byte)
  : outcome (option (list byte)) :=
  match fuel with
  | O => OutOfFuel
  | S fuel' =>
      if negb (idx >=? 0) then Returns (Some data)
      else
        let '(got, f1) := fread width f in
        match write_block data idx got with
        | None => Undefined
        | Some data1 =>
            if negb (Z.of_nat (length got) =? width) then Returns None
            else
              let f2 :=
                if negb (width mod 4 =? 0)
                then snd (fread (4 - width mod 4) f1)
                else f1 in
              read_rows fuel' width (s32 (idx - width)) f2 data1
        end
  end.

Definition unsupported_variant (h : BMP_Header) : bool :=
  (negb (BitsPerPixel h =? 32) && negb (BitsPerPixel h =? 24) &&
   negb (BitsPerPixel h =? 8))
  || negb (CompressionType h =? 0)
  || negb (HeaderSize h =? 40).

(** The tail of [BMP_ReadFile], from "Allocate memory for image data"
    on: [h] is the header read, [palette] what the palette step left,
    [f] the stream behind it. *)
Definition read_image_data (env : environment) (fuel : nat) (h : BMP_Header)
           (palette : option (list byte)) (f : FILE_in)
  : outcome (option BMP * BMP_STATUS) :=
  if negb (can_alloc env (ImageDataSize h)) then Returns (None, BMP_OUT_OF_MEMORY)
  else
    match read_rows fuel (Width h) (s32 (u32 (Height h - 1) * Width h)) f
                    (malloc_block env (ImageDataSize h)) with
    | Returns (Some data) =>
        Returns (Some {| Header := h; Palette := palette; Data := data |}, BMP_OK)
    | Returns None => Returns (None, BMP_FILE_INVALID)
    | Undefined => Undefined
    | OutOfFuel => OutOfFuel
    end.

Definition BMP_ReadFile (env : environment) (fuel : nat) (filename : option string)
  : outcome (option BMP * BMP_STATUS) :=
  match filename with
  | None => Returns (None, BMP_INVALID_ARGUMENT)
  | Some name =>
  if negb (can_alloc env (sizeof_BMP env)) then Returns (None, BMP_OUT_OF_MEMORY)
  else
  match fopen_rb env name with
  | None => Returns (None, BMP_FILE_NOT_FOUND)
  | Some f =>
  match ReadHeader f with
  | (None, _) => Returns (None, BMP_FILE_INVALID)
  | (Some h, f) =>
  if negb (Magic h =? 0x4D42) then Returns (None, BMP_FILE_INVALID)
  else if unsupported_variant h then Returns (None, BMP_FILE_NOT_SUPPORTED)
  else if BitsPerPixel h =? 8 then
    if negb (can_alloc env BMP_PALETTE_SIZE) then Returns (None, BMP_OUT_OF_MEMORY)
    else
      let '(pal, f) := fread BMP_PALETTE_SIZE f in
      if negb (Z.of_nat (length pal) =? BMP_PALETTE_SIZE)
      then Returns (None, BMP_FILE_INVALID)
      else read_image_data env fuel h (Some pal) f
  else read_image_data env fuel h None f
  end end end.

(** ** BMP_WriteFile *)

Fixpoint write_rows (fuel : nat) (b : BMP) (idx : Z) (f : FILE_out)
  : outcome (BMP_STATUS * FILE_out) :=
  match fuel with
  | O => OutOfFuel
  | S fuel' =>
      if negb (idx >=? 0) then Returns (BMP_OK, f)
      else
        let width := Width (Header b) in
        match read_block (Data b) idx width with
        | None => Undefined
        | Some row =>
            let '(n, f1) := fwrite row f in
            if negb (n =? ImageDataSize (Header b)) then Returns (BMP_IO_ERROR, f1)
            else
              let f2 :=
                if negb (width mod 4 =? 0)
                then snd (fwrite (replicate (Z.to_nat (4 - width mod 4)) x00) f1)
                else f1 in
              write_rows fuel' b (s32 (idx - width)) f2
        end
  end.

(** The result is the bytes the stream took (if a file was opened) and
    the value left in [BMP_LAST_ERROR_CODE].  The bytes taken are the
    contents of the file when the flush at [fclose] succeeds; the code
    does not look at the result of [fclose]. *)
Definition BMP_WriteFile (env : environment) (fuel : nat)
           (bmp : option BMP) (filename : option string)
  : outcome (option (list byte) * BMP_STATUS) :=
  match filename with
  | None => Returns (None, BMP_INVALID_ARGUMENT)
  | Some name =>
  match fopen_wb env name with
  | None => Returns (None, BMP_FILE_NOT_FOUND)
  | Some space =>
  match WriteHeader bmp {| written := []; room := space |}, bmp with
  | (BMP_OK, f), Some b =>
      let rows (f : FILE_out) :=
        match write_rows fuel b (s32 (u32 (Height (Header b) - 1) * Width (Header b))) f with
        | Returns (st, f') => Returns (Some (written f'), st)
        | Undefined => Undefined
        | OutOfFuel => OutOfFuel
        end in
      match Palette b with
      | Some pal =>
          match read_block pal 0 BMP_PALETTE_SIZE with
          | None => Undefined
          | Some bytes =>
              let '(n, f1) := fwrite bytes f in
              if negb (n =? BMP_PALETTE_SIZE) then Returns (Some (written f1), BMP_IO_ERROR)
              else rows f1
          end
      | None => rows f
      end
  | (_, f), _ => Returns (Some (written f), BMP_IO_ERROR)
  end end end.

(** ** Pixel and palette accessors *)

(** A [uint8_t*] into one of the two blocks of the bitmap. *)
Inductive block_id : Set := DataBlock | PaletteBlock.

Definition pointer : Type := block_id * Z.

Definition padd (p : pointer) (k : Z) : pointer := (fst p, snd p + k).

Inductive access : Set :=
| LoadAt (blk : block_id) (off : Z)
| StoreAt (blk : block_id) (off : Z).

(** What an accessor runs on: the object its argument [bmp] points to
    ([None] for NULL), the global [BMP_LAST_ERROR_CODE], and a log of
    every byte of the blocks it touched, oldest first. *)
Record machine : Type := mkMachine {
  bmp_obj : option BMP;
  BMP_LAST_ERROR_CODE : BMP_STATUS;
  accesses : list access
}.

Definition M (A : Type) : Type := machine -> outcome (A * machine).

Definition ret {A} (a : A) : M A := fun m => Returns (a, m).

Definition bind {A B} (c : M A) (k : A -> M B) : M B :=
  fun m => match c m with
           | Returns (a, m') => k a m'
           | Undefined => Undefined
           | OutOfFuel => OutOfFuel
           end.

Notation "'do' x <- c ;; k" := (bind c (fun x => k))
  (at level 10, x name, c at level 99, k at level 200).
Notation "'run' c ;; k" := (bind c (fun _ => k))
  (at level 10, c at level 99, k at level 200).

Definition get_bmp : M (option BMP) := fun m => Returns (bmp_obj m, m).

Definition with_error (e : BMP_STATUS) (m : machine) : machine :=
  {| bmp_obj := bmp_obj m; BMP_LAST_ERROR_CODE := e; accesses := accesses m |}.

Definition logged (a : access) (m : machine) : machine :=
  {| bmp_obj := bmp_obj m;
     BMP_LAST_ERROR_CODE := BMP_LAST_ERROR_CODE m;
     accesses := accesses m ++ [a] |}.

Definition with_bmp (b : BMP) (m : machine) : machine :=
  {| bmp_obj := Some b;
     BMP_LAST_ERROR_CODE := BMP_LAST_ERROR_CODE m;
     accesses := accesses m |}.

Definition set_error (e : BMP_STATUS) : M unit :=
  fun m => Returns (tt, with_error e m).

Definition block_of (b : BMP) (blk : block_id) : option (list byte) :=
  match blk with
  | DataBlock => Some (Data b)
  | PaletteBlock => Palette b
  end.

Definition set_block (b : BMP) (blk : block_id) (bytes : list byte) : BMP :=
  match blk with
  | DataBlock => {| Header := Header b; Palette := Palette b; Data := bytes |}
  | PaletteBlock => {| Header := Header b; Palette := Some bytes; Data := Data b |}
  end.

(** [*p] as an rvalue. *)
Definition load (p : pointer) : M byte :=
  fun m =>
    match bmp_obj m with
    | None => Undefined
    | Some b =>
        match block_of b (fst p) with
        | None => Undefined
        | Some bytes =>
            if 0 <=? snd p then
              match bytes !! Z.to_nat (snd p) with
              | Some v => Returns (v, logged (LoadAt (fst p) (snd p)) m)
              | None => Undefined
              end
            else Undefined
        end
    end.

(** [*p = v] *)
Definition store (p : pointer) (v : byte) : M unit :=
  fun m =>
    match bmp_obj m with
    | None => Undefined
    | Some b =>
        match block_of b (fst p) with
        | None => Undefined
        | Some bytes =>
            if (0 <=? snd p) && (snd p <? Z.of_nat (length bytes)) then
              Returns (tt, logged (StoreAt (fst p) (snd p))
                             (with_bmp (set_block b (fst p)
                                          (<[Z.to_nat (snd p) := v]> bytes)) m))
            else Undefined
        end
    end.

(** An output argument [uint8_t *r]: [None] is the NULL pointer, [Some v]
    a cell that holds [v].  [if (r) *r = *src;] *)
Definition write_out (cell : option byte) (src : pointer) : M (option byte) :=
  match cell with
  | None => ret None
  | Some _ => do v <- load src ;; ret (Some v)
  end.

(** The pixel address [Data + ((Height - y - 1) * bytes_per_row + x * bytes_per_pixel)];
    the offset is [uint32_t] arithmetic, reduced once at the end. *)
Definition pixel_address (h : BMP_Header) (x y bytes_per_pixel : Z) : pointer :=
  let bytes_per_row := ImageDataSize h / Height h in
  (DataBlock, u32 ((Height h - y - 1) * bytes_per_row + x * bytes_per_pixel)).

Definition BMP_GetPixelRGB (x y : Z) (r g b : option byte)
  : M (option byte * option byte * option byte) :=
  do bmp <- get_bmp ;;
  match bmp with
  | None => run set_error BMP_INVALID_ARGUMENT ;; ret (r, g, b)
  | Some bm =>
      let h := Header bm in
      if (x >=? Width h) || (y >=? Height h)
      then run set_error BMP_INVALID_ARGUMENT ;; ret (r, g, b)
      else
        run set_error BMP_OK ;;
        let bytes_per_pixel := u8 (Z.shiftr (BitsPerPixel h) 3) in
        let pixel := pixel_address h x y bytes_per_pixel in
        do pixel <- (if BitsPerPixel h =? 8
                     then do i <- load pixel ;; ret (PaletteBlock, byte_to_Z i * 4)
                     else ret pixel) ;;
        do r' <- write_out r (padd pixel 2) ;;
        do g' <- write_out g (padd pixel 1) ;;
        do b' <- write_out b (padd pixel 0) ;;
        ret (r', g', b')
  end.

Definition BMP_SetPixelRGB (x y : Z) (r g b : byte) : M unit :=
  do bmp <- get_bmp ;;
  match bmp with
  | None => set_error BMP_INVALID_ARGUMENT
  | Some bm =>
      let h := Header bm in
      if (x >=? Width h) || (y >=? Height h) then set_error BMP_INVALID_ARGUMENT
      else if negb (BitsPerPixel h =? 24) && negb (BitsPerPixel h =? 32)
      then set_error BMP_TYPE_MISMATCH
      else
        run set_error BMP_OK ;;
        let bytes_per_pixel := u8 (Z.shiftr (BitsPerPixel h) 3) in
        let pixel := pixel_address h x y bytes_per_pixel in
        run store (padd pixel 2) r ;;
        run store (padd pixel 1) g ;;
        store (padd pixel 0) b
  end.

Definition BMP_GetPixelIndex (x y : Z) (val : option byte) : M (option byte) :=
  do bmp <- get_bmp ;;
  match bmp with
  | None => run set_error BMP_INVALID_ARGUMENT ;; ret val
  | Some bm =>
      let h := Header bm in
      if (x >=? Width h) || (y >=? Height h)
      then run set_error BMP_INVALID_ARGUMENT ;; ret val
      else if negb (BitsPerPixel h =? 8)
      then run set_error BMP_TYPE_MISMATCH ;; ret val
      else
        run set_error BMP_OK ;;
        let pixel := pixel_address h x y 1 in
        write_out val pixel
  end.

Definition BMP_SetPixelIndex (x y : Z) (val : byte) : M unit :=
  do bmp <- get_bmp ;;
  match bmp with
  | None => set_error BMP_INVALID_ARGUMENT
  | Some bm =>
      let h := Header bm in
      if (x >=? Width h) || (y >=? Height h) then set_error BMP_INVALID_ARGUMENT
      else if negb (BitsPerPixel h =? 8) then set_error BMP_TYPE_MISMATCH
      else
        run set_error BMP_OK ;;
        let pixel := pixel_address h x y 1 in
        store pixel val
  end.

Definition palette_entry (index : byte) : pointer :=
  (PaletteBlock, byte_to_Z index * 4).

Definition BMP_GetPaletteColor (index : byte) (r g b : option byte)
  : M (option byte * option byte * option byte) :=
  do bmp <- get_bmp ;;
  match bmp with
  | None => run set_error BMP_INVALID_ARGUMENT ;; ret (r, g, b)
  | Some bm =>
      if negb (BitsPerPixel (Header bm) =? 8)
      then run set_error BMP_TYPE_MISMATCH ;; ret (r, g, b)
      else
        do r' <- write_out r (padd (palette_entry index) 2) ;;
        do g' <- write_out g (padd (palette_entry index) 1) ;;
        do b' <- write_out b (padd (palette_entry index) 0) ;;
        run set_error BMP_OK ;;
        ret (r', g', b')
  end.

Definition BMP_SetPaletteColor (index : byte) (r g b : byte) : M unit :=
  do bmp <- get_bmp ;;
  match bmp with
  | None => set_error BMP_INVALID_ARGUMENT
  | Some bm =>
      if negb (BitsPerPixel (Header bm) =? 8) then set_error BMP_TYPE_MISMATCH
      else
        run store (padd (palette_entry index) 2) r ;;
        run store (padd (palette_entry index) 1) g ;;
        run store (padd (palette_entry index) 0) b ;;
        set_error BMP_OK
  end.

(** Start an accessor on a bitmap (or on NULL). *)
Definition on_bitmap (bmp : option BMP) (e : BMP_STATUS) : machine :=
  {| bmp_obj := bmp; BMP_LAST_ERROR_CODE := e; accesses := [] |}.

(** ** The specification's vocabulary *)

(** Section 3 of the specification: [BytesPerPixel] and
    [RowStride = ceil(Width * BytesPerPixel / 4) * 4], over the integers. *)
Definition spec_BytesPerPixel (bits : Z) : Z := bits / 8.

Definition spec_RowStride (width bits : Z) : Z :=
  (width * spec_BytesPerPixel bits + 3) / 4 * 4.

Definition spec_DataOffset (bits : Z) : Z :=
  54 + (if bits =? 8 then 1024 else 0).

(** The header invariants of section 3. *)
Record header_invariants (h : BMP_Header) : Prop := {
  inv_header_size : HeaderSize h = 40;
  inv_compression : CompressionType h = 0;
  inv_depth : BitsPerPixel h = 8 \/ BitsPerPixel h = 24 \/ BitsPerPixel h = 32;
  inv_width : 0 < Width h;
  inv_height : 0 < Height h;
  inv_data_offset : DataOffset h = spec_DataOffset (BitsPerPixel h);
  inv_image_data_size :
    ImageDataSize h = spec_RowStride (Width h) (BitsPerPixel h) * Height h
}.

(** A bitmap of the specification's data model: the header invariants
    hold, [ImageDataSize] is a [uint32_t], the pixel block has exactly
    [ImageDataSize] bytes, and the 1024-byte palette is there exactly for
    depth 8. *)
Record valid_bitmap (b : BMP) : Prop := {
  valid_header : header_invariants (Header b);
  valid_size_fits : ImageDataSize (Header b) < 2^32;
  valid_data : Z.of_nat (length (Data b)) = ImageDataSize (Header b);
  valid_palette :
    match Palette b with
    | Some pal => BitsPerPixel (Header b) = 8 /\ length pal = 1024%nat
    | None => BitsPerPixel (Header b) <> 8
    end
}.

(** Offset of logical pixel [(x, y)] in the pixel block ([y = 0] is the
    top row), as section 3 has it. *)
Definition spec_pixel_offset (h : BMP_Header) (x y : Z) : Z :=
  (Height h - 1 - y) * spec_RowStride (Width h) (BitsPerPixel h)
  + x * spec_BytesPerPixel (BitsPerPixel h).

(** What a reader leaves in an output cell: nothing behind a NULL
    pointer, the value otherwise. *)
Definition filled (cell : option byte) (v : byte) : option byte :=
  match cell with
  | None => None
  | Some _ => Some v
  end.

(** The palette after [BMP_SetPaletteColor index r g b]. *)
Definition palette_with (pal : list byte) (index r g b : byte) : list byte :=
  <[Z.to_nat (byte_to_Z index * 4 + 0) := b]>
    (<[Z.to_nat (byte_to_Z index * 4 + 1) := g]>
       (<[Z.to_nat (byte_to_Z index * 4 + 2) := r]> pal)).

(** The header [BMP_Create] builds once it is past its argument checks,
    written with the specification's [RowStride] ([BMP_Create_cases]
    proves it is the one the code computes). *)
Definition created_header (width height depth : Z) : BMP_Header :=
  let size := u32 (spec_RowStride width depth * height) in
  {| Magic := 0x4D42;
     FileSize := u32 (size + 54 + (if depth =? 8 then BMP_PALETTE_SIZE else 0));
     Reserved1 := 0; Reserved2 := 0;
     DataOffset := 54 + (if depth =? 8 then BMP_PALETTE_SIZE else 0);
     HeaderSize := 40; Width := width; Height := height; Planes := 1;
     BitsPerPixel := depth; CompressionType := 0;
     ImageDataSize := size;
     HPixelsPerMeter := 0; VPixelsPerMeter := 0; ColorsUsed := 0; ColorsRequired := 0 |}.

(** ** Sample inputs *)

(** A C library where every allocation succeeds, fresh memory holds
    [0xCD], one file is readable and an output stream takes [space]
    bytes. *)
Definition sample_env (file : list byte) (space : nat) : environment :=
  {| can_alloc := fun _ => true;
     sizeof_BMP := 72;
     junk := fun _ => xcd;
     fopen_rb := fun _ => Some file;
     fopen_wb := fun _ => Some space |}.

Definition blank (width height depth : Z) : option BMP :=
  fst (BMP_Create (sample_env [] 0) width height depth).

(** The 2x2 bitmap of depth 8 that [BMP_Create] returns. *)
Definition indexed_2x2 : BMP :=
  {| Header := {| Magic := 0x4D42; FileSize := 1086; Reserved1 := 0; Reserved2 := 0;
                  DataOffset := 1078; HeaderSize := 40; Width := 2; Height := 2;
                  Planes := 1; BitsPerPixel := 8; CompressionType := 0;
                  ImageDataSize := 8; HPixelsPerMeter := 0; VPixelsPerMeter := 0;
                  ColorsUsed := 0; ColorsRequired := 0 |};
     Palette := Some (calloc_block 1024);
     Data := calloc_block 8 |}.

(** A 2x2 bitmap of depth 8 with palette entry 5 set to red 10, green
    20, blue 30 and the pixel (0, 0), first of the top row and so at
    offset 4 of the block, set to index 5. *)
Definition painted_2x2 : BMP :=
  {| Header := {| Magic := 0x4D42; FileSize := 1086; Reserved1 := 0; Reserved2 := 0;
                  DataOffset := 1078; HeaderSize := 40; Width := 2; Height := 2;
                  Planes := 1; BitsPerPixel := 8; CompressionType := 0;
                  ImageDataSize := 8; HPixelsPerMeter := 0; VPixelsPerMeter := 0;
                  ColorsUsed := 0; ColorsRequired := 0 |};
     Palette := Some (palette_with (calloc_block 1024) x05 x0a x14 x1e);
     Data := [x00; x00; x00; x00; x05; x00; x00; x00] |}.

(** The 2x2 bitmap of depth 24 that [BMP_Create] returns. *)
Definition rgb_2x2 : BMP :=
  {| Header := {| Magic := 0x4D42; FileSize := 70; Reserved1 := 0; Reserved2 := 0;
                  DataOffset := 54; HeaderSize := 40; Width := 2; Height := 2;
                  Planes := 1; BitsPerPixel := 24; CompressionType := 0;
                  ImageDataSize := 16; HPixelsPerMeter := 0; VPixelsPerMeter := 0;
                  ColorsUsed := 0; ColorsRequired := 0 |};
     Palette := None;
     Data := calloc_block 16 |}.

(** ** Reasoning about readers *)

(** [r] takes exactly [n] bytes: with [n] bytes left it succeeds with a
    value satisfying [P] and leaves the rest; with fewer it fails. *)
Definition reads {A} (n : nat) (P : A -> Prop) (r : reader A) : Prop :=
  forall f : FILE_in,
    ((n <= length f)%nat -> exists a, r f = (Some a, drop n f) /\ P a) /\
    ((length f < n)%nat -> fst (r f) = None).

(** Header fields that the row loop and the accessors compute with are
    [uint32_t] values. *)
Definition fields_in_range (h : BMP_Header) : Prop :=
  0 <= Width h < 2^32 /\ 0 <= Height h < 2^32 /\ 0 <= ImageDataSize h < 2^32.

(** The bytes the row loop skips after each row. *)
Definition row_padding (width : Z) : Z :=
  if negb (width mod 4 =? 0) then 4 - width mod 4 else 0.

(** ** Sample files *)

(** Header of a 1x1 file of depth 8: FileSize 1082, DataOffset 1078,
    HeaderSize 40, Width 1, Height 1, Planes 1, BitsPerPixel 8,
    no compression, ImageDataSize 4. *)
Definition header_1x1_depth8 : list byte :=
  [x42; x4d; x3a; x04; x00; x00; x00; x00; x00; x00; x36; x04; x00; x00;
   x28; x00; x00; x00; x01; x00; x00; x00; x01; x00; x00; x00; x01; x00;
   x08; x00; x00; x00; x00; x00; x04; x00; x00; x00; x00; x00; x00; x00;
   x00; x00; x00; x00; x00; x00; x00; x00; x00; x00; x00; x00].

(** The same file with its one pixel byte and no padding behind it:
    three bytes short of the declared [ImageDataSize]. *)
Definition file_1x1_depth8_no_padding : list byte :=
  header_1x1_depth8 ++ replicate 1024 x00 ++ [x07].

(** The same file cut right behind the palette. *)
Definition file_1x1_depth8_no_pixels : list byte :=
  header_1x1_depth8 ++ replicate 1024 x00.

(** A well-formed 1x2 file of depth 24: FileSize 62, DataOffset 54,
    ImageDataSize 8; bottom row (blue 0x11, green 0x12, red 0x13, one
    padding byte), then top row (0x21, 0x22, 0x23, padding). *)
Definition file_1x2_depth24 : list byte :=
  [x42; x4d; x3e; x00; x00; x00; x00; x00; x00; x00; x36; x00; x00; x00;
   x28; x00; x00; x00; x01; x00; x00; x00; x02; x00; x00; x00; x01; x00;
   x18; x00; x00; x00; x00; x00; x08; x00; x00; x00; x00; x00; x00; x00;
   x00; x00; x00; x00; x00; x00; x00; x00; x00; x00; x00; x00]
  ++ [x11; x12; x13; x00] ++ [x21; x22; x23; x00].

(** A 1x1 file of depth 24 whose DataOffset field is 0 instead of 54. *)
Definition file_1x1_depth24_offset0 : list byte :=
  [x42; x4d; x3a; x00; x00; x00; x00; x00; x00; x00; x00; x00; x00; x00;
   x28; x00; x00; x00; x01; x00; x00; x00; x01; x00; x00; x00; x01; x00;
   x18; x00; x00; x00; x00; x00; x04; x00; x00; x00; x00; x00; x00; x00;
   x00; x00; x00; x00; x00; x00; x00; x00; x00; x00; x00; x00]
  ++ [x31; x32; x33; x00].

(** The 54 header bytes that [BMP_WriteFile] produces for [rgb_2x2]. *)
Definition header_2x2_depth24 : list byte :=
  [x42; x4d; x46; x00; x00; x00; x00; x00; x00; x00; x36; x00; x00; x00;
   x28; x00; x00; x00; x02; x00; x00; x00; x02; x00; x00; x00; x01; x00;
   x18; x00; x00; x00; x00; x00; x10; x00; x00; x00; x00; x00; x00; x00;
   x00; x00; x00; x00; x00; x00; x00; x00; x00; x00; x00; x00].

(** The 54 header bytes that [BMP_WriteFile] produces for [indexed_2x2]. *)
Definition header_2x2_depth8 : list byte :=
  [x42; x4d; x3e; x04; x00; x00; x00; x00; x00; x00; x36; x04; x00; x00;
   x28; x00; x00; x00; x02; x00; x00; x00; x02; x00; x00; x00; x01; x00;
   x08; x00; x00; x00; x00; x00; x08; x00; x00; x00; x00; x00; x00; x00;
   x00; x00; x00; x00; x00; x00; x00; x00; x00; x00; x00; x00].

(** What [ReadHeader] makes of [header_1x1_depth8]. *)
Definition parsed_1x1_depth8 : BMP_Header :=
  {| Magic := 0x4D42; FileSize := 1082; Reserved1 := 0; Reserved2 := 0;
     DataOffset := 1078; HeaderSize := 40; Width := 1; Height := 1;
     Planes := 1; BitsPerPixel := 8; CompressionType := 0;
     ImageDataSize := 4; HPixelsPerMeter := 0; VPixelsPerMeter := 0;
     ColorsUsed := 0; ColorsRequired := 0 |}.

(** ** Header stability *)

(** A computation in the accessor monad that, when it returns, leaves
    the header of the bitmap (and whether there is a bitmap) as it was. *)
Definition keeps_header {A} (c : M A) : Prop :=
  forall (m : machine) (a : A) (m' : machine),
    c m = Returns (a, m') ->
    option_map Header (bmp_obj m') = option_map Header (bmp_obj m).

(** What [ReadHeader] makes of the header of [file_1x2_depth24]. *)
Definition parsed_1x2_depth24 : BMP_Header :=
  {| Magic := 0x4D42; FileSize := 62; Reserved1 := 0; Reserved2 := 0;
     DataOffset := 54; HeaderSize := 40; Width := 1; Height := 2;
     Planes := 1; BitsPerPixel := 24; CompressionType := 0;
     ImageDataSize := 8; HPixelsPerMeter := 0; VPixelsPerMeter := 0;
     ColorsUsed := 0; ColorsRequired := 0 |}.

(** What [BMP_ReadFile] returns for [file_1x2_depth24] when fresh memory
    holds [0xCD]. *)
Definition decoded_1x2_depth24 : BMP :=
  {| Header := parsed_1x2_depth24;
     Palette := None;
     Data := [x21; x11; xcd; xcd; xcd; xcd; xcd; xcd] |}.

(** A computation in the accessor monad that, started on a valid
    bitmap, leaves a valid bitmap when it returns. *)
Definition keeps_valid {A} (c : M A) : Prop :=
  forall (m : machine) (a : A) (m' : machine) (bm : BMP),
    c m = Returns (a, m') ->
    bmp_obj m = Some bm -> valid_bitmap bm ->
    exists bm', bmp_obj m' = Some bm' /\ valid_bitmap bm'.

(** ** Reasoning about writers *)

(** [w] puts exactly [n] bytes on a stream that takes them. *)
Definition writes (n : nat) (w : writer) : Prop :=
  forall f : FILE_out,
    (n <= room f)%nat ->
    exists bs,
      length bs = n /\
      w f = (true, {| written := written f ++ bs; room := (room f - n)%nat |}).

(** ** Building bitmaps with the setters *)

(** The bitmap left by running an accessor on [b], if it returns. *)
Definition bitmap_after {A} (c : M A) (b : BMP) : option BMP :=
  match c (on_bitmap (Some b) BMP_OK) with
  | Returns (_, m) => bmp_obj m
  | Undefined | OutOfFuel => None
  end.

(** A 4x1 bitmap of depth 8: blank, then palette entry 5 set to
    (10, 20, 30) and pixel (1, 0) set to index 5. *)
Definition strip_4x1 : option BMP :=
  match blank 4 1 8 with
  | Some b0 =>
      match bitmap_after (BMP_SetPaletteColor x05 x0a x14 x1e) b0 with
      | Some b1 => bitmap_after (BMP_SetPixelIndex 1 0 x05) b1
      | None => None
      end
  | None => None
  end.


(** ** Little-endian byte strings *)

(** The low four (two) bytes of [x], least significant first. *)
Definition le32 (x : Z) : list byte :=
  [Z_to_byte x; Z_to_byte (x / 2^8); Z_to_byte (x / 2^16); Z_to_byte (x / 2^24)].

Definition le16 (x : Z) : list byte :=
  [Z_to_byte x; Z_to_byte (x / 2^8)].

(** The 54 bytes of a header: its sixteen fields in declaration order,
    each little-endian. *)
Definition encode_header (h : BMP_Header) : list byte :=
  le16 (Magic h) ++ le32 (FileSize h) ++ le16 (Reserved1 h) ++ le16 (Reserved2 h)
  ++ le32 (DataOffset h) ++ le32 (HeaderSize h) ++ le32 (Width h) ++ le32 (Height h)
  ++ le16 (Planes h) ++ le16 (BitsPerPixel h) ++ le32 (CompressionType h)
  ++ le32 (ImageDataSize h) ++ le32 (HPixelsPerMeter h) ++ le32 (VPixelsPerMeter h)
  ++ le32 (ColorsUsed h) ++ le32 (ColorsRequired h).

(** Every field holds a value of its C type. *)
Definition header_in_range (h : BMP_Header) : Prop :=
  0 <= Magic h < 2^16 /\ 0 <= FileSize h < 2^32 /\
  0 <= Reserved1 h < 2^16 /\ 0 <= Reserved2 h < 2^16 /\
  0 <= DataOffset h < 2^32 /\ 0 <= HeaderSize h < 2^32 /\
  0 <= Width h < 2^32 /\ 0 <= Height h < 2^32 /\
  0 <= Planes h < 2^16 /\ 0 <= BitsPerPixel h < 2^16 /\
  0 <= CompressionType h < 2^32 /\ 0 <= ImageDataSize h < 2^32 /\
  0 <= HPixelsPerMeter h < 2^32 /\ 0 <= VPixelsPerMeter h < 2^32 /\
  0 <= ColorsUsed h < 2^32 /\ 0 <= ColorsRequired h < 2^32.

(** [w] puts exactly the bytes [bs] on a stream that takes them, and
    fails on a stream that takes fewer. *)
Definition writes_bytes (bs : list byte) (w : writer) : Prop :=
  forall f : FILE_out,
    ((length bs <= room f)%nat ->
     w f = (true, {| written := written f ++ bs; room := (room f - length bs)%nat |})) /\
    ((room f < length bs)%nat -> fst (w f) = false).

(** [r] reads the value [v] off the bytes [bs] and leaves what follows. *)
Definition decodes {A} (bs : list byte) (v : A) (r : reader A) : Prop :=
  forall rest : FILE_in, r (bs ++ rest) = (Some v, rest).

(** Whenever [r] succeeds, the bytes [pre] followed by the stream it was
    given are the encoding of its value followed by the stream it left. *)
Definition parses {A} (pre : list byte) (enc : A -> list byte) (r : reader A) : Prop :=
  forall (f : FILE_in) (v : A) (rest : FILE_in),
    r f = (Some v, rest) -> pre ++ f = enc v ++ rest.

(** ** The remaining accessors *)

(** [BMP_GetWidth], [BMP_GetHeight], [BMP_GetDepth]: on NULL the code
    returns [-1], converted to the unsigned return type. *)
Definition BMP_GetWidth : M Z :=
  do bmp <- get_bmp ;;
  match bmp with
  | None => run set_error BMP_INVALID_ARGUMENT ;; ret (u32 (-1))
  | Some bm => run set_error BMP_OK ;; ret (Width (Header bm))
  end.

Definition BMP_GetHeight : M Z :=
  do bmp <- get_bmp ;;
  match bmp with
  | None => run set_error BMP_INVALID_ARGUMENT ;; ret (u32 (-1))
  | Some bm => run set_error BMP_OK ;; ret (Height (Header bm))
  end.

Definition BMP_GetDepth : M Z :=
  do bmp <- get_bmp ;;
  match bmp with
  | None => run set_error BMP_INVALID_ARGUMENT ;; ret (u16 (-1))
  | Some bm => run set_error BMP_OK ;; ret (BitsPerPixel (Header bm))
  end.

(** [BMP_GetPixelData] and [BMP_GetPalletteData] hand out [bmp->Data]
    and [bmp->Palette] without testing [bmp]: on NULL the member access
    is undefined.  [None] is the NULL palette pointer.  Neither touches
    [BMP_LAST_ERROR_CODE]. *)
Definition BMP_GetPixelData : M pointer :=
  fun m =>
    match bmp_obj m with
    | None => Undefined
    | Some _ => Returns ((DataBlock, 0), m)
    end.

Definition BMP_GetPalletteData : M (option pointer) :=
  fun m =>
    match bmp_obj m with
    | None => Undefined
    | Some bm =>
        Returns (match Palette bm with
                 | Some _ => Some (PaletteBlock, 0)
                 | None => None
                 end, m)
    end.

(** [BMP_GetError] *)
Definition BMP_GetError : M BMP_STATUS :=
  fun m => Returns (BMP_LAST_ERROR_CODE m, m).

(** ** More vocabulary for the properties *)

(** The pixel block after [BMP_SetPixelRGB] stored at offset [off]. *)
Definition data_with_rgb (data : list byte) (off : Z) (r g b : byte) : list byte :=
  <[Z.to_nat (off + 0) := b]>
    (<[Z.to_nat (off + 1) := g]>
       (<[Z.to_nat (off + 2) := r]> data)).

(** A computation that never touches memory outside a block on this
    machine, and terminates. *)
Definition returns {A} (c : M A) (m : machine) : Prop :=
  exists a m', c m = Returns (a, m').

(** The stream [BMP_ReadFile] has before it when the row loop starts:
    the file behind the 54 header bytes and, for depth 8, the palette. *)
Definition payload_of (h : BMP_Header) (file : list byte) : list byte :=
  drop (if BitsPerPixel h =? 8 then 1024 else 0) (drop 54 file).

(** A computation that, when it returns, has left the bitmap object as
    it was and has added nothing but loads to the access log. *)
Definition is_load (a : access) : Prop :=
  match a with
  | LoadAt _ _ => True
  | StoreAt _ _ => False
  end.

Definition reads_only {A} (c : M A) : Prop :=
  forall (m : machine) (a : A) (m' : machine),
    c m = Returns (a, m') ->
    bmp_obj m' = bmp_obj m /\
    exists l, accesses m' = accesses m ++ l /\ Forall is_load l.

(** The file image of a bitmap: header, palette if there is one, and
    the pixel block as it lies in memory. *)
Definition file_of (b : BMP) : list byte :=
  encode_header (Header b)
  ++ match Palette b with Some pal => pal | None => [] end
  ++ Data b.

(** A 1x2 file of depth 24 whose ImageDataSize field is 1: the header of
    [file_1x2_depth24] with byte 34 changed, and one payload byte. *)
Definition parsed_1x2_depth24_size1 : BMP_Header :=
  {| Magic := 0x4D42; FileSize := 62; Reserved1 := 0; Reserved2 := 0;
     DataOffset := 54; HeaderSize := 40; Width := 1; Height := 2;
     Planes := 1; BitsPerPixel := 24; CompressionType := 0;
     ImageDataSize := 1; HPixelsPerMeter := 0; VPixelsPerMeter := 0;
     ColorsUsed := 0; ColorsRequired := 0 |}.

Definition file_1x2_depth24_size1 : list byte :=
  [x42; x4d; x3e; x00; x00; x00; x00; x00; x00; x00; x36; x00; x00; x00;
   x28; x00; x00; x00; x01; x00; x00; x00; x02; x00; x00; x00; x01; x00;
   x18; x00; x00; x00; x00; x00; x01; x00; x00; x00; x00; x00; x00; x00;
   x00; x00; x00; x00; x00; x00; x00; x00; x00; x00; x00; x00]
  ++ [x11].

(** The blank 4x1 bitmap of depth 8 that [BMP_Create] returns. *)
Definition indexed_4x1 : BMP :=
  {| Header := {| Magic := 0x4D42; FileSize := 1082; Reserved1 := 0; Reserved2 := 0;
                  DataOffset := 1078; HeaderSize := 40; Width := 4; Height := 1;
                  Planes := 1; BitsPerPixel := 8; CompressionType := 0;
                  ImageDataSize := 4; HPixelsPerMeter := 0; VPixelsPerMeter := 0;
                  ColorsUsed := 0; ColorsRequired := 0 |};
     Palette := Some (calloc_block 1024);
     Data := calloc_block 4 |}.

(** ** Sequences of accessor calls *)

(** A call of one of the six pixel and palette accessors with its
    arguments, and a program that makes such calls one after another on
    the same bitmap, dropping what the getters return. *)
Inductive accessor_call : Type :=
| CallGetPixelRGB (x y : Z) (r g b : option byte)
| CallSetPixelRGB (x y : Z) (r g b : byte)
| CallGetPixelIndex (x y : Z) (val : option byte)
| CallSetPixelIndex (x y : Z) (val : byte)
| CallGetPaletteColor (index : byte) (r g b : option byte)
| CallSetPaletteColor (index : byte) (r g b : byte).

Definition perform (c : accessor_call) : M unit :=
  match c with
  | CallGetPixelRGB x y r g b => run BMP_GetPixelRGB x y r g b ;; ret tt
  | CallSetPixelRGB x y r g b => BMP_SetPixelRGB x y r g b
  | CallGetPixelIndex x y val => run BMP_GetPixelIndex x y val ;; ret tt
  | CallSetPixelIndex x y val => BMP_SetPixelIndex x y val
  | CallGetPaletteColor index r g b => run BMP_GetPaletteColor index r g b ;; ret tt
  | CallSetPaletteColor index r g b => BMP_SetPaletteColor index r g b
  end.

Fixpoint perform_all (cs : list accessor_call) : M unit :=
  match cs with
  | [] => ret tt
  | c :: cs' => run perform c ;; perform_all cs'
  end.

(** The coordinates are [uint32_t] arguments. *)
Definition unsigned_arguments (c : accessor_call) : Prop :=
  match c with
  | CallGetPixelRGB x y _ _ _ | CallSetPixelRGB x y _ _ _
  | CallGetPixelIndex x y _ | CallSetPixelIndex x y _ => 0 <= x /\ 0 <= y
  | CallGetPaletteColor _ _ _ _ | CallSetPaletteColor _ _ _ _ => True
  end.

(** ** Headers the row loop of [BMP_ReadFile] cannot handle *)

(** A depth-24 header with Width 0, and a file with it. *)
Definition header_zero_width : BMP_Header :=
  {| Magic := 0x4D42; FileSize := 58; Reserved1 := 0; Reserved2 := 0;
     DataOffset := 54; HeaderSize := 40; Width := 0; Height := 1;
     Planes := 1; BitsPerPixel := 24; CompressionType := 0;
     ImageDataSize := 4; HPixelsPerMeter := 0; VPixelsPerMeter := 0;
     ColorsUsed := 0; ColorsRequired := 0 |}.

Definition file_zero_width : list byte :=
  encode_header header_zero_width ++ [x11; x12; x13; x00].

(** A depth-24 header with Width 65536 and Height 32769, so that
    [(Height - 1) * Width = 2^31], and a file with it. *)
Definition header_oversized : BMP_Header :=
  {| Magic := 0x4D42; FileSize := 58; Reserved1 := 0; Reserved2 := 0;
     DataOffset := 54; HeaderSize := 40; Width := 65536; Height := 32769;
     Planes := 1; BitsPerPixel := 24; CompressionType := 0;
     ImageDataSize := 4; HPixelsPerMeter := 0; VPixelsPerMeter := 0;
     ColorsUsed := 0; ColorsRequired := 0 |}.

Definition file_oversized : list byte :=
  encode_header header_oversized ++ [x11; x12; x13; x00].


(** * Properties *)

(** ** Running the accessor monad *)

Lemma bind_returns {A B} (c : M A) (k : A -> M B) m a m' :
  c m = Returns (a, m') -> bind c k m = k a m'.
Proof. intros H. unfold bind. now rewrite H. Qed.

Lemma load_in_range m bm blk bytes off v :
  bmp_obj m = Some bm ->
  block_of bm blk = Some bytes ->
  0 <= off ->
  bytes !! Z.to_nat off = Some v ->
  load (blk, off) m = Returns (v, logged (LoadAt blk off) m).
Proof.
  intros Hm Hb Hoff Hv. unfold load. simpl. rewrite Hm, Hb.
  destruct (0 <=? off) eqn:E; [| lia]. now rewrite Hv.
Qed.

Lemma store_in_range m bm blk bytes off v :
  bmp_obj m = Some bm ->
  block_of bm blk = Some bytes ->
  0 <= off < Z.of_nat (length bytes) ->
  store (blk, off) v m =
  Returns (tt, logged (StoreAt blk off)
                 (with_bmp (set_block bm blk (<[Z.to_nat off := v]> bytes)) m)).
Proof.
  intros Hm Hb Hoff. unfold store. simpl. rewrite Hm, Hb.
  destruct (0 <=? off) eqn:E1; [| lia].
  destruct (off <? Z.of_nat (length bytes)) eqn:E2; [| lia].
  reflexivity.
Qed.

(** A reader through a possibly-NULL output pointer keeps the bitmap and
    the status, and fills the cell when there is one. *)
Lemma write_out_in_range cell m bm blk bytes off v :
  bmp_obj m = Some bm ->
  block_of bm blk = Some bytes ->
  0 <= off ->
  bytes !! Z.to_nat off = Some v ->
  exists m',
    write_out cell (blk, off) m = Returns (filled cell v, m') /\
    bmp_obj m' = Some bm /\
    BMP_LAST_ERROR_CODE m' = BMP_LAST_ERROR_CODE m.
Proof.
  intros Hm Hb Hoff Hv. destruct cell as [c|]; simpl.
  - exists (logged (LoadAt blk off) m). split; [| now split].
    erewrite bind_returns by (eapply load_in_range; eauto). reflexivity.
  - exists m. now repeat split.
Qed.

(** ** Sample bitmaps *)

Lemma indexed_2x2_created : blank 2 2 8 = Some indexed_2x2.
Proof. reflexivity. Qed.

Lemma rgb_2x2_created : blank 2 2 24 = Some rgb_2x2.
Proof. reflexivity. Qed.

Lemma indexed_2x2_valid : valid_bitmap indexed_2x2.
Proof.
  split; [split | | |]; simpl; try reflexivity; try lia.
Qed.

Lemma rgb_2x2_valid : valid_bitmap rgb_2x2.
Proof.
  split; [split | | |]; simpl; try reflexivity; try lia.
Qed.

Lemma painted_2x2_valid : valid_bitmap painted_2x2.
Proof.
  split; [split | | |]; simpl; try reflexivity; try lia.
Qed.

Lemma decoded_1x2_depth24_valid : valid_bitmap decoded_1x2_depth24.
Proof.
  split; [split | | |]; simpl; try reflexivity; try lia.
Qed.

(** ** C7: coordinates out of bounds *)

(** C7. For every bitmap and every [(x, y)] with [x >= Width] or
    [y >= Height], each of the four pixel accessors leaves
    [BMP_INVALID_ARGUMENT] in the status, touches no byte of either
    block (the access log is unchanged), leaves the bitmap and the output
    cells as they were; this holds whatever the depth and the block
    sizes are, so the test comes before the depth test and before any
    address is formed. *)
Theorem out_of_bounds_is_invalid_argument :
  forall (m : machine) (bm : BMP) (x y : Z),
    bmp_obj m = Some bm ->
    x >= Width (Header bm) \/ y >= Height (Header bm) ->
    (forall r g b,
        BMP_GetPixelRGB x y r g b m
        = Returns ((r, g, b), with_error BMP_INVALID_ARGUMENT m)) /\
    (forall r g b,
        BMP_SetPixelRGB x y r g b m
        = Returns (tt, with_error BMP_INVALID_ARGUMENT m)) /\
    (forall val,
        BMP_GetPixelIndex x y val m
        = Returns (val, with_error BMP_INVALID_ARGUMENT m)) /\
    (forall val,
        BMP_SetPixelIndex x y val m
        = Returns (tt, with_error BMP_INVALID_ARGUMENT m)) /\
    bmp_obj (with_error BMP_INVALID_ARGUMENT m) = Some bm /\
    accesses (with_error BMP_INVALID_ARGUMENT m) = accesses m.
Proof.
  intros m bm x y Hm Hout.
  assert (Htest : (x >=? Width (Header bm)) || (y >=? Height (Header bm)) = true).
  { apply orb_true_iff. destruct Hout; [left | right]; lia. }
  repeat split; intros;
    unfold BMP_GetPixelRGB, BMP_SetPixelRGB, BMP_GetPixelIndex, BMP_SetPixelIndex,
           bind, get_bmp; rewrite ?Hm; simpl; rewrite ?Htest; try reflexivity; assumption.
Qed.

Lemma out_of_bounds_witness :
  let m := on_bitmap (Some rgb_2x2) BMP_OK in
  (forall r g b,
      BMP_GetPixelRGB 2 0 r g b m
      = Returns ((r, g, b), with_error BMP_INVALID_ARGUMENT m)) /\
  (forall r g b,
      BMP_SetPixelRGB 2 0 r g b m
      = Returns (tt, with_error BMP_INVALID_ARGUMENT m)) /\
  (forall val,
      BMP_GetPixelIndex 2 0 val m
      = Returns (val, with_error BMP_INVALID_ARGUMENT m)) /\
  (forall val,
      BMP_SetPixelIndex 2 0 val m
      = Returns (tt, with_error BMP_INVALID_ARGUMENT m)) /\
  bmp_obj (with_error BMP_INVALID_ARGUMENT m) = Some rgb_2x2 /\
  accesses (with_error BMP_INVALID_ARGUMENT m) = accesses m.
Proof.
  apply (out_of_bounds_is_invalid_argument
           (on_bitmap (Some rgb_2x2) BMP_OK) rgb_2x2 2 0).
  - reflexivity.
  - left. simpl. lia.
Defined.

(** ** Pixel addresses in a valid bitmap *)

Lemma bytes_per_pixel_of_depth bits :
  bits = 8 \/ bits = 24 \/ bits = 32 ->
  u8 (Z.shiftr bits 3) = spec_BytesPerPixel bits /\
  1 <= spec_BytesPerPixel bits <= 4.
Proof.
  intros [-> | [-> | ->]]; vm_compute; repeat split; congruence.
Qed.

Lemma row_fits_stride width bpp :
  0 <= width * bpp -> width * bpp <= (width * bpp + 3) / 4 * 4.
Proof.
  intros H. pose proof (Z.div_mod (width * bpp + 3) 4 ltac:(lia)).
  pose proof (Z.mod_pos_bound (width * bpp + 3) 4 ltac:(lia)). lia.
Qed.

Lemma pixel_address_in_block h x y :
  header_invariants h ->
  ImageDataSize h < 2^32 ->
  0 <= x < Width h ->
  0 <= y < Height h ->
  pixel_address h x y (u8 (Z.shiftr (BitsPerPixel h) 3))
  = (DataBlock, spec_pixel_offset h x y) /\
  0 <= spec_pixel_offset h x y /\
  spec_pixel_offset h x y + spec_BytesPerPixel (BitsPerPixel h) <= ImageDataSize h.
Proof.
  intros Hinv Hfit Hx Hy.
  destruct (bytes_per_pixel_of_depth _ (inv_depth _ Hinv)) as [Hbpp Hrange].
  pose proof (inv_image_data_size _ Hinv) as Hsize.
  pose proof (inv_height _ Hinv) as Hh.
  unfold pixel_address, spec_pixel_offset. rewrite Hbpp.
  set (bpp := spec_BytesPerPixel (BitsPerPixel h)) in *.
  assert (Hrow : Width h * bpp <= spec_RowStride (Width h) (BitsPerPixel h)).
  { unfold spec_RowStride. fold bpp. apply row_fits_stride. nia. }
  set (stride := spec_RowStride (Width h) (BitsPerPixel h)) in *.
  assert (Hdiv : ImageDataSize h / Height h = stride).
  { rewrite Hsize. apply Z.div_mul. lia. }
  rewrite Hdiv.
  pose proof (inv_width _ Hinv) as Hw.
  assert (Hstride : 0 <= stride) by nia.
  assert (Hlo : 0 <= (Height h - 1 - y) * stride + x * bpp).
  { assert (0 <= (Height h - 1 - y) * stride) by nia.
    assert (0 <= x * bpp) by nia. lia. }
  assert (Hhi : (Height h - 1 - y) * stride + x * bpp + bpp <= ImageDataSize h).
  { assert ((x + 1) * bpp <= Width h * bpp) by nia.
    assert ((Height h - 1 - y) * stride <= (Height h - 1) * stride) by nia.
    rewrite Hsize. lia. }
  split; [| split; assumption].
  f_equal. unfold u32.
  replace ((Height h - y - 1) * stride + x * bpp)
    with ((Height h - 1 - y) * stride + x * bpp) by ring.
  apply Z.mod_small. lia.
Qed.

Lemma block_lookup (bytes : list byte) off :
  0 <= off < Z.of_nat (length bytes) ->
  exists v, bytes !! Z.to_nat off = Some v.
Proof.
  intros H. destruct (lookup_lt_is_Some_2 bytes (Z.to_nat off)) as [v Hv]; [lia |].
  now exists v.
Qed.

Lemma palette_lookup (pal : list byte) (i : byte) k :
  length pal = 1024%nat -> 0 <= k < 4 ->
  exists v, pal !! Z.to_nat (byte_to_Z i * 4 + k) = Some v.
Proof.
  intros Hlen Hk. apply block_lookup. unfold byte_to_Z.
  pose proof (Byte.to_N_bounded i). lia.
Qed.

(** ** Reading a pixel of a valid bitmap *)

Lemma in_bounds_test h x y :
  0 <= x < Width h -> 0 <= y < Height h ->
  (x >=? Width h) || (y >=? Height h) = false.
Proof. intros. apply orb_false_iff. split; lia. Qed.

Lemma valid_palette_present bm :
  valid_bitmap bm -> BitsPerPixel (Header bm) = 8 ->
  exists pal, Palette bm = Some pal /\ length pal = 1024%nat.
Proof.
  intros Hv H8. pose proof (valid_palette _ Hv) as Hp.
  destruct (Palette bm) as [pal|]; [| contradiction].
  exists pal. split; [reflexivity | apply Hp].
Qed.

(** Three reads through output pointers from consecutive bytes. *)
Lemma read_bgr m bm blk bytes off red green blue r g b :
  bmp_obj m = Some bm ->
  block_of bm blk = Some bytes ->
  0 <= off ->
  bytes !! Z.to_nat (off + 2) = Some red ->
  bytes !! Z.to_nat (off + 1) = Some green ->
  bytes !! Z.to_nat (off + 0) = Some blue ->
  exists m',
    (do r' <- write_out r (padd (blk, off) 2) ;;
     do g' <- write_out g (padd (blk, off) 1) ;;
     do b' <- write_out b (padd (blk, off) 0) ;;
     ret (r', g', b')) m
    = Returns ((filled r red, filled g green, filled b blue), m') /\
    bmp_obj m' = Some bm /\
    BMP_LAST_ERROR_CODE m' = BMP_LAST_ERROR_CODE m.
Proof.
  intros Hm Hb Hoff Hr Hg Hbl. unfold padd; simpl.
  destruct (write_out_in_range r m bm blk bytes (off + 2) red Hm Hb ltac:(lia) Hr)
    as (m1 & E1 & Hm1 & He1).
  destruct (write_out_in_range g m1 bm blk bytes (off + 1) green Hm1 Hb ltac:(lia) Hg)
    as (m2 & E2 & Hm2 & He2).
  destruct (write_out_in_range b m2 bm blk bytes (off + 0) blue Hm2 Hb ltac:(lia) Hbl)
    as (m3 & E3 & Hm3 & He3).
  exists m3. split; [| split; [assumption | congruence]].
  rewrite (bind_returns _ _ _ _ _ E1), (bind_returns _ _ _ _ _ E2),
          (bind_returns _ _ _ _ _ E3).
  reflexivity.
Qed.

(** Depth 8: the stored byte selects a palette entry. *)
Lemma GetPixelRGB_indexed m bm x y :
  bmp_obj m = Some bm ->
  valid_bitmap bm ->
  BitsPerPixel (Header bm) = 8 ->
  0 <= x < Width (Header bm) ->
  0 <= y < Height (Header bm) ->
  exists i pal red green blue,
    Data bm !! Z.to_nat (spec_pixel_offset (Header bm) x y) = Some i /\
    Palette bm = Some pal /\
    pal !! Z.to_nat (byte_to_Z i * 4 + 2) = Some red /\
    pal !! Z.to_nat (byte_to_Z i * 4 + 1) = Some green /\
    pal !! Z.to_nat (byte_to_Z i * 4 + 0) = Some blue /\
    forall r g b, exists m',
      BMP_GetPixelRGB x y r g b m
      = Returns ((filled r red, filled g green, filled b blue), m') /\
      bmp_obj m' = Some bm /\
      BMP_LAST_ERROR_CODE m' = BMP_OK.
Proof.
  intros Hm Hv H8 Hx Hy.
  destruct (valid_palette_present _ Hv H8) as (pal & Hpal & Hlen).
  destruct (pixel_address_in_block _ x y (valid_header _ Hv) (valid_size_fits _ Hv) Hx Hy)
    as (Haddr & Hlo & Hhi).
  rewrite H8 in Hhi. change (spec_BytesPerPixel 8) with 1 in Hhi.
  destruct (block_lookup (Data bm) (spec_pixel_offset (Header bm) x y)) as [i Hi].
  { rewrite (valid_data _ Hv). lia. }
  destruct (palette_lookup pal i 2 Hlen ltac:(lia)) as [red Hred].
  destruct (palette_lookup pal i 1 Hlen ltac:(lia)) as [green Hgreen].
  destruct (palette_lookup pal i 0 Hlen ltac:(lia)) as [blue Hblue].
  exists i, pal, red, green, blue. repeat (split; [assumption |]).
  intros r g b.
  assert (Hm1 : bmp_obj (with_error BMP_OK m) = Some bm) by exact Hm.
  assert (Hm2 : bmp_obj (logged (LoadAt DataBlock (spec_pixel_offset (Header bm) x y))
                           (with_error BMP_OK m)) = Some bm) by exact Hm.
  destruct (read_bgr _ bm PaletteBlock pal (byte_to_Z i * 4) red green blue r g b Hm2 Hpal)
    as (m' & E & Hm' & He'); try assumption.
  { unfold byte_to_Z. lia. }
  exists m'. split; [| split; [assumption | exact He']].
  unfold BMP_GetPixelRGB, bind at 1, get_bmp. rewrite Hm.
  rewrite (in_bounds_test _ _ _ Hx Hy).
  unfold bind at 1, set_error.
  rewrite Haddr, H8. simpl (8 =? 8).
  unfold bind at 1, bind at 1.
  rewrite (load_in_range _ bm DataBlock (Data bm) _ i Hm1 eq_refl Hlo Hi).
  unfold ret at 1. exact E.
Qed.

(** Depths 24 and 32: the pixel's own bytes, blue first. *)
Lemma GetPixelRGB_direct m bm x y :
  bmp_obj m = Some bm ->
  valid_bitmap bm ->
  BitsPerPixel (Header bm) <> 8 ->
  0 <= x < Width (Header bm) ->
  0 <= y < Height (Header bm) ->
  exists red green blue,
    Data bm !! Z.to_nat (spec_pixel_offset (Header bm) x y + 2) = Some red /\
    Data bm !! Z.to_nat (spec_pixel_offset (Header bm) x y + 1) = Some green /\
    Data bm !! Z.to_nat (spec_pixel_offset (Header bm) x y + 0) = Some blue /\
    forall r g b, exists m',
      BMP_GetPixelRGB x y r g b m
      = Returns ((filled r red, filled g green, filled b blue), m') /\
      bmp_obj m' = Some bm /\
      BMP_LAST_ERROR_CODE m' = BMP_OK.
Proof.
  intros Hm Hv H8 Hx Hy.
  destruct (pixel_address_in_block _ x y (valid_header _ Hv) (valid_size_fits _ Hv) Hx Hy)
    as (Haddr & Hlo & Hhi).
  assert (Hbpp : 3 <= spec_BytesPerPixel (BitsPerPixel (Header bm))).
  { destruct (inv_depth _ (valid_header _ Hv)) as [E | [E | E]]; rewrite E;
      [congruence | |]; vm_compute; congruence. }
  pose proof (valid_data _ Hv) as Hdata.
  destruct (block_lookup (Data bm) (spec_pixel_offset (Header bm) x y + 2)) as [red Hred];
    [lia |].
  destruct (block_lookup (Data bm) (spec_pixel_offset (Header bm) x y + 1)) as [green Hgreen];
    [lia |].
  destruct (block_lookup (Data bm) (spec_pixel_offset (Header bm) x y + 0)) as [blue Hblue];
    [lia |].
  exists red, green, blue. repeat (split; [assumption |]).
  intros r g b.
  assert (Hm1 : bmp_obj (with_error BMP_OK m) = Some bm) by exact Hm.
  destruct (read_bgr _ bm DataBlock (Data bm) (spec_pixel_offset (Header bm) x y)
              red green blue r g b Hm1 eq_refl Hlo Hred Hgreen Hblue)
    as (m' & E & Hm' & He').
  exists m'. split; [| split; [assumption | exact He']].
  unfold BMP_GetPixelRGB, bind at 1, get_bmp. rewrite Hm.
  rewrite (in_bounds_test _ _ _ Hx Hy).
  unfold bind at 1, set_error.
  rewrite Haddr.
  destruct (BitsPerPixel (Header bm) =? 8) eqn:E8; [lia |].
  unfold bind at 1, ret at 1. exact E.
Qed.

Lemma GetPixelIndex_reads m bm x y :
  bmp_obj m = Some bm ->
  valid_bitmap bm ->
  BitsPerPixel (Header bm) = 8 ->
  0 <= x < Width (Header bm) ->
  0 <= y < Height (Header bm) ->
  exists i,
    Data bm !! Z.to_nat (spec_pixel_offset (Header bm) x y) = Some i /\
    forall val, exists m',
      BMP_GetPixelIndex x y val m = Returns (filled val i, m') /\
      bmp_obj m' = Some bm /\
      BMP_LAST_ERROR_CODE m' = BMP_OK.
Proof.
  intros Hm Hv H8 Hx Hy.
  destruct (pixel_address_in_block _ x y (valid_header _ Hv) (valid_size_fits _ Hv) Hx Hy)
    as (Haddr & Hlo & Hhi).
  rewrite H8 in Hhi, Haddr. change (spec_BytesPerPixel 8) with 1 in Hhi.
  change (u8 (Z.shiftr 8 3)) with 1 in Haddr.
  destruct (block_lookup (Data bm) (spec_pixel_offset (Header bm) x y)) as [i Hi].
  { rewrite (valid_data _ Hv). lia. }
  exists i. split; [assumption |]. intros val.
  assert (Hm1 : bmp_obj (with_error BMP_OK m) = Some bm) by exact Hm.
  destruct (write_out_in_range val _ bm DataBlock (Data bm) _ i Hm1 eq_refl Hlo Hi)
    as (m' & E & Hm' & He').
  exists m'. split; [| split; [assumption | exact He']].
  unfold BMP_GetPixelIndex, bind at 1, get_bmp. rewrite Hm.
  rewrite (in_bounds_test _ _ _ Hx Hy), H8. simpl (negb (8 =? 8)). cbv iota.
  unfold bind at 1, set_error. rewrite Haddr. exact E.
Qed.

Lemma GetPaletteColor_reads m bm pal index :
  bmp_obj m = Some bm ->
  BitsPerPixel (Header bm) = 8 ->
  Palette bm = Some pal ->
  length pal = 1024%nat ->
  exists red green blue,
    pal !! Z.to_nat (byte_to_Z index * 4 + 2) = Some red /\
    pal !! Z.to_nat (byte_to_Z index * 4 + 1) = Some green /\
    pal !! Z.to_nat (byte_to_Z index * 4 + 0) = Some blue /\
    forall r g b, exists m',
      BMP_GetPaletteColor index r g b m
      = Returns ((filled r red, filled g green, filled b blue), m') /\
      bmp_obj m' = Some bm /\
      BMP_LAST_ERROR_CODE m' = BMP_OK.
Proof.
  intros Hm H8 Hpal Hlen.
  destruct (palette_lookup pal index 2 Hlen ltac:(lia)) as [red Hred].
  destruct (palette_lookup pal index 1 Hlen ltac:(lia)) as [green Hgreen].
  destruct (palette_lookup pal index 0 Hlen ltac:(lia)) as [blue Hblue].
  exists red, green, blue. repeat (split; [assumption |]).
  intros r g b.
  assert (Hpos : 0 <= byte_to_Z index * 4) by (unfold byte_to_Z; lia).
  unfold BMP_GetPaletteColor, bind at 1, get_bmp. rewrite Hm, H8.
  simpl (negb (8 =? 8)). cbv iota. unfold palette_entry, padd; simpl.
  destruct (write_out_in_range r m bm PaletteBlock pal (byte_to_Z index * 4 + 2) red Hm Hpal ltac:(lia) Hred)
    as (m1 & E1 & Hm1 & He1).
  destruct (write_out_in_range g m1 bm PaletteBlock pal (byte_to_Z index * 4 + 1) green Hm1 Hpal ltac:(lia) Hgreen)
    as (m2 & E2 & Hm2 & He2).
  destruct (write_out_in_range b m2 bm PaletteBlock pal (byte_to_Z index * 4 + 0) blue Hm2 Hpal ltac:(lia) Hblue)
    as (m3 & E3 & Hm3 & He3).
  exists (with_error BMP_OK m3). split; [| split; [exact Hm3 | reflexivity]].
  rewrite (bind_returns _ _ _ _ _ E1), (bind_returns _ _ _ _ _ E2),
          (bind_returns _ _ _ _ _ E3).
  reflexivity.
Qed.

Lemma SetPaletteColor_stores m bm pal index r g b :
  bmp_obj m = Some bm ->
  BitsPerPixel (Header bm) = 8 ->
  Palette bm = Some pal ->
  length pal = 1024%nat ->
  exists m',
    BMP_SetPaletteColor index r g b m = Returns (tt, m') /\
    bmp_obj m' = Some {| Header := Header bm;
                         Palette := Some (palette_with pal index r g b);
                         Data := Data bm |} /\
    BMP_LAST_ERROR_CODE m' = BMP_OK.
Proof.
  intros Hm H8 Hpal Hlen.
  assert (Hrange : 0 <= byte_to_Z index * 4 /\ byte_to_Z index * 4 + 3 < 1024).
  { unfold byte_to_Z. pose proof (Byte.to_N_bounded index). lia. }
  unfold BMP_SetPaletteColor, bind at 1, get_bmp. rewrite Hm, H8.
  simpl (negb (8 =? 8)). cbv iota. unfold palette_entry, padd; simpl fst; simpl snd.
  erewrite bind_returns.
  2:{ eapply store_in_range; [exact Hm | exact Hpal | lia]. }
  erewrite bind_returns.
  2:{ eapply store_in_range; [reflexivity | reflexivity |].
      rewrite length_insert. lia. }
  erewrite bind_returns.
  2:{ eapply store_in_range; [reflexivity | reflexivity |].
      rewrite !length_insert. lia. }
  eexists. split; [reflexivity |]. split; reflexivity.
Qed.

(** ** C8: the accessor must fit the depth *)

(** C8. In bounds: [BMP_SetPixelRGB] on a depth-8 bitmap, and
    [BMP_GetPixelIndex] and [BMP_SetPixelIndex] on a depth-24 or depth-32
    bitmap, leave [BMP_TYPE_MISMATCH] and change nothing else (bitmap,
    output cell and access log are as before); [BMP_GetPixelRGB] on a
    valid depth-8 bitmap succeeds with the red, green and blue bytes of
    the palette entry that the stored byte selects. *)
Theorem depth_gating :
  forall (m : machine) (bm : BMP) (x y : Z),
    bmp_obj m = Some bm ->
    0 <= x < Width (Header bm) ->
    0 <= y < Height (Header bm) ->
    (BitsPerPixel (Header bm) = 8 ->
     forall r g b,
       BMP_SetPixelRGB x y r g b m = Returns (tt, with_error BMP_TYPE_MISMATCH m)) /\
    (BitsPerPixel (Header bm) = 24 \/ BitsPerPixel (Header bm) = 32 ->
     forall val,
       BMP_GetPixelIndex x y val m = Returns (val, with_error BMP_TYPE_MISMATCH m) /\
       forall v,
         BMP_SetPixelIndex x y v m = Returns (tt, with_error BMP_TYPE_MISMATCH m)) /\
    (BitsPerPixel (Header bm) = 8 ->
     valid_bitmap bm ->
     exists i pal red green blue,
       Data bm !! Z.to_nat (spec_pixel_offset (Header bm) x y) = Some i /\
       Palette bm = Some pal /\
       length pal = 1024%nat /\
       pal !! Z.to_nat (byte_to_Z i * 4 + 2) = Some red /\
       pal !! Z.to_nat (byte_to_Z i * 4 + 1) = Some green /\
       pal !! Z.to_nat (byte_to_Z i * 4 + 0) = Some blue /\
       forall r g b, exists m',
         BMP_GetPixelRGB x y (Some r) (Some g) (Some b) m
         = Returns ((Some red, Some green, Some blue), m') /\
         bmp_obj m' = Some bm /\
         BMP_LAST_ERROR_CODE m' = BMP_OK).
Proof.
  intros m bm x y Hm Hx Hy.
  pose proof (in_bounds_test _ _ _ Hx Hy) as Htest.
  split; [| split].
  - intros H8 r g b.
    unfold BMP_SetPixelRGB, bind, get_bmp. rewrite Hm, Htest, H8. reflexivity.
  - intros Hd val.
    assert (E : negb (BitsPerPixel (Header bm) =? 8) = true).
    { apply negb_true_iff, Z.eqb_neq. lia. }
    split; [| intros v];
      unfold BMP_GetPixelIndex, BMP_SetPixelIndex, bind, get_bmp;
      rewrite Hm, Htest, E; reflexivity.
  - intros H8 Hv.
    destruct (GetPixelRGB_indexed m bm x y Hm Hv H8 Hx Hy)
      as (i & pal & red & green & blue & Hi & Hpal & Hr & Hg & Hb & Hget).
    destruct (valid_palette_present _ Hv H8) as (pal0 & Hpal0 & Hlen).
    assert (pal0 = pal) by congruence. subst pal0.
    exists i, pal, red, green, blue. repeat (split; [assumption |]).
    intros r g b. exact (Hget (Some r) (Some g) (Some b)).
Qed.

Lemma depth_gating_witness :
  (forall r g b,
      BMP_SetPixelRGB 1 1 r g b (on_bitmap (Some indexed_2x2) BMP_OK)
      = Returns (tt, with_error BMP_TYPE_MISMATCH (on_bitmap (Some indexed_2x2) BMP_OK))) /\
  (forall val,
      BMP_GetPixelIndex 1 1 val (on_bitmap (Some rgb_2x2) BMP_OK)
      = Returns (val, with_error BMP_TYPE_MISMATCH (on_bitmap (Some rgb_2x2) BMP_OK))) /\
  (exists m',
      BMP_GetPixelRGB 1 1 (Some x01) (Some x02) (Some x03)
                      (on_bitmap (Some indexed_2x2) BMP_OK)
      = Returns ((Some x00, Some x00, Some x00), m') /\
      BMP_LAST_ERROR_CODE m' = BMP_OK).
Proof.
  destruct (depth_gating (on_bitmap (Some indexed_2x2) BMP_OK) indexed_2x2 1 1
              eq_refl ltac:(simpl; lia) ltac:(simpl; lia)) as (Hset & _ & Hget).
  destruct (depth_gating (on_bitmap (Some rgb_2x2) BMP_OK) rgb_2x2 1 1
              eq_refl ltac:(simpl; lia) ltac:(simpl; lia)) as (_ & Hidx & _).
  split; [exact (Hset eq_refl) |].
  split; [intros val; exact (proj1 (Hidx (or_introl eq_refl) val)) |].
  destruct (Hget eq_refl indexed_2x2_valid)
    as (i & pal & red & green & blue & Hi & Hpal & Hlen & Hr & Hg & Hb & Hrun).
  destruct (Hrun x01 x02 x03) as (m' & E & _ & He).
  exists m'. split; [| exact He].
  rewrite E.
  injection Hpal as <-.
  vm_compute in Hi. injection Hi as <-.
  vm_compute in Hr, Hg, Hb. congruence.
Defined.

(** ** C9: the palette *)

Lemma byte_to_Z_range (i : byte) : 0 <= byte_to_Z i < 256.
Proof. unfold byte_to_Z. pose proof (Byte.to_N_bounded i). lia. Qed.

Lemma byte_to_Z_inj (i j : byte) : byte_to_Z i = byte_to_Z j -> i = j.
Proof.
  unfold byte_to_Z. intros H. apply N2Z.inj in H.
  pose proof (Byte.of_to_N i) as Hi. rewrite H, Byte.of_to_N in Hi. congruence.
Qed.

Lemma palette_with_length pal index r g b :
  length (palette_with pal index r g b) = length pal.
Proof. unfold palette_with. now rewrite !length_insert. Qed.

(** Storage order inside the entry: blue, green, red, then the untouched
    reserved byte. *)
Lemma palette_with_entry pal index r g b :
  length pal = 1024%nat ->
  palette_with pal index r g b !! Z.to_nat (byte_to_Z index * 4 + 0) = Some b /\
  palette_with pal index r g b !! Z.to_nat (byte_to_Z index * 4 + 1) = Some g /\
  palette_with pal index r g b !! Z.to_nat (byte_to_Z index * 4 + 2) = Some r /\
  palette_with pal index r g b !! Z.to_nat (byte_to_Z index * 4 + 3)
  = pal !! Z.to_nat (byte_to_Z index * 4 + 3).
Proof.
  intros Hlen. pose proof (byte_to_Z_range index) as Hi. unfold palette_with.
  repeat split.
  - apply list_lookup_insert_eq. rewrite !length_insert. lia.
  - rewrite list_lookup_insert_ne by lia.
    apply list_lookup_insert_eq. rewrite !length_insert. lia.
  - rewrite !list_lookup_insert_ne by lia.
    apply list_lookup_insert_eq. lia.
  - now rewrite !list_lookup_insert_ne by lia.
Qed.

Lemma palette_with_other pal index r g b (j : byte) k :
  j <> index -> 0 <= k < 4 ->
  palette_with pal index r g b !! Z.to_nat (byte_to_Z j * 4 + k)
  = pal !! Z.to_nat (byte_to_Z j * 4 + k).
Proof.
  intros Hne Hk. pose proof (byte_to_Z_range index). pose proof (byte_to_Z_range j).
  assert (byte_to_Z j <> byte_to_Z index) by (intros E; apply Hne, byte_to_Z_inj, E).
  unfold palette_with. now rewrite !list_lookup_insert_ne by lia.
Qed.

(** C9. On a valid depth-8 bitmap, [BMP_SetPaletteColor index r g b]
    succeeds and changes only the palette; afterwards
    [BMP_GetPaletteColor index] returns [(r, g, b)], and so does
    [BMP_GetPixelRGB] at every pixel whose stored byte is [index]; the
    bytes of every other entry are as before and the accessor reads
    them as before; inside entry [index] the bytes are blue, green, red,
    and the fourth (reserved) byte is untouched. *)
Theorem palette_set_then_get :
  forall (m : machine) (bm : BMP) (index r g b : byte),
    bmp_obj m = Some bm ->
    valid_bitmap bm ->
    BitsPerPixel (Header bm) = 8 ->
    exists pal m',
      Palette bm = Some pal /\
      BMP_SetPaletteColor index r g b m = Returns (tt, m') /\
      BMP_LAST_ERROR_CODE m' = BMP_OK /\
      bmp_obj m' = Some {| Header := Header bm;
                           Palette := Some (palette_with pal index r g b);
                           Data := Data bm |} /\
      (palette_with pal index r g b !! Z.to_nat (byte_to_Z index * 4 + 0) = Some b /\
       palette_with pal index r g b !! Z.to_nat (byte_to_Z index * 4 + 1) = Some g /\
       palette_with pal index r g b !! Z.to_nat (byte_to_Z index * 4 + 2) = Some r /\
       palette_with pal index r g b !! Z.to_nat (byte_to_Z index * 4 + 3)
       = pal !! Z.to_nat (byte_to_Z index * 4 + 3)) /\
      (forall (j : byte) k, j <> index -> 0 <= k < 4 ->
         palette_with pal index r g b !! Z.to_nat (byte_to_Z j * 4 + k)
         = pal !! Z.to_nat (byte_to_Z j * 4 + k)) /\
      (forall r0 g0 b0, exists m'',
         BMP_GetPaletteColor index (Some r0) (Some g0) (Some b0) m'
         = Returns ((Some r, Some g, Some b), m'') /\
         BMP_LAST_ERROR_CODE m'' = BMP_OK) /\
      (forall x y,
         0 <= x < Width (Header bm) ->
         0 <= y < Height (Header bm) ->
         Data bm !! Z.to_nat (spec_pixel_offset (Header bm) x y) = Some index ->
         forall r0 g0 b0, exists m'',
           BMP_GetPixelRGB x y (Some r0) (Some g0) (Some b0) m'
           = Returns ((Some r, Some g, Some b), m'') /\
           BMP_LAST_ERROR_CODE m'' = BMP_OK) /\
      (forall (j : byte), j <> index ->
         forall r0 g0 b0, exists color m1 m2,
           BMP_GetPaletteColor j (Some r0) (Some g0) (Some b0) m = Returns (color, m1) /\
           BMP_GetPaletteColor j (Some r0) (Some g0) (Some b0) m' = Returns (color, m2)).
Proof.
  intros m bm index r g b Hm Hv H8.
  destruct (valid_palette_present _ Hv H8) as (pal & Hpal & Hlen).
  destruct (SetPaletteColor_stores m bm pal index r g b Hm H8 Hpal Hlen)
    as (m' & Hset & Hm' & He').
  destruct (palette_with_entry pal index r g b Hlen) as (Hb & Hg & Hr & Hres).
  set (pal' := palette_with pal index r g b) in *.
  set (bm' := {| Header := Header bm; Palette := Some pal'; Data := Data bm |}) in *.
  assert (Hlen' : length pal' = 1024%nat)
    by (unfold pal'; now rewrite palette_with_length).
  assert (Hv' : valid_bitmap bm').
  { destruct Hv as [Hh Hfit Hdata _]. split; simpl; try assumption. now split. }
  exists pal, m'. repeat (split; [assumption |]).
  split; [now repeat split |].
  split; [intros j k Hj Hk; now apply palette_with_other |].
  split; [| split].
  - intros r0 g0 b0.
    destruct (GetPaletteColor_reads m' bm' pal' index Hm' H8 eq_refl Hlen')
      as (red & green & blue & Hr' & Hg' & Hb' & Hget).
    destruct (Hget (Some r0) (Some g0) (Some b0)) as (m'' & E & _ & He'').
    exists m''. split; [| exact He'']. rewrite E. simpl. congruence.
  - intros x y Hx Hy Hstored r0 g0 b0.
    destruct (GetPixelRGB_indexed m' bm' x y Hm' Hv' H8 Hx Hy)
      as (i & pal0 & red & green & blue & Hi & Hpal0 & Hr' & Hg' & Hb' & Hget).
    simpl in Hi, Hpal0. injection Hpal0 as <-.
    unfold spec_pixel_offset in Hstored. unfold spec_pixel_offset in Hi. simpl in Hi.
    assert (i = index) by congruence. subst i.
    destruct (Hget (Some r0) (Some g0) (Some b0)) as (m'' & E & _ & He'').
    exists m''. split; [| exact He'']. rewrite E. simpl. congruence.
  - intros j Hj r0 g0 b0.
    destruct (GetPaletteColor_reads m bm pal j Hm H8 Hpal Hlen)
      as (red & green & blue & Hr1 & Hg1 & Hb1 & Hget1).
    destruct (GetPaletteColor_reads m' bm' pal' j Hm' H8 eq_refl Hlen')
      as (red' & green' & blue' & Hr2 & Hg2 & Hb2 & Hget2).
    unfold pal' in Hr2, Hg2, Hb2.
    rewrite palette_with_other in Hr2, Hg2, Hb2 by (assumption || lia).
    destruct (Hget1 (Some r0) (Some g0) (Some b0)) as (m1 & E1 & _).
    destruct (Hget2 (Some r0) (Some g0) (Some b0)) as (m2 & E2 & _).
    exists (Some red, Some green, Some blue), m1, m2. split; [exact E1 |].
    rewrite E2. simpl. congruence.
Qed.

Lemma palette_set_then_get_witness :
  exists m',
    BMP_SetPaletteColor x05 x0a x14 x1e (on_bitmap (Some indexed_2x2) BMP_OK)
    = Returns (tt, m') /\
    BMP_LAST_ERROR_CODE m' = BMP_OK /\
    exists m'',
      BMP_GetPaletteColor x05 (Some x00) (Some x00) (Some x00) m'
      = Returns ((Some x0a, Some x14, Some x1e), m'') /\
      BMP_LAST_ERROR_CODE m'' = BMP_OK.
Proof.
  destruct (palette_set_then_get (on_bitmap (Some indexed_2x2) BMP_OK) indexed_2x2
              x05 x0a x14 x1e eq_refl indexed_2x2_valid eq_refl)
    as (pal & m' & _ & Hset & He & _ & _ & _ & Hget & _).
  exists m'. split; [exact Hset |]. split; [exact He |]. exact (Hget x00 x00 x00).
Defined.

(** ** C10: NULL output pointers *)

(** C10. On a valid bitmap and in bounds, [BMP_GetPixelRGB] (any depth),
    and on depth 8 also [BMP_GetPixelIndex] and [BMP_GetPaletteColor],
    end with status [BMP_OK] and the bitmap unchanged whichever of their
    output pointers are NULL.  Each non-NULL cell receives the value it
    receives when all pointers are given, and that value is the byte of
    the bitmap the reader is to deliver: for [BMP_GetPixelRGB] at depth
    24 or 32 the pixel's bytes at offsets +2, +1, +0 (red, green, blue);
    at depth 8 the bytes +2, +1, +0 of the palette entry selected by the
    pixel's byte; for [BMP_GetPixelIndex] the pixel's byte; for
    [BMP_GetPaletteColor] the bytes +2, +1, +0 of the entry asked for.
    Each NULL cell is skipped. *)
Theorem readers_accept_null_outputs :
  forall (m : machine) (bm : BMP) (x y : Z),
    bmp_obj m = Some bm ->
    valid_bitmap bm ->
    0 <= x < Width (Header bm) ->
    0 <= y < Height (Header bm) ->
    (BitsPerPixel (Header bm) <> 8 ->
     exists red green blue,
       Data bm !! Z.to_nat (spec_pixel_offset (Header bm) x y + 2) = Some red /\
       Data bm !! Z.to_nat (spec_pixel_offset (Header bm) x y + 1) = Some green /\
       Data bm !! Z.to_nat (spec_pixel_offset (Header bm) x y + 0) = Some blue /\
       forall r g b, exists m',
         BMP_GetPixelRGB x y r g b m
         = Returns ((filled r red, filled g green, filled b blue), m') /\
         bmp_obj m' = Some bm /\
         BMP_LAST_ERROR_CODE m' = BMP_OK) /\
    (BitsPerPixel (Header bm) = 8 ->
     exists i pal red green blue,
       Data bm !! Z.to_nat (spec_pixel_offset (Header bm) x y) = Some i /\
       Palette bm = Some pal /\
       pal !! Z.to_nat (byte_to_Z i * 4 + 2) = Some red /\
       pal !! Z.to_nat (byte_to_Z i * 4 + 1) = Some green /\
       pal !! Z.to_nat (byte_to_Z i * 4 + 0) = Some blue /\
       (forall r g b, exists m',
           BMP_GetPixelRGB x y r g b m
           = Returns ((filled r red, filled g green, filled b blue), m') /\
           bmp_obj m' = Some bm /\
           BMP_LAST_ERROR_CODE m' = BMP_OK) /\
       (forall val, exists m',
           BMP_GetPixelIndex x y val m = Returns (filled val i, m') /\
           bmp_obj m' = Some bm /\
           BMP_LAST_ERROR_CODE m' = BMP_OK)) /\
    (BitsPerPixel (Header bm) = 8 ->
     forall index, exists pal red green blue,
       Palette bm = Some pal /\
       pal !! Z.to_nat (byte_to_Z index * 4 + 2) = Some red /\
       pal !! Z.to_nat (byte_to_Z index * 4 + 1) = Some green /\
       pal !! Z.to_nat (byte_to_Z index * 4 + 0) = Some blue /\
       forall r g b, exists m',
         BMP_GetPaletteColor index r g b m
         = Returns ((filled r red, filled g green, filled b blue), m') /\
         bmp_obj m' = Some bm /\
         BMP_LAST_ERROR_CODE m' = BMP_OK).
Proof.
  intros m bm x y Hm Hv Hx Hy. split; [| split].
  - intros H8.
    destruct (GetPixelRGB_direct m bm x y Hm Hv H8 Hx Hy)
      as (red & green & blue & Hr & Hg & Hb & Hget).
    exists red, green, blue. repeat (split; [assumption |]). exact Hget.
  - intros H8.
    destruct (GetPixelRGB_indexed m bm x y Hm Hv H8 Hx Hy)
      as (i & pal & red & green & blue & Hi & Hpal & Hr & Hg & Hb & Hget).
    destruct (GetPixelIndex_reads m bm x y Hm Hv H8 Hx Hy) as (i' & Hi' & Hidx).
    assert (i' = i) by congruence. subst i'.
    exists i, pal, red, green, blue. repeat (split; [assumption |]). exact Hidx.
  - intros H8 index.
    destruct (valid_palette_present _ Hv H8) as (pal & Hpal & Hlen).
    destruct (GetPaletteColor_reads m bm pal index Hm H8 Hpal Hlen)
      as (red & green & blue & Hr & Hg & Hb & Hget).
    exists pal, red, green, blue. repeat (split; [assumption |]). exact Hget.
Qed.

Lemma readers_accept_null_outputs_witness :
  (exists m',
     BMP_GetPixelRGB 0 1 None (Some xff) None
                     (on_bitmap (Some decoded_1x2_depth24) BMP_ERROR)
     = Returns ((None, Some x11, None), m') /\
     BMP_LAST_ERROR_CODE m' = BMP_OK) /\
  (exists m',
     BMP_GetPixelRGB 0 0 (Some xff) None (Some xff)
                     (on_bitmap (Some painted_2x2) BMP_ERROR)
     = Returns ((Some x0a, None, Some x1e), m') /\
     BMP_LAST_ERROR_CODE m' = BMP_OK) /\
  (exists m',
     BMP_GetPixelIndex 0 0 None (on_bitmap (Some painted_2x2) BMP_ERROR)
     = Returns (None, m') /\
     BMP_LAST_ERROR_CODE m' = BMP_OK) /\
  (exists m',
     BMP_GetPixelIndex 0 0 (Some xff) (on_bitmap (Some painted_2x2) BMP_ERROR)
     = Returns (Some x05, m') /\
     BMP_LAST_ERROR_CODE m' = BMP_OK) /\
  (exists m',
     BMP_GetPaletteColor x05 None (Some xff) None
                         (on_bitmap (Some painted_2x2) BMP_ERROR)
     = Returns ((None, Some x14, None), m') /\
     BMP_LAST_ERROR_CODE m' = BMP_OK).
Proof.
  destruct (readers_accept_null_outputs
              (on_bitmap (Some decoded_1x2_depth24) BMP_ERROR) decoded_1x2_depth24 0 1
              eq_refl decoded_1x2_depth24_valid ltac:(simpl; lia) ltac:(simpl; lia))
    as (Hdirect & _ & _).
  destruct (readers_accept_null_outputs
              (on_bitmap (Some painted_2x2) BMP_ERROR) painted_2x2 0 0
              eq_refl painted_2x2_valid ltac:(simpl; lia) ltac:(simpl; lia))
    as (_ & Hindexed & Hpalette).
  destruct (Hdirect ltac:(simpl; lia)) as (red & green & blue & _ & Hg & _ & Hrgb).
  vm_compute in Hg. injection Hg as <-.
  destruct (Hindexed eq_refl)
    as (i & pal & red' & green' & blue' & Hi & Hpal & Hr' & _ & Hb' & Hrgb' & Hidx).
  vm_compute in Hi. injection Hi as <-.
  injection Hpal as <-.
  vm_compute in Hr'. injection Hr' as <-.
  vm_compute in Hb'. injection Hb' as <-.
  destruct (Hpalette eq_refl x05) as (pal & red'' & green'' & blue'' & Hpal & _ & Hg'' & _ & Hcol).
  injection Hpal as <-.
  vm_compute in Hg''. injection Hg'' as <-.
  split; [| split; [| split; [| split]]].
  - destruct (Hrgb None (Some xff) None) as (m' & E & _ & He). exists m'. now split.
  - destruct (Hrgb' (Some xff) None (Some xff)) as (m' & E & _ & He). exists m'. now split.
  - destruct (Hidx None) as (m' & E & _ & He). exists m'. now split.
  - destruct (Hidx (Some xff)) as (m' & E & _ & He). exists m'. now split.
  - destruct (Hcol None (Some xff) None) as (m' & E & _ & He). exists m'. now split.
Defined.

(** ** BMP_Create *)

Lemma pad_to_multiple_of_4 r :
  (r + 3) / 4 * 4 = r + (if negb (r mod 4 =? 0) then 4 - r mod 4 else 0).
Proof.
  pose proof (Z.div_mod r 4 ltac:(lia)) as Hr.
  pose proof (Z.mod_pos_bound r 4 ltac:(lia)) as Hb.
  pose proof (Z.div_mod (r + 3) 4 ltac:(lia)) as Hr3.
  pose proof (Z.mod_pos_bound (r + 3) 4 ltac:(lia)) as Hb3.
  destruct (r mod 4 =? 0) eqn:E; simpl; lia.
Qed.

Lemma u32_mod_4 r : u32 r mod 4 = r mod 4.
Proof.
  unfold u32. apply Z.mod_mod_divide. exists (2^30). reflexivity.
Qed.

Lemma u32_idem_add_l a b : u32 (u32 a + b) = u32 (a + b).
Proof. unfold u32. apply Z.add_mod_idemp_l. lia. Qed.

Lemma u32_idem_mul_l a b : u32 (u32 a * b) = u32 (a * b).
Proof. unfold u32. apply Z.mul_mod_idemp_l. lia. Qed.

Lemma u32_small z : 0 <= z < 2^32 -> u32 z = z.
Proof. intros H. unfold u32. now apply Z.mod_small. Qed.

(** The row size that [BMP_Create] computes is the specification's
    [RowStride], reduced modulo [2^32]. *)
Lemma create_bytes_per_row width bpp :
  u32 (u32 (width * bpp)
       + (if negb (u32 (width * bpp) mod 4 =? 0)
          then 4 - u32 (width * bpp) mod 4 else 0))
  = u32 ((width * bpp + 3) / 4 * 4).
Proof.
  rewrite u32_mod_4, u32_idem_add_l. now rewrite pad_to_multiple_of_4.
Qed.

Lemma depth_cases depth :
  depth = 8 \/ depth = 24 \/ depth = 32 ->
  negb (depth =? 8) && negb (depth =? 24) && negb (depth =? 32) = false /\
  Z.shiftr depth 3 = spec_BytesPerPixel depth.
Proof. intros [-> | [-> | ->]]; split; reflexivity. Qed.

Lemma BMP_Create_cases env width height depth :
  BMP_Create env width height depth =
  if (height <=? 0) || (width <=? 0) then (None, BMP_INVALID_ARGUMENT)
  else if negb (depth =? 8) && negb (depth =? 24) && negb (depth =? 32)
  then (None, BMP_FILE_NOT_SUPPORTED)
  else if negb (can_alloc env (sizeof_BMP env)) then (None, BMP_OUT_OF_MEMORY)
  else if (depth =? 8) && negb (can_alloc env BMP_PALETTE_SIZE)
  then (None, BMP_OUT_OF_MEMORY)
  else if negb (can_alloc env (ImageDataSize (created_header width height depth)))
  then (None, BMP_OUT_OF_MEMORY)
  else (Some {| Header := created_header width height depth;
                Palette := if depth =? 8 then Some (calloc_block BMP_PALETTE_SIZE) else None;
                Data := calloc_block (ImageDataSize (created_header width height depth)) |},
        BMP_OK).
Proof.
  unfold BMP_Create.
  destruct ((height <=? 0) || (width <=? 0)); [reflexivity |].
  destruct (negb (depth =? 8) && negb (depth =? 24) && negb (depth =? 32)) eqn:Ed;
    [reflexivity |].
  assert (Hd : depth = 8 \/ depth = 24 \/ depth = 32).
  { apply andb_false_iff in Ed as [Ed | Ed];
      [apply andb_false_iff in Ed as [Ed | Ed] |];
      apply negb_false_iff, Z.eqb_eq in Ed; auto. }
  destruct (depth_cases _ Hd) as [_ Hbpp].
  rewrite Hbpp, create_bytes_per_row, u32_idem_mul_l.
  reflexivity.
Qed.

Lemma spec_RowStride_nonneg width depth :
  0 < width -> depth = 8 \/ depth = 24 \/ depth = 32 ->
  0 <= spec_RowStride width depth.
Proof.
  intros Hw Hd. unfold spec_RowStride.
  assert (1 <= spec_BytesPerPixel depth)
    by (destruct Hd as [-> | [-> | ->]]; vm_compute; congruence).
  pose proof (row_fits_stride width (spec_BytesPerPixel depth) ltac:(nia)). nia.
Qed.

(** ** C5: what [BMP_Create] returns *)

(** C5 (amended). [BMP_Create] leaves [BMP_INVALID_ARGUMENT] and returns
    NULL when width or height is not positive, and
    [BMP_FILE_NOT_SUPPORTED] and NULL when the depth is not 8, 24 or 32.
    Otherwise, provided [DataOffset + RowStride * height] fits the 32-bit
    header fields and the allocations succeed, it returns a bitmap with
    [ImageDataSize = RowStride * height] for
    [RowStride = ceil(width * BytesPerPixel / 4) * 4],
    [DataOffset = 54 (+ 1024 for depth 8)],
    [FileSize = DataOffset + ImageDataSize], magic [0x4D42], one plane,
    no compression, zero resolutions and colour counts, a zero-filled
    pixel block of [ImageDataSize] bytes and a zero-filled 1024-byte
    palette exactly for depth 8.  The four sample strides are 4, 8, 8
    and 16. *)
Theorem BMP_Create_contract :
  forall (env : environment) (width height depth : Z),
    (height <= 0 \/ width <= 0 ->
     BMP_Create env width height depth = (None, BMP_INVALID_ARGUMENT)) /\
    (0 < height -> 0 < width -> depth <> 8 -> depth <> 24 -> depth <> 32 ->
     BMP_Create env width height depth = (None, BMP_FILE_NOT_SUPPORTED)) /\
    (0 < height -> 0 < width -> depth = 8 \/ depth = 24 \/ depth = 32 ->
     spec_DataOffset depth + spec_RowStride width depth * height < 2^32 ->
     can_alloc env (sizeof_BMP env) = true ->
     (depth = 8 -> can_alloc env BMP_PALETTE_SIZE = true) ->
     can_alloc env (spec_RowStride width depth * height) = true ->
     BMP_Create env width height depth =
     (Some {| Header :=
                {| Magic := 0x4D42;
                   FileSize := spec_DataOffset depth + spec_RowStride width depth * height;
                   Reserved1 := 0; Reserved2 := 0;
                   DataOffset := spec_DataOffset depth;
                   HeaderSize := 40; Width := width; Height := height; Planes := 1;
                   BitsPerPixel := depth; CompressionType := 0;
                   ImageDataSize := spec_RowStride width depth * height;
                   HPixelsPerMeter := 0; VPixelsPerMeter := 0;
                   ColorsUsed := 0; ColorsRequired := 0 |};
              Palette := if depth =? 8 then Some (replicate 1024 x00) else None;
              Data := replicate (Z.to_nat (spec_RowStride width depth * height)) x00 |},
      BMP_OK)) /\
    (spec_RowStride 1 24 = 4 /\ spec_RowStride 2 24 = 8 /\
     spec_RowStride 5 8 = 8 /\ spec_RowStride 4 32 = 16).
Proof.
  intros env width height depth. rewrite BMP_Create_cases.
  split; [| split; [| split]].
  - intros H.
    assert (E : (height <=? 0) || (width <=? 0) = true)
      by (apply orb_true_iff; destruct H; [left | right]; lia).
    now rewrite E.
  - intros Hh Hw H8 H24 H32.
    assert (E : (height <=? 0) || (width <=? 0) = false)
      by (apply orb_false_iff; split; lia).
    rewrite E.
    assert (Ed : negb (depth =? 8) && negb (depth =? 24) && negb (depth =? 32) = true).
    { rewrite !andb_true_iff, !negb_true_iff, !Z.eqb_neq. auto. }
    now rewrite Ed.
  - intros Hh Hw Hd Hfit Hbmp Hpal Hdata.
    assert (E : (height <=? 0) || (width <=? 0) = false)
      by (apply orb_false_iff; split; lia).
    rewrite E. destruct (depth_cases _ Hd) as [Ed _]. rewrite Ed, Hbmp. cbn [negb].
    pose proof (spec_RowStride_nonneg width depth Hw Hd) as Hs.
    assert (Hsize : 0 <= spec_RowStride width depth * height) by nia.
    assert (Hoff : 54 <= spec_DataOffset depth <= 1078)
      by (unfold spec_DataOffset; destruct (depth =? 8); lia).
    assert (Hids : ImageDataSize (created_header width height depth)
                   = spec_RowStride width depth * height).
    { simpl. apply u32_small. lia. }
    assert (Hhdr : created_header width height depth
                   = {| Magic := 0x4D42;
                        FileSize := spec_DataOffset depth
                                    + spec_RowStride width depth * height;
                        Reserved1 := 0; Reserved2 := 0;
                        DataOffset := spec_DataOffset depth;
                        HeaderSize := 40; Width := width; Height := height; Planes := 1;
                        BitsPerPixel := depth; CompressionType := 0;
                        ImageDataSize := spec_RowStride width depth * height;
                        HPixelsPerMeter := 0; VPixelsPerMeter := 0;
                        ColorsUsed := 0; ColorsRequired := 0 |}).
    { unfold created_header. rewrite (u32_small (spec_RowStride width depth * height)) by lia.
      unfold spec_DataOffset in *. change BMP_PALETTE_SIZE with 1024.
      f_equal. rewrite u32_small; lia. }
    rewrite Hids, Hdata, <- Hhdr. cbn [negb].
    destruct (depth =? 8) eqn:E8.
    + apply Z.eqb_eq in E8. rewrite (Hpal E8). reflexivity.
    + reflexivity.
  - repeat split; reflexivity.
Qed.

Lemma BMP_Create_contract_witness :
  BMP_Create (sample_env [] 0) 2 0 24 = (None, BMP_INVALID_ARGUMENT) /\
  BMP_Create (sample_env [] 0) 2 2 16 = (None, BMP_FILE_NOT_SUPPORTED) /\
  BMP_Create (sample_env [] 0) 2 2 24 = (Some rgb_2x2, BMP_OK).
Proof.
  destruct (BMP_Create_contract (sample_env [] 0) 2 0 24) as (Hinv & _).
  destruct (BMP_Create_contract (sample_env [] 0) 2 2 16) as (_ & Hdepth & _).
  destruct (BMP_Create_contract (sample_env [] 0) 2 2 24) as (_ & _ & Hok & _).
  split; [apply Hinv; left; lia |].
  split; [apply Hdepth; lia |].
  rewrite Hok; [reflexivity | lia | lia | right; left; reflexivity
               | vm_compute; reflexivity | reflexivity | discriminate | reflexivity].
Defined.

(** C5, as stated, fails once the sizes leave 32 bits: for width
    [0x40000001] at depth 32 the row size wraps around to 4. *)
Lemma BMP_Create_wraps_around :
  exists bm,
    BMP_Create (sample_env [] 0) 0x40000001 1 32 = (Some bm, BMP_OK) /\
    ImageDataSize (Header bm) = 4 /\
    Data bm = [x00; x00; x00; x00] /\
    spec_RowStride 0x40000001 32 * 1 = 4294967300 /\
    ImageDataSize (Header bm) <> spec_RowStride 0x40000001 32 * 1.
Proof.
  eexists. split; [reflexivity |]. repeat split. discriminate.
Qed.

(** ** Reading the header *)

Lemma u32_range z : 0 <= u32 z < 2^32.
Proof. unfold u32. apply Z.mod_pos_bound. lia. Qed.

Lemma Readuint32_t_reads : reads 4 (fun v => 0 <= v < 2^32) Readuint32_t.
Proof.
  intros f. split.
  - intros Hlen. destruct f as [| l0 [| l1 [| l2 [| l3 rest]]]]; simpl in Hlen; try lia.
    eexists. split; [reflexivity | apply u32_range].
  - intros Hlen. destruct f as [| l0 [| l1 [| l2 [| l3 rest]]]]; simpl in Hlen; try lia;
      reflexivity.
Qed.

Lemma Readuint16_t_reads : reads 2 (fun _ => True) Readuint16_t.
Proof.
  intros f. split.
  - intros Hlen. destruct f as [| l0 [| l1 rest]]; simpl in Hlen; try lia.
    eexists. split; [reflexivity | exact I].
  - intros Hlen. destruct f as [| l0 [| l1 rest]]; simpl in Hlen; try lia; reflexivity.
Qed.

Lemma reads_bind {A B} n k (P : A -> Prop) (Q : B -> Prop) r (c : A -> reader B) :
  reads n P r ->
  (forall a, P a -> reads k Q (c a)) ->
  reads (n + k) Q (rbind r c).
Proof.
  intros Hr Hc f. unfold rbind. destruct (Hr f) as [Hok Hshort]. split.
  - intros Hlen. destruct Hok as (a & Ea & Pa); [lia |]. rewrite Ea.
    destruct (Hc a Pa (drop n f)) as [Hok' _].
    destruct Hok' as (b & Eb & Qb); [rewrite length_drop; lia |].
    exists b. split; [| assumption]. rewrite Eb, drop_drop. reflexivity.
  - intros Hlen. destruct (le_lt_dec n (length f)) as [Hn | Hn].
    + destruct Hok as (a & Ea & Pa); [assumption |]. rewrite Ea.
      destruct (Hc a Pa (drop n f)) as [_ Hshort']. apply Hshort'.
      rewrite length_drop. lia.
    + specialize (Hshort Hn). destruct (r f) as [[a |] f']; [discriminate | reflexivity].
Qed.

Lemma reads_weaken {A} n (P Q : A -> Prop) r :
  reads n P r -> (forall a, P a -> Q a) -> reads n Q r.
Proof.
  intros Hr HPQ f. destruct (Hr f) as [Hok Hshort]. split; [| assumption].
  intros Hlen. destruct (Hok Hlen) as (a & Ea & Pa). exists a. auto.
Qed.

Lemma reads_value {A} (P : A -> Prop) (a : A) :
  P a -> reads 0 P (fun f => (Some a, f)).
Proof.
  intros Pa f. split.
  - intros _. exists a. now split.
  - intros H. lia.
Qed.

(** [ReadHeader] takes exactly the 54 bytes of the two headers. *)
Lemma ReadHeader_reads : reads 54 fields_in_range ReadHeader.
Proof.
  change 54%nat with
    (2 + (4 + (2 + (2 + (4 + (4 + (4 + (4 + (2 + (2 + (4 + (4 + (4 + (4 + (4 + (4 + 0
     ))))))))))))))))%nat.
  unfold ReadHeader.
  repeat (first
    [ apply reads_bind with (P := fun v => 0 <= v < 2^32);
        [exact Readuint32_t_reads | intros ? ?]
    | apply reads_bind with (P := fun _ => True);
        [exact Readuint16_t_reads | intros ? _] ]).
  apply reads_value. unfold fields_in_range. simpl. auto.
Qed.

Lemma ReadHeader_short f :
  (length f < 54)%nat -> fst (ReadHeader f) = None.
Proof. intros H. now apply (ReadHeader_reads f). Qed.

Lemma ReadHeader_complete f :
  (54 <= length f)%nat ->
  exists h, ReadHeader f = (Some h, drop 54 f) /\ fields_in_range h.
Proof. intros H. now apply (ReadHeader_reads f). Qed.

Lemma ReadHeader_Some f h rest :
  ReadHeader f = (Some h, rest) ->
  (54 <= length f)%nat /\ rest = drop 54 f /\ fields_in_range h.
Proof.
  intros E. destruct (le_lt_dec 54 (length f)) as [Hlen | Hlen].
  - destruct (ReadHeader_complete f Hlen) as (h' & E' & Hr).
    rewrite E in E'. injection E' as -> ->. auto.
  - pose proof (ReadHeader_short f Hlen) as Hn. rewrite E in Hn. discriminate.
Qed.

(** ** The row loop of [BMP_ReadFile] *)

Lemma write_block_in_range blk off bs :
  0 <= off ->
  off + Z.of_nat (length bs) <= Z.of_nat (length blk) ->
  exists blk',
    write_block blk off bs = Some blk' /\ length blk' = length blk.
Proof.
  intros Hoff Hfit. unfold write_block.
  destruct ((0 <=? off) && (off + Z.of_nat (length bs) <=? Z.of_nat (length blk))) eqn:E.
  - eexists. split; [reflexivity |].
    rewrite !length_app, length_take, length_drop. lia.
  - apply andb_false_iff in E as [E | E]; lia.
Qed.

Lemma skip_padding width (f : FILE_in) :
  (if negb (width mod 4 =? 0) then snd (fread (4 - width mod 4) f) else f)
  = drop (Z.to_nat (row_padding width)) f.
Proof.
  unfold row_padding. destruct (negb (width mod 4 =? 0)); reflexivity.
Qed.

Lemma row_padding_range width : 0 <= row_padding width < 4.
Proof.
  unfold row_padding. pose proof (Z.mod_pos_bound width 4 ltac:(lia)).
  destruct (width mod 4 =? 0) eqn:E; simpl; lia.
Qed.

Lemma s32_small z : - 2^31 <= z < 2^31 -> s32 z = z.
Proof.
  intros H. unfold s32, u32.
  destruct (Z_lt_le_dec z 0) as [Hneg | Hpos].
  - replace (z mod 2^32) with (z + 2^32).
    + destruct (z + 2^32 <? 2^31) eqn:E; lia.
    + apply Z.mod_unique with (q := -1); lia.
  - rewrite Z.mod_small by lia. destruct (z <? 2^31) eqn:E; lia.
Qed.

(** With no width there is no progress: the counter stays at 0. *)
Lemma read_rows_zero_width fuel f data :
  read_rows fuel 0 0 f data = OutOfFuel.
Proof.
  revert f data. induction fuel as [| fuel IH]; intros f data; [reflexivity |].
  simpl. unfold write_block. simpl.
  change (s32 (0 - 0)) with 0.
  destruct (0 + Z.of_nat 0 <=? Z.of_nat (length data)); apply IH.
Qed.

Lemma take_at_most (f : list byte) n : (length (take n f) <= n)%nat.
Proof. rewrite length_take. apply Nat.le_min_l. Qed.

Lemma read_rows_exit fuel width idx f data :
  idx < 0 -> read_rows (S fuel) width idx f data = Returns (Some data).
Proof.
  intros H. cbn [read_rows]. destruct (idx >=? 0) eqn:E; [exfalso; lia | reflexivity].
Qed.

(** One turn of the loop on a row that lies inside the block. *)
Lemma read_rows_step fuel width idx f data :
  0 < width -> 0 <= idx ->
  idx + width <= Z.of_nat (length data) ->
  (Z.of_nat (length f) < width ->
   read_rows (S fuel) width idx f data = Returns None) /\
  (width <= Z.of_nat (length f) ->
   exists data1,
     write_block data idx (take (Z.to_nat width) f) = Some data1 /\
     length data1 = length data /\
     read_rows (S fuel) width idx f data
     = read_rows fuel width (s32 (idx - width))
                 (drop (Z.to_nat (row_padding width)) (drop (Z.to_nat width) f)) data1).
Proof.
  intros Hw Hidx Hfit. cbn [read_rows].
  destruct (idx >=? 0) eqn:Eidx; [| exfalso; lia]. cbn [negb].
  change (fread width f) with (take (Z.to_nat width) f, drop (Z.to_nat width) f).
  cbv beta iota zeta. rewrite skip_padding.
  destruct (write_block_in_range data idx (take (Z.to_nat width) f))
    as (data1 & Ew & Hlen1);
    [lia | pose proof (take_at_most f (Z.to_nat width)); lia |].
  rewrite Ew. split; intros Hlen.
  - rewrite length_take_ge by lia.
    destruct (Z.of_nat (length f) =? width) eqn:E; [exfalso; lia |].
    reflexivity.
  - rewrite length_take_le by lia.
    destruct (Z.of_nat (Z.to_nat width) =? width) eqn:E;
      [| apply Z.eqb_neq in E; exfalso; lia].
    exists data1. now repeat split.
Qed.

(** The loop over rows [n, n-1, ..., 0] of [width > 0] bytes fails
    exactly when a row's [width] bytes are not all there; the padding
    after a row may be missing. *)
Lemma read_rows_outcome (n : nat) :
  forall (fuel : nat) (width : Z) (f : FILE_in) (data : list byte),
    0 < width ->
    (Z.of_nat n + 1) * width < 2^31 ->
    (Z.of_nat n + 1) * width <= Z.of_nat (length data) ->
    (n + 2 <= fuel)%nat ->
    if Z.of_nat (length f) <? Z.of_nat n * (width + row_padding width) + width
    then read_rows fuel width (Z.of_nat n * width) f data = Returns None
    else exists data',
        read_rows fuel width (Z.of_nat n * width) f data = Returns (Some data') /\
        length data' = length data.
Proof.
  induction n as [| n IH]; intros fuel width f data Hw Hint Hfit Hfuel;
    (destruct fuel as [| fuel]; [lia |]);
    pose proof (row_padding_range width) as Hpad.
  - (* last row *)
    change (Z.of_nat 0) with 0 in *. rewrite !Z.mul_0_l, Z.add_0_l.
    destruct (read_rows_step fuel width 0 f data Hw ltac:(lia) ltac:(lia))
      as [Hshort Hfull].
    destruct (Z.of_nat (length f) <? width) eqn:Elt.
    + apply Hshort. lia.
    + destruct Hfull as (data1 & _ & Hlen1 & E); [lia |].
      exists data1. split; [| assumption]. rewrite E, s32_small by lia.
      destruct fuel as [| fuel]; [lia |]. apply read_rows_exit. lia.
  - (* a row above the last *)
    assert (Hpos : 0 <= Z.of_nat (S n) * width) by nia.
    assert (Hrows : 0 <= Z.of_nat n * (width + row_padding width)) by nia.
    destruct (read_rows_step fuel width (Z.of_nat (S n) * width) f data Hw Hpos ltac:(nia))
      as [Hshort Hfull].
    destruct (Z_lt_le_dec (Z.of_nat (length f)) width) as [Hlen | Hlen].
    + destruct (Z.ltb_spec (Z.of_nat (length f))
                  (Z.of_nat (S n) * (width + row_padding width) + width)) as [Elt | Elt];
        [now apply Hshort | exfalso; nia].
    + destruct (Hfull Hlen) as (data1 & _ & Hlen1 & E). rewrite E.
      assert (Hnext : s32 (Z.of_nat (S n) * width - width) = Z.of_nat n * width).
      { rewrite s32_small by nia. nia. }
      rewrite Hnext.
      specialize (IH fuel width
                     (drop (Z.to_nat (row_padding width)) (drop (Z.to_nat width) f))
                     data1 Hw ltac:(nia) ltac:(nia) ltac:(lia)).
      rewrite !length_drop in IH.
      destruct (Z.ltb_spec (Z.of_nat (length f))
                  (Z.of_nat (S n) * (width + row_padding width) + width)) as [Elt | Elt];
        destruct (Z.ltb_spec
                    (Z.of_nat (length f - Z.to_nat width - Z.to_nat (row_padding width)))
                    (Z.of_nat n * (width + row_padding width) + width)) as [Elt' | Elt'].
      * exact IH.
      * exfalso. nia.
      * exfalso. nia.
      * destruct IH as (data' & Er & Hlen'). exists data'. split; [exact Er | congruence].
Qed.

(** ** BMP_ReadFile *)

Lemma unsupported_variant_true h :
  (BitsPerPixel h <> 8 /\ BitsPerPixel h <> 24 /\ BitsPerPixel h <> 32)
  \/ CompressionType h <> 0 \/ HeaderSize h <> 40 <->
  unsupported_variant h = true.
Proof.
  unfold unsupported_variant.
  rewrite !orb_true_iff, !andb_true_iff, !negb_true_iff, !Z.eqb_neq. tauto.
Qed.

Lemma unsupported_variant_false h :
  unsupported_variant h = false ->
  (BitsPerPixel h = 8 \/ BitsPerPixel h = 24 \/ BitsPerPixel h = 32)
  /\ CompressionType h = 0 /\ HeaderSize h = 40.
Proof.
  intros E.
  destruct (Z.eq_dec (BitsPerPixel h) 8), (Z.eq_dec (BitsPerPixel h) 24),
           (Z.eq_dec (BitsPerPixel h) 32), (Z.eq_dec (CompressionType h) 0),
           (Z.eq_dec (HeaderSize h) 40); try tauto;
    exfalso; assert (unsupported_variant h = true)
      by (apply unsupported_variant_true; tauto); congruence.
Qed.

(** Every exit of [BMP_ReadFile] other than the last returns NULL, and
    the last leaves [BMP_OK]. *)
Lemma read_image_data_result env fuel h palette f result st :
  read_image_data env fuel h palette f = Returns (result, st) ->
  (st = BMP_OK /\ exists data,
      result = Some {| Header := h; Palette := palette; Data := data |} /\
      read_rows fuel (Width h) (s32 (u32 (Height h - 1) * Width h)) f
                (malloc_block env (ImageDataSize h)) = Returns (Some data))
  \/ (st <> BMP_OK /\ result = None).
Proof.
  unfold read_image_data. intros E.
  destruct (negb (can_alloc env (ImageDataSize h))).
  - injection E as <- <-. right. split; [discriminate | reflexivity].
  - destruct (read_rows _ _ _ _ _) as [[data |] | |]; try discriminate;
      injection E as <- <-.
    + left. split; [reflexivity |]. exists data. now split.
    + right. split; [discriminate | reflexivity].
Qed.

Lemma BMP_ReadFile_result env fuel filename result st :
  BMP_ReadFile env fuel filename = Returns (result, st) ->
  (st = BMP_OK /\ exists name file h rest bm,
      filename = Some name /\ fopen_rb env name = Some file /\
      ReadHeader file = (Some h, rest) /\
      Magic h = 0x4D42 /\ unsupported_variant h = false /\
      result = Some bm /\ Header bm = h /\
      exists f, read_rows fuel (Width h) (s32 (u32 (Height h - 1) * Width h)) f
                          (malloc_block env (ImageDataSize h)) = Returns (Some (Data bm)))
  \/ (st <> BMP_OK /\ result = None).
Proof.
  unfold BMP_ReadFile. intros E.
  assert (Hfail : forall s, s <> BMP_OK ->
            Returns (None, s) = Returns (result, st) ->
            st <> BMP_OK /\ result = None).
  { intros s Hs Es. injection Es as <- <-. now split. }
  destruct filename as [name |]; [| right; eapply Hfail; [| exact E]; discriminate].
  destruct (negb (can_alloc env (sizeof_BMP env)));
    [right; eapply Hfail; [| exact E]; discriminate |].
  destruct (fopen_rb env name) as [file |] eqn:Eopen;
    [| right; eapply Hfail; [| exact E]; discriminate].
  destruct (ReadHeader file) as [[h |] rest] eqn:Ehdr;
    [| right; eapply Hfail; [| exact E]; discriminate].
  destruct (negb (Magic h =? 19778)) eqn:Emagic;
    [right; eapply Hfail; [| exact E]; discriminate |].
  apply negb_false_iff, Z.eqb_eq in Emagic.
  destruct (unsupported_variant h) eqn:Evar;
    [right; eapply Hfail; [| exact E]; discriminate |].
  assert (Hdata : forall palette f,
            read_image_data env fuel h palette f = Returns (result, st) ->
            (st = BMP_OK /\ exists name0 file0 h0 rest0 bm,
                Some name = Some name0 /\ fopen_rb env name0 = Some file0 /\
                ReadHeader file0 = (Some h0, rest0) /\
                Magic h0 = 0x4D42 /\ unsupported_variant h0 = false /\
                result = Some bm /\ Header bm = h0 /\
                exists f0, read_rows fuel (Width h0) (s32 (u32 (Height h0 - 1) * Width h0)) f0
                                     (malloc_block env (ImageDataSize h0))
                           = Returns (Some (Data bm)))
            \/ (st <> BMP_OK /\ result = None)).
  { intros palette f Er.
    destruct (read_image_data_result _ _ _ _ _ _ _ Er) as [(-> & data & -> & Erows) | Hf];
      [left | now right].
    split; [reflexivity |].
    exists name, file, h, rest, {| Header := h; Palette := palette; Data := data |}.
    repeat (split; [first [reflexivity | assumption] |]).
    now exists f. }
  destruct (BitsPerPixel h =? 8).
  - destruct (negb (can_alloc env BMP_PALETTE_SIZE));
      [right; eapply Hfail; [| exact E]; discriminate |].
    destruct (fread BMP_PALETTE_SIZE rest) as [pal f].
    destruct (negb (Z.of_nat (length pal) =? BMP_PALETTE_SIZE));
      [right; eapply Hfail; [| exact E]; discriminate |].
    eapply Hdata, E.
  - eapply Hdata, E.
Qed.

Lemma malloc_block_length env n : length (malloc_block env n) = Z.to_nat n.
Proof. unfold malloc_block. now rewrite length_fmap, length_seq. Qed.

(** What the row loop of [BMP_ReadFile] makes of the stream behind the
    palette, when the counter stays within [int] and the rows within the
    block: it wants [Width] bytes for each of the [Height] rows and the
    padding between them. *)
Lemma read_image_data_rows env fuel h palette f :
  0 < Width h -> 0 < Height h ->
  Height h * Width h <= ImageDataSize h -> ImageDataSize h < 2^31 ->
  can_alloc env (ImageDataSize h) = true ->
  (Z.to_nat (Height h) + 1 <= fuel)%nat ->
  if Z.of_nat (length f)
     <? (Height h - 1) * (Width h + row_padding (Width h)) + Width h
  then read_image_data env fuel h palette f = Returns (None, BMP_FILE_INVALID)
  else exists data,
      read_image_data env fuel h palette f
      = Returns (Some {| Header := h; Palette := palette; Data := data |}, BMP_OK) /\
      length data = Z.to_nat (ImageDataSize h).
Proof.
  intros Hw Hh Hrows Hint Halloc Hfuel. unfold read_image_data. rewrite Halloc. cbn [negb].
  assert (Hidx : s32 (u32 (Height h - 1) * Width h)
                 = Z.of_nat (Z.to_nat (Height h - 1)) * Width h).
  { rewrite u32_small by nia. rewrite s32_small by nia. f_equal. lia. }
  rewrite Hidx.
  pose proof (read_rows_outcome (Z.to_nat (Height h - 1)) fuel (Width h) f
                (malloc_block env (ImageDataSize h)) Hw) as Hloop.
  rewrite malloc_block_length in Hloop.
  replace (Z.of_nat (Z.to_nat (Height h - 1))) with (Height h - 1) in * by lia.
  specialize (Hloop ltac:(nia) ltac:(nia) ltac:(lia)).
  destruct (Z.of_nat (length f)
            <? (Height h - 1) * (Width h + row_padding (Width h)) + Width h).
  - now rewrite Hloop.
  - destruct Hloop as (data & E & Hlen). exists data. rewrite E. now split.
Qed.

Lemma spec_RowStride_depth8 width :
  spec_RowStride width 8 = width + row_padding width.
Proof.
  unfold spec_RowStride, row_padding. change (spec_BytesPerPixel 8) with 1.
  rewrite Z.mul_1_r. apply pad_to_multiple_of_4.
Qed.

(** Rows of a valid bitmap fit its block: [Height * Width <= ImageDataSize]. *)
Lemma rows_fit_block h :
  header_invariants h -> Height h * Width h <= ImageDataSize h.
Proof.
  intros Hinv. pose proof (inv_width _ Hinv). pose proof (inv_height _ Hinv).
  rewrite (inv_image_data_size _ Hinv).
  destruct (bytes_per_pixel_of_depth _ (inv_depth _ Hinv)) as [_ Hbpp].
  pose proof (row_fits_stride (Width h) (spec_BytesPerPixel (BitsPerPixel h))
                ltac:(nia)) as Hrow.
  fold (spec_RowStride (Width h) (BitsPerPixel h)) in Hrow. nia.
Qed.

(** ** C4: how decoding fails *)

(** C4 (amended). With the file open and the object allocated,
    [BMP_ReadFile] leaves [BMP_FILE_INVALID] when fewer than the 54
    header bytes are there or the magic is not [0x4D42];
    [BMP_FILE_NOT_SUPPORTED] when the depth is none of 8, 24, 32, or the
    compression is not 0, or the header size is not 40;
    [BMP_FILE_INVALID] when, for depth 8, fewer than 1024 palette bytes
    follow.  For a header that satisfies the section-3 invariants it
    leaves [BMP_FILE_INVALID], at every depth, when fewer than [Width]
    bytes of pixel data follow the header (and palette); and for depth 8
    it leaves [BMP_FILE_INVALID] exactly when the pixel payload lacks
    more than the padding of the last row (a short read of a row's pixel
    bytes aborts, a short read of padding does not).  Whenever the
    status is not [BMP_OK] the result is NULL. *)
Theorem decode_failures :
  forall (env : environment) (fuel : nat) (name : string) (file : list byte),
    fopen_rb env name = Some file ->
    can_alloc env (sizeof_BMP env) = true ->
    ((length file < 54)%nat ->
     BMP_ReadFile env fuel (Some name) = Returns (None, BMP_FILE_INVALID)) /\
    (forall h rest,
        ReadHeader file = (Some h, rest) ->
        (Magic h <> 0x4D42 ->
         BMP_ReadFile env fuel (Some name) = Returns (None, BMP_FILE_INVALID)) /\
        (Magic h = 0x4D42 ->
         (BitsPerPixel h <> 8 /\ BitsPerPixel h <> 24 /\ BitsPerPixel h <> 32)
         \/ CompressionType h <> 0 \/ HeaderSize h <> 40 ->
         BMP_ReadFile env fuel (Some name) = Returns (None, BMP_FILE_NOT_SUPPORTED)) /\
        (Magic h = 0x4D42 -> BitsPerPixel h = 8 ->
         CompressionType h = 0 -> HeaderSize h = 40 ->
         can_alloc env BMP_PALETTE_SIZE = true ->
         ((length rest < 1024)%nat ->
          BMP_ReadFile env fuel (Some name) = Returns (None, BMP_FILE_INVALID)) /\
         ((1024 <= length rest)%nat ->
          header_invariants h -> ImageDataSize h < 2^31 ->
          can_alloc env (ImageDataSize h) = true ->
          (Z.to_nat (Height h) + 1 <= fuel)%nat ->
          (Z.of_nat (length rest) - 1024 < ImageDataSize h - row_padding (Width h) ->
           BMP_ReadFile env fuel (Some name) = Returns (None, BMP_FILE_INVALID)) /\
          (ImageDataSize h - row_padding (Width h) <= Z.of_nat (length rest) - 1024 ->
           exists bm,
             BMP_ReadFile env fuel (Some name) = Returns (Some bm, BMP_OK)))) /\
        (Magic h = 0x4D42 ->
         header_invariants h -> ImageDataSize h < 2^31 ->
         (BitsPerPixel h = 8 ->
          can_alloc env BMP_PALETTE_SIZE = true /\ (1024 <= length rest)%nat) ->
         can_alloc env (ImageDataSize h) = true ->
         (Z.to_nat (Height h) + 1 <= fuel)%nat ->
         Z.of_nat (length rest) - (if BitsPerPixel h =? 8 then 1024 else 0) < Width h ->
         BMP_ReadFile env fuel (Some name) = Returns (None, BMP_FILE_INVALID))) /\
    (forall result st,
        BMP_ReadFile env fuel (Some name) = Returns (result, st) ->
        st <> BMP_OK -> result = None).
Proof.
  intros env fuel name file Hopen Hbmp. split; [| split].
  - intros Hlen. unfold BMP_ReadFile. rewrite Hbmp, Hopen. cbn [negb].
    pose proof (ReadHeader_short file Hlen) as Hs.
    destruct (ReadHeader file) as [[h |] rest]; [discriminate | reflexivity].
  - intros h rest Ehdr. split; [| split; [| split]].
    + intros Hmagic. unfold BMP_ReadFile. rewrite Hbmp, Hopen, Ehdr. cbn [negb].
      destruct (Magic h =? 19778) eqn:E; [apply Z.eqb_eq in E; contradiction |].
      reflexivity.
    + intros Hmagic Hvar. apply unsupported_variant_true in Hvar.
      unfold BMP_ReadFile. rewrite Hbmp, Hopen, Ehdr, Hmagic, Hvar. reflexivity.
    + intros Hmagic H8 Hcomp Hsize Hpal.
      assert (Hvar : unsupported_variant h = false).
      { unfold unsupported_variant. rewrite H8, Hcomp, Hsize. reflexivity. }
      assert (Estart :
                BMP_ReadFile env fuel (Some name) =
                if negb (Z.of_nat (length (take (Z.to_nat BMP_PALETTE_SIZE) rest))
                         =? BMP_PALETTE_SIZE)
                then Returns (None, BMP_FILE_INVALID)
                else read_image_data env fuel h
                       (Some (take (Z.to_nat BMP_PALETTE_SIZE) rest))
                       (drop (Z.to_nat BMP_PALETTE_SIZE) rest)).
      { unfold BMP_ReadFile. rewrite Hbmp, Hopen, Ehdr, Hmagic, Hvar, H8, Hpal.
        reflexivity. }
      rewrite Estart. change (Z.to_nat BMP_PALETTE_SIZE) with 1024%nat.
      change BMP_PALETTE_SIZE with 1024. split.
      * intros Hlen. rewrite length_take_ge by lia.
        destruct (Z.of_nat (length rest) =? 1024) eqn:E;
          [apply Z.eqb_eq in E; exfalso; lia | reflexivity].
      * intros Hlen Hinv Hint Hdata Hfuel. rewrite length_take_le by lia.
        change (negb (Z.of_nat 1024 =? 1024)) with false. cbv iota.
        pose proof (inv_width _ Hinv) as Hw. pose proof (inv_height _ Hinv) as Hh.
        pose proof (inv_image_data_size _ Hinv) as Hids.
        rewrite H8, spec_RowStride_depth8 in Hids.
        pose proof (row_padding_range (Width h)) as Hp.
        pose proof (read_image_data_rows env fuel h (Some (take 1024 rest))
                      (drop 1024 rest) Hw Hh ltac:(nia) Hint Hdata Hfuel) as Hrows.
        rewrite length_drop in Hrows.
        destruct (Z.ltb_spec (Z.of_nat (length rest - 1024))
                    ((Height h - 1) * (Width h + row_padding (Width h)) + Width h))
          as [Elt | Elt]; split; intros Hpayload.
        -- exact Hrows.
        -- exfalso. nia.
        -- exfalso. nia.
        -- destruct Hrows as (data & E & _). eexists. exact E.
    + intros Hmagic Hinv Hint Hpal Hdata Hfuel Hshort.
      pose proof (inv_width _ Hinv) as Hw. pose proof (inv_height _ Hinv) as Hh.
      pose proof (rows_fit_block _ Hinv) as Hfit.
      pose proof (row_padding_range (Width h)) as Hp.
      assert (Hvar : unsupported_variant h = false).
      { unfold unsupported_variant.
        rewrite (inv_compression _ Hinv), (inv_header_size _ Hinv).
        destruct (inv_depth _ Hinv) as [-> | [-> | ->]]; reflexivity. }
      assert (Htail : forall palette f,
                 Z.of_nat (length f) < Width h ->
                 read_image_data env fuel h palette f = Returns (None, BMP_FILE_INVALID)).
      { intros palette f Hf.
        pose proof (read_image_data_rows env fuel h palette f Hw Hh Hfit Hint Hdata Hfuel)
          as Hrows.
        destruct (Z.ltb_spec (Z.of_nat (length f))
                    ((Height h - 1) * (Width h + row_padding (Width h)) + Width h))
          as [Elt | Elt]; [exact Hrows | exfalso; nia]. }
      unfold BMP_ReadFile. rewrite Hbmp, Hopen, Ehdr, Hmagic, Hvar.
      change (negb (19778 =? 19778)) with false. cbn [negb]. cbv iota.
      destruct (BitsPerPixel h =? 8) eqn:E8.
      * apply Z.eqb_eq in E8. destruct (Hpal E8) as [Hcan Hlen]. rewrite Hcan.
        cbn [negb].
        change (fread BMP_PALETTE_SIZE rest) with (take 1024 rest, drop 1024 rest).
        cbv beta iota. rewrite length_take_le by lia.
        change (negb (Z.of_nat 1024 =? BMP_PALETTE_SIZE)) with false. cbv iota.
        apply Htail. rewrite length_drop. lia.
      * apply Htail. lia.
  - intros result st E Hst.
    destruct (BMP_ReadFile_result _ _ _ _ _ E) as [(-> & _) | (_ & ->)];
      [contradiction | reflexivity].
Qed.

Lemma parsed_1x1_depth8_invariants : header_invariants parsed_1x1_depth8.
Proof. split; simpl; try reflexivity; try lia. Qed.

Lemma parsed_1x2_depth24_invariants : header_invariants parsed_1x2_depth24.
Proof. split; simpl; try reflexivity; try lia. Qed.

Lemma decode_failures_witness :
  BMP_ReadFile (sample_env [x42; x4d] 0) 2 (Some "in.bmp"%string)
  = Returns (None, BMP_FILE_INVALID) /\
  BMP_ReadFile (sample_env file_1x1_depth8_no_pixels 0) 2 (Some "in.bmp"%string)
  = Returns (None, BMP_FILE_INVALID) /\
  (exists bm,
      BMP_ReadFile (sample_env file_1x1_depth8_no_padding 0) 2 (Some "in.bmp"%string)
      = Returns (Some bm, BMP_OK)) /\
  BMP_ReadFile (sample_env (take 54 file_1x2_depth24) 0) 3 (Some "in.bmp"%string)
  = Returns (None, BMP_FILE_INVALID).
Proof.
  split; [| split; [| split]].
  - destruct (decode_failures (sample_env [x42; x4d] 0) 2 "in.bmp"%string [x42; x4d]
                eq_refl eq_refl) as (Hshort & _).
    apply Hshort. simpl. lia.
  - destruct (decode_failures (sample_env file_1x1_depth8_no_pixels 0) 2 "in.bmp"%string
                file_1x1_depth8_no_pixels eq_refl eq_refl) as (_ & Hhdr & _).
    destruct (Hhdr parsed_1x1_depth8 (replicate 1024 x00)
                ltac:(vm_compute; reflexivity)) as (_ & _ & Hrows & _).
    destruct (Hrows eq_refl eq_refl eq_refl eq_refl eq_refl) as (_ & Hpayload).
    destruct (Hpayload ltac:(vm_compute; lia) parsed_1x1_depth8_invariants
                ltac:(simpl; lia) eq_refl ltac:(simpl; lia)) as (Hcut & _).
    apply Hcut. vm_compute. reflexivity.
  - destruct (decode_failures (sample_env file_1x1_depth8_no_padding 0) 2 "in.bmp"%string
                file_1x1_depth8_no_padding eq_refl eq_refl) as (_ & Hhdr & _).
    destruct (Hhdr parsed_1x1_depth8 (replicate 1024 x00 ++ [x07])
                ltac:(vm_compute; reflexivity)) as (_ & _ & Hrows & _).
    destruct (Hrows eq_refl eq_refl eq_refl eq_refl eq_refl) as (_ & Hpayload).
    destruct (Hpayload ltac:(vm_compute; lia) parsed_1x1_depth8_invariants
                ltac:(simpl; lia) eq_refl ltac:(simpl; lia)) as (_ & Hkept).
    apply Hkept. vm_compute. discriminate.
  - destruct (decode_failures (sample_env (take 54 file_1x2_depth24) 0) 3 "in.bmp"%string
                (take 54 file_1x2_depth24) eq_refl eq_refl) as (_ & Hhdr & _).
    destruct (Hhdr parsed_1x2_depth24 [] ltac:(vm_compute; reflexivity))
      as (_ & _ & _ & Hfirst).
    apply Hfirst.
    + reflexivity.
    + exact parsed_1x2_depth24_invariants.
    + simpl. lia.
    + intros H8. exfalso. vm_compute in H8. discriminate.
    + reflexivity.
    + simpl. lia.
    + vm_compute. reflexivity.
Defined.

(** C4, as stated, fails on padding: this depth-8 file declares
    [ImageDataSize = 4] and ends after one pixel byte, so the read of the
    three padding bytes comes up short, and the decode still succeeds. *)
Lemma decode_ignores_missing_padding :
  length file_1x1_depth8_no_padding = (54 + 1024 + 1)%nat /\
  ReadHeader file_1x1_depth8_no_padding
  = (Some parsed_1x1_depth8, replicate 1024 x00 ++ [x07]) /\
  ImageDataSize parsed_1x1_depth8 = 4 /\
  BMP_ReadFile (sample_env file_1x1_depth8_no_padding 0) 2 (Some "in.bmp"%string)
  = Returns (Some {| Header := parsed_1x1_depth8;
                     Palette := Some (replicate 1024 x00);
                     Data := [x07; xcd; xcd; xcd] |}, BMP_OK).
Proof. repeat split; vm_compute; reflexivity. Qed.

(** ** C6: header invariants and their stability *)

Lemma keeps_header_ret {A} (a : A) : keeps_header (ret a).
Proof. intros m a' m' E. injection E as <- <-. reflexivity. Qed.

Lemma keeps_header_bind {A B} (c : M A) (k : A -> M B) :
  keeps_header c -> (forall a, keeps_header (k a)) -> keeps_header (bind c k).
Proof.
  intros Hc Hk m b m' E. unfold bind in E.
  destruct (c m) as [[a m1] | |] eqn:Ec; try discriminate.
  rewrite (Hk a _ _ _ E). exact (Hc _ _ _ Ec).
Qed.

Lemma keeps_header_get_bmp : keeps_header get_bmp.
Proof. intros m a m' E. injection E as <- <-. reflexivity. Qed.

Lemma keeps_header_set_error e : keeps_header (set_error e).
Proof. intros m a m' E. injection E as <- <-. reflexivity. Qed.

Lemma keeps_header_load p : keeps_header (load p).
Proof.
  intros m a m' E. unfold load in E.
  destruct (bmp_obj m) as [bm |] eqn:Em; [| discriminate].
  destruct (block_of bm p.1); [| discriminate].
  destruct (0 <=? p.2); [| discriminate].
  destruct (_ !! _); [| discriminate].
  injection E as <- <-. simpl. now rewrite Em.
Qed.

Lemma keeps_header_store p v : keeps_header (store p v).
Proof.
  intros m a m' E. unfold store in E.
  destruct (bmp_obj m) as [bm |] eqn:Em; [| discriminate].
  destruct (block_of bm p.1); [| discriminate].
  destruct ((0 <=? p.2) && _); [| discriminate].
  injection E as <- <-. simpl. destruct p.1; reflexivity.
Qed.

Lemma keeps_header_write_out cell p : keeps_header (write_out cell p).
Proof.
  destruct cell; simpl.
  - apply keeps_header_bind; [apply keeps_header_load | intros; apply keeps_header_ret].
  - apply keeps_header_ret.
Qed.

Ltac keeps_header_tac :=
  repeat first
    [ apply keeps_header_ret
    | apply keeps_header_get_bmp
    | apply keeps_header_set_error
    | apply keeps_header_load
    | apply keeps_header_store
    | apply keeps_header_write_out
    | apply keeps_header_bind; [| intros ?]
    | match goal with
      | |- keeps_header (if ?c then _ else _) => destruct c
      | |- keeps_header (match ?x with Some _ => _ | None => _ end) => destruct x
      end ].

Lemma accessors_keep_header :
  (forall x y r g b, keeps_header (BMP_GetPixelRGB x y r g b)) /\
  (forall x y r g b, keeps_header (BMP_SetPixelRGB x y r g b)) /\
  (forall x y val, keeps_header (BMP_GetPixelIndex x y val)) /\
  (forall x y val, keeps_header (BMP_SetPixelIndex x y val)) /\
  (forall index r g b, keeps_header (BMP_GetPaletteColor index r g b)) /\
  (forall index r g b, keeps_header (BMP_SetPaletteColor index r g b)).
Proof.
  repeat split; intros;
    unfold BMP_GetPixelRGB, BMP_SetPixelRGB, BMP_GetPixelIndex, BMP_SetPixelIndex,
           BMP_GetPaletteColor, BMP_SetPaletteColor;
    keeps_header_tac.
Qed.

Lemma BMP_Create_header env width height depth bm st :
  BMP_Create env width height depth = (Some bm, st) ->
  Header bm = created_header width height depth /\
  0 < width /\ 0 < height /\ (depth = 8 \/ depth = 24 \/ depth = 32).
Proof.
  rewrite BMP_Create_cases. intros E.
  destruct ((height <=? 0) || (width <=? 0)) eqn:Edim; [discriminate |].
  apply orb_false_iff in Edim as [Eh Ew].
  destruct (negb (depth =? 8) && negb (depth =? 24) && negb (depth =? 32)) eqn:Ed;
    [discriminate |].
  assert (Hd : depth = 8 \/ depth = 24 \/ depth = 32).
  { apply andb_false_iff in Ed as [Ed | Ed];
      [apply andb_false_iff in Ed as [Ed | Ed] |];
      apply negb_false_iff, Z.eqb_eq in Ed; auto. }
  destruct (negb (can_alloc env (sizeof_BMP env))); [discriminate |].
  destruct ((depth =? 8) && negb (can_alloc env BMP_PALETTE_SIZE)); [discriminate |].
  destruct (negb (can_alloc env _)); [discriminate |].
  injection E as <- <-. simpl. repeat split; lia.
Qed.

Lemma created_header_facts width height depth :
  0 < width -> 0 < height -> depth = 8 \/ depth = 24 \/ depth = 32 ->
  ImageDataSize (created_header width height depth)
  = u32 (spec_RowStride width depth * height) /\
  DataOffset (created_header width height depth) = spec_DataOffset depth /\
  (spec_RowStride width depth * height < 2^32 ->
   header_invariants (created_header width height depth)).
Proof.
  intros Hw Hh Hd. split; [reflexivity |]. split; [reflexivity |].
  intros Hfit.
  pose proof (spec_RowStride_nonneg width depth Hw Hd) as Hs.
  split; simpl; try reflexivity; try assumption.
  apply u32_small. nia.
Qed.

(** C6 (amended). A bitmap returned by [BMP_Create] has header size 40,
    no compression, depth 8, 24 or 32, positive width and height,
    [DataOffset = 54 (+ 1024 for depth 8)] and
    [ImageDataSize = RowStride * Height] modulo [2^32], so all section-3
    invariants hold when that product fits 32 bits.  A bitmap returned by
    [BMP_ReadFile] has header size 40, no compression, depth 8, 24 or 32
    and positive width; its other header fields are the file's, unchecked.
    No pixel or palette accessor changes the header. *)
Theorem returned_headers :
  (forall env width height depth bm st,
      BMP_Create env width height depth = (Some bm, st) ->
      HeaderSize (Header bm) = 40 /\
      CompressionType (Header bm) = 0 /\
      (BitsPerPixel (Header bm) = 8 \/ BitsPerPixel (Header bm) = 24
       \/ BitsPerPixel (Header bm) = 32) /\
      0 < Width (Header bm) /\
      0 < Height (Header bm) /\
      DataOffset (Header bm) = spec_DataOffset (BitsPerPixel (Header bm)) /\
      ImageDataSize (Header bm)
      = u32 (spec_RowStride (Width (Header bm)) (BitsPerPixel (Header bm))
             * Height (Header bm)) /\
      (spec_RowStride (Width (Header bm)) (BitsPerPixel (Header bm))
       * Height (Header bm) < 2^32 ->
       header_invariants (Header bm))) /\
  (forall env fuel filename bm st,
      BMP_ReadFile env fuel filename = Returns (Some bm, st) ->
      HeaderSize (Header bm) = 40 /\
      CompressionType (Header bm) = 0 /\
      (BitsPerPixel (Header bm) = 8 \/ BitsPerPixel (Header bm) = 24
       \/ BitsPerPixel (Header bm) = 32) /\
      0 < Width (Header bm)) /\
  ((forall x y r g b, keeps_header (BMP_GetPixelRGB x y r g b)) /\
   (forall x y r g b, keeps_header (BMP_SetPixelRGB x y r g b)) /\
   (forall x y val, keeps_header (BMP_GetPixelIndex x y val)) /\
   (forall x y val, keeps_header (BMP_SetPixelIndex x y val)) /\
   (forall index r g b, keeps_header (BMP_GetPaletteColor index r g b)) /\
   (forall index r g b, keeps_header (BMP_SetPaletteColor index r g b))).
Proof.
  split; [| split; [| exact accessors_keep_header]].
  - intros env width height depth bm st E.
    destruct (BMP_Create_header _ _ _ _ _ _ E) as (Hh & Hw & Hht & Hd).
    destruct (created_header_facts width height depth Hw Hht Hd) as (Hids & Hoff & Hinv).
    rewrite Hh. simpl.
    repeat (split; [first [reflexivity | assumption] |]).
    exact Hinv.
  - intros env fuel filename bm st E.
    destruct (BMP_ReadFile_result _ _ _ _ _ E)
      as [(_ & name & file & h & rest & bm' & _ & _ & Ehdr & _ & Evar & Ebm & Hh & f & Erows)
         | (_ & Hnone)]; [| discriminate].
    injection Ebm as <-. rewrite Hh.
    destruct (unsupported_variant_false _ Evar) as (Hd & Hc & Hs).
    repeat (split; [assumption |]).
    destruct (ReadHeader_Some _ _ _ Ehdr) as (_ & _ & (Hw & _)).
    destruct (Z.eq_dec (Width h) 0) as [E0 | E0]; [| lia].
    exfalso. rewrite E0, Z.mul_0_r in Erows. change (s32 0) with 0 in Erows.
    rewrite read_rows_zero_width in Erows. discriminate.
Qed.

Lemma returned_headers_witness :
  header_invariants (Header rgb_2x2) /\
  (forall m a m',
      bmp_obj m = Some rgb_2x2 ->
      BMP_SetPixelRGB 0 0 x01 x02 x03 m = Returns (a, m') ->
      option_map Header (bmp_obj m') = Some (Header rgb_2x2)).
Proof.
  destruct returned_headers as (Hcreate & _ & _ & Hset & _).
  split.
  - apply (Hcreate (sample_env [] 0) 2 2 24 rgb_2x2 BMP_OK eq_refl).
    vm_compute. reflexivity.
  - intros m a m' Hm E. rewrite (Hset 0 0 x01 x02 x03 m a m' E), Hm. reflexivity.
Defined.

(** C6, as stated, fails for decoding: [BMP_ReadFile] accepts a file
    whose [DataOffset] field is 0 and returns it in the header. *)
Lemma decode_keeps_wrong_data_offset :
  exists bm,
    BMP_ReadFile (sample_env file_1x1_depth24_offset0 0) 2 (Some "in.bmp"%string)
    = Returns (Some bm, BMP_OK) /\
    DataOffset (Header bm) = 0 /\
    spec_DataOffset (BitsPerPixel (Header bm)) = 54 /\
    ~ header_invariants (Header bm).
Proof.
  eexists. split; [vm_compute; reflexivity |]. simpl.
  split; [reflexivity |]. split; [reflexivity |].
  intros Hinv. pose proof (inv_data_offset _ Hinv) as H. simpl in H. discriminate.
Qed.

(** ** Valid bitmaps are what [BMP_Create] and the setters produce *)

Lemma BMP_Create_valid env width height depth bm st :
  BMP_Create env width height depth = (Some bm, st) ->
  spec_RowStride width depth * height < 2^32 ->
  valid_bitmap bm.
Proof.
  intros E Hfit.
  destruct (BMP_Create_header _ _ _ _ _ _ E) as (Hh & Hw & Hht & Hd).
  destruct (created_header_facts width height depth Hw Hht Hd) as (Hids & _ & Hinv).
  pose proof (spec_RowStride_nonneg width depth Hw Hd) as Hs.
  rewrite u32_small in Hids by nia.
  rewrite BMP_Create_cases in E.
  destruct ((height <=? 0) || (width <=? 0)); [discriminate |].
  destruct (negb (depth =? 8) && negb (depth =? 24) && negb (depth =? 32));
    [discriminate |].
  destruct (negb (can_alloc env (sizeof_BMP env))); [discriminate |].
  destruct ((depth =? 8) && negb (can_alloc env BMP_PALETTE_SIZE)); [discriminate |].
  destruct (negb (can_alloc env _)); [discriminate |].
  injection E as <- <-. split.
  - apply Hinv. exact Hfit.
  - simpl in *. lia.
  - cbn [Data Header]. unfold calloc_block. rewrite length_replicate.
    simpl in Hids |- *. lia.
  - cbn [Palette Header BitsPerPixel created_header].
    destruct (depth =? 8) eqn:E8.
    + apply Z.eqb_eq in E8. split; [exact E8 | reflexivity].
    + apply Z.eqb_neq in E8. exact E8.
Qed.

Lemma keeps_valid_ret {A} (a : A) : keeps_valid (ret a).
Proof. intros m a' m' bm E Hm Hv. injection E as <- <-. eauto. Qed.

Lemma keeps_valid_bind {A B} (c : M A) (k : A -> M B) :
  keeps_valid c -> (forall a, keeps_valid (k a)) -> keeps_valid (bind c k).
Proof.
  intros Hc Hk m b m' bm E Hm Hv. unfold bind in E.
  destruct (c m) as [[a m1] | |] eqn:Ec; try discriminate.
  destruct (Hc _ _ _ _ Ec Hm Hv) as (bm1 & Hm1 & Hv1).
  exact (Hk a _ _ _ _ E Hm1 Hv1).
Qed.

Lemma keeps_valid_get_bmp : keeps_valid get_bmp.
Proof. intros m a m' bm E Hm Hv. injection E as <- <-. eauto. Qed.

Lemma keeps_valid_set_error e : keeps_valid (set_error e).
Proof. intros m a m' bm E Hm Hv. injection E as <- <-. eauto. Qed.

Lemma keeps_valid_load p : keeps_valid (load p).
Proof.
  intros m a m' bm E Hm Hv. unfold load in E. rewrite Hm in E.
  destruct (block_of bm p.1); [| discriminate].
  destruct (0 <=? p.2); [| discriminate].
  destruct (_ !! _); [| discriminate].
  injection E as <- <-. eauto.
Qed.

Lemma keeps_valid_store p v : keeps_valid (store p v).
Proof.
  intros m a m' bm E Hm Hv. unfold store in E. rewrite Hm in E.
  destruct (block_of bm p.1) as [bytes |] eqn:Eb; [| discriminate].
  destruct ((0 <=? p.2) && _); [| discriminate].
  injection E as <- <-. eexists. split; [reflexivity |].
  destruct Hv as [Hh Hfit Hdata Hpal].
  destruct p.1; simpl in Eb |- *.
  - injection Eb as <-. split; simpl; try assumption. now rewrite length_insert.
  - rewrite Eb in Hpal. split; simpl; try assumption. now rewrite length_insert.
Qed.

Lemma keeps_valid_write_out cell p : keeps_valid (write_out cell p).
Proof.
  destruct cell; simpl.
  - apply keeps_valid_bind; [apply keeps_valid_load | intros; apply keeps_valid_ret].
  - apply keeps_valid_ret.
Qed.

Ltac keeps_valid_tac :=
  repeat first
    [ apply keeps_valid_ret
    | apply keeps_valid_get_bmp
    | apply keeps_valid_set_error
    | apply keeps_valid_load
    | apply keeps_valid_store
    | apply keeps_valid_write_out
    | apply keeps_valid_bind; [| intros ?]
    | match goal with
      | |- keeps_valid (if ?c then _ else _) => destruct c
      | |- keeps_valid (match ?x with Some _ => _ | None => _ end) => destruct x
      end ].

Lemma setters_keep_valid :
  (forall x y r g b, keeps_valid (BMP_SetPixelRGB x y r g b)) /\
  (forall x y val, keeps_valid (BMP_SetPixelIndex x y val)) /\
  (forall index r g b, keeps_valid (BMP_SetPaletteColor index r g b)).
Proof.
  repeat split; intros;
    unfold BMP_SetPixelRGB, BMP_SetPixelIndex, BMP_SetPaletteColor;
    keeps_valid_tac.
Qed.

(** ** What the row loop of [BMP_ReadFile] leaves untouched *)

Lemma write_block_outside blk off bs blk' (i : nat) :
  write_block blk off bs = Some blk' ->
  Z.of_nat i < off \/ off + Z.of_nat (length bs) <= Z.of_nat i ->
  blk' !! i = blk !! i.
Proof.
  unfold write_block. intros E Hi.
  destruct ((0 <=? off) && (off + Z.of_nat (length bs) <=? Z.of_nat (length blk))) eqn:Ec.
  - apply andb_true_iff in Ec as [Eoff Efit].
    apply Z.leb_le in Eoff, Efit.
    assert (Htake : length (take (Z.to_nat off) blk) = Z.to_nat off)
      by (apply length_take_le; lia).
    injection E as <-. destruct Hi as [Hi | Hi].
    + rewrite lookup_app_l by lia. apply lookup_take_lt. lia.
    + rewrite lookup_app_r by lia. rewrite lookup_app_r by lia.
      rewrite lookup_drop, Htake. f_equal. lia.
  - destruct bs; [| discriminate]. now injection E as <-.
Qed.

(** The loop over rows [n, ..., 0] writes below offset [(n + 1) * width]
    only. *)
Lemma read_rows_untouched (n : nat) :
  forall (fuel : nat) (width : Z) (f : FILE_in) (data data' : list byte),
    0 < width ->
    (Z.of_nat n + 1) * width < 2^31 ->
    (Z.of_nat n + 1) * width <= Z.of_nat (length data) ->
    read_rows fuel width (Z.of_nat n * width) f data = Returns (Some data') ->
    forall i : nat,
      (Z.of_nat n + 1) * width <= Z.of_nat i -> data' !! i = data !! i.
Proof.
  induction n as [| n IH]; intros fuel width f data data' Hw Hint Hfit E i Hi;
    (destruct fuel as [| fuel]; [discriminate |]).
  - change (Z.of_nat 0) with 0 in *. rewrite Z.mul_0_l in E.
    destruct (read_rows_step fuel width 0 f data Hw ltac:(lia) ltac:(lia))
      as [Hshort Hfull].
    destruct (Z_lt_le_dec (Z.of_nat (length f)) width) as [Hlen | Hlen].
    + rewrite (Hshort Hlen) in E. discriminate.
    + destruct (Hfull Hlen) as (data1 & Ew & Hlen1 & Er). rewrite Er in E.
      rewrite s32_small in E by lia.
      destruct fuel as [| fuel]; [discriminate |].
      rewrite read_rows_exit in E by lia. injection E as <-.
      apply (write_block_outside _ _ _ _ _ Ew). right.
      pose proof (take_at_most f (Z.to_nat width)). lia.
  - assert (Hpos : 0 <= Z.of_nat (S n) * width) by nia.
    destruct (read_rows_step fuel width (Z.of_nat (S n) * width) f data Hw Hpos ltac:(nia))
      as [Hshort Hfull].
    destruct (Z_lt_le_dec (Z.of_nat (length f)) width) as [Hlen | Hlen].
    + rewrite (Hshort Hlen) in E. discriminate.
    + destruct (Hfull Hlen) as (data1 & Ew & Hlen1 & Er). rewrite Er in E.
      assert (Hnext : s32 (Z.of_nat (S n) * width - width) = Z.of_nat n * width).
      { rewrite s32_small by nia. nia. }
      rewrite Hnext in E.
      assert (Hfit1 : (Z.of_nat n + 1) * width <= Z.of_nat (length data1))
        by (rewrite Hlen1; nia).
      rewrite (IH _ _ _ data1 _ Hw ltac:(nia) Hfit1 E i ltac:(nia)).
      apply (write_block_outside _ _ _ _ _ Ew). right.
      pose proof (take_at_most f (Z.to_nat width)). nia.
Qed.

Lemma malloc_block_lookup env n (i : nat) :
  Z.of_nat i < n -> malloc_block env n !! i = Some (junk env i).
Proof.
  intros Hi. unfold malloc_block.
  rewrite list_lookup_fmap, lookup_seq_lt by lia. reflexivity.
Qed.

(** After a successful [BMP_ReadFile] only the first [Height * Width]
    bytes of the pixel block come from the file; the rest of its
    [ImageDataSize] bytes is what [malloc] handed out.  (For depth 24
    and 32 the accessors address rows of [Width * BytesPerPixel] bytes at
    a stride of [ImageDataSize / Height].) *)
Lemma BMP_ReadFile_block_tail env fuel filename bm st :
  BMP_ReadFile env fuel filename = Returns (Some bm, st) ->
  0 < Height (Header bm) ->
  Height (Header bm) * Width (Header bm) <= ImageDataSize (Header bm) ->
  ImageDataSize (Header bm) < 2^31 ->
  forall i : nat,
    Height (Header bm) * Width (Header bm) <= Z.of_nat i < ImageDataSize (Header bm) ->
    Data bm !! i = Some (junk env i).
Proof.
  intros E Hh Hrows Hint i Hi.
  destruct (BMP_ReadFile_result _ _ _ _ _ E)
    as [(_ & name & file & h & rest & bm' & _ & _ & Ehdr & _ & _ & Ebm & Hhdr & f & Erows)
       | (_ & Hnone)]; [| discriminate].
  injection Ebm as <-. rewrite Hhdr in *.
  destruct (ReadHeader_Some _ _ _ Ehdr) as (_ & _ & (Hw & _)).
  assert (Hwpos : 0 < Width h).
  { destruct (Z.eq_dec (Width h) 0) as [E0 | E0]; [| lia].
    exfalso. rewrite E0, Z.mul_0_r in Erows. change (s32 0) with 0 in Erows.
    rewrite read_rows_zero_width in Erows. discriminate. }
  assert (Hidx : s32 (u32 (Height h - 1) * Width h)
                 = Z.of_nat (Z.to_nat (Height h - 1)) * Width h).
  { rewrite u32_small by nia. rewrite s32_small by nia. f_equal. lia. }
  rewrite Hidx in Erows.
  assert (Hn : Z.of_nat (Z.to_nat (Height h - 1)) + 1 = Height h) by lia.
  rewrite (read_rows_untouched (Z.to_nat (Height h - 1)) fuel (Width h) f
             (malloc_block env (ImageDataSize h)) (Data bm) Hwpos);
    [apply malloc_block_lookup; lia | rewrite Hn; lia
    | rewrite Hn, malloc_block_length; lia | exact Erows | rewrite Hn; lia].
Qed.

(** ** The row loop of [BMP_WriteFile] *)

Lemma fwrite_item_fits bs f :
  (length bs <= room f)%nat ->
  fwrite_item bs f
  = (true, {| written := written f ++ bs; room := (room f - length bs)%nat |}).
Proof.
  intros Hroom. unfold fwrite_item, fwrite.
  rewrite Nat.min_l by exact Hroom. rewrite Z.eqb_refl, firstn_all. reflexivity.
Qed.

Lemma Writeuint32_t_writes x : writes 4 (Writeuint32_t x).
Proof.
  intros f Hroom. unfold Writeuint32_t. cbv zeta.
  rewrite fwrite_item_fits by exact Hroom.
  eexists. split; [| reflexivity]. reflexivity.
Qed.

Lemma Writeuint16_t_writes x : writes 2 (Writeuint16_t x).
Proof.
  intros f Hroom. unfold Writeuint16_t. cbv zeta.
  rewrite fwrite_item_fits by exact Hroom.
  eexists. split; [| reflexivity]. reflexivity.
Qed.

Lemma writes_seq n k w1 w2 :
  writes n w1 -> writes k w2 -> writes (n + k) (w1 >>> w2).
Proof.
  intros H1 H2 f Hroom. unfold wseq.
  destruct (H1 f ltac:(lia)) as (bs1 & Hl1 & E1). rewrite E1.
  destruct (H2 {| written := written f ++ bs1; room := (room f - n)%nat |}
              ltac:(simpl; lia)) as (bs2 & Hl2 & E2).
  rewrite E2. exists (bs1 ++ bs2). split; [rewrite length_app; lia |].
  cbn [written room].
  replace (room f - n - k)%nat with (room f - (n + k))%nat by lia.
  now rewrite <- app_assoc.
Qed.

(** With room for them, [WriteHeader] puts out 54 bytes and returns
    [BMP_OK]. *)
Lemma WriteHeader_fits b f :
  (54 <= room f)%nat ->
  exists bs,
    length bs = 54%nat /\
    WriteHeader (Some b) f
    = (BMP_OK, {| written := written f ++ bs; room := (room f - 54)%nat |}).
Proof.
  intros Hroom. unfold WriteHeader.
  assert (Hw : writes 54
                 (Writeuint16_t (Magic (Header b)) >>>
                  Writeuint32_t (FileSize (Header b)) >>>
                  Writeuint16_t (Reserved1 (Header b)) >>>
                  Writeuint16_t (Reserved2 (Header b)) >>>
                  Writeuint32_t (DataOffset (Header b)) >>>
                  Writeuint32_t (HeaderSize (Header b)) >>>
                  Writeuint32_t (Width (Header b)) >>>
                  Writeuint32_t (Height (Header b)) >>>
                  Writeuint16_t (Planes (Header b)) >>>
                  Writeuint16_t (BitsPerPixel (Header b)) >>>
                  Writeuint32_t (CompressionType (Header b)) >>>
                  Writeuint32_t (ImageDataSize (Header b)) >>>
                  Writeuint32_t (HPixelsPerMeter (Header b)) >>>
                  Writeuint32_t (VPixelsPerMeter (Header b)) >>>
                  Writeuint32_t (ColorsUsed (Header b)) >>>
                  Writeuint32_t (ColorsRequired (Header b)))).
  { change 54%nat with
      (2 + (4 + (2 + (2 + (4 + (4 + (4 + (4 + (2 + (2 + (4 + (4 + (4 + (4 + (4 + 4
       )))))))))))))))%nat.
    repeat first [ apply writes_seq
                 | apply Writeuint32_t_writes
                 | apply Writeuint16_t_writes ]. }
  destruct (Hw f Hroom) as (bs & Hlen & E). rewrite E. now exists bs.
Qed.

Lemma read_block_in_range blk off n :
  0 <= off -> 0 <= n -> off + n <= Z.of_nat (length blk) ->
  exists bs, read_block blk off n = Some bs /\ Z.of_nat (length bs) = n.
Proof.
  intros Hoff Hn Hfit. unfold read_block.
  destruct ((0 <=? off) && (0 <=? n) && (off + n <=? Z.of_nat (length blk))) eqn:E.
  - eexists. split; [reflexivity |].
    rewrite length_take_le; [lia | rewrite length_drop; lia].
  - exfalso. rewrite !andb_false_iff in E. destruct E as [[E | E] | E]; lia.
Qed.

(** On a valid bitmap whose [Width] differs from its [ImageDataSize]
    (every one except depth 8 with a single row of a width that is a
    multiple of 4), [BMP_WriteFile] ends in [BMP_IO_ERROR] after the first
    row's [Width] bytes, although the stream took every byte. *)
Lemma BMP_WriteFile_stops_after_first_row env fuel b name space :
  valid_bitmap b ->
  ImageDataSize (Header b) < 2^31 ->
  Width (Header b) <> ImageDataSize (Header b) ->
  fopen_wb env name = Some space ->
  (54 + 1024 + Z.to_nat (Width (Header b)) <= space)%nat ->
  (1 <= fuel)%nat ->
  exists bytes,
    BMP_WriteFile env fuel (Some b) (Some name) = Returns (Some bytes, BMP_IO_ERROR) /\
    Z.of_nat (length bytes)
    = 54 + (if BitsPerPixel (Header b) =? 8 then 1024 else 0) + Width (Header b).
Proof.
  intros Hv Hint Hne Hopen Hspace Hfuel.
  destruct fuel as [| fuel]; [lia |].
  pose proof (valid_header _ Hv) as Hinv.
  pose proof (inv_width _ Hinv) as Hw. pose proof (inv_height _ Hinv) as Hh.
  pose proof (rows_fit_block _ Hinv) as Hrows.
  pose proof (valid_data _ Hv) as Hdata.
  assert (Hidx : s32 (u32 (Height (Header b) - 1) * Width (Header b))
                 = (Height (Header b) - 1) * Width (Header b)).
  { rewrite u32_small by nia. apply s32_small. nia. }
  assert (Hrow : forall f : FILE_out,
             (Z.to_nat (Width (Header b)) <= room f)%nat ->
             exists f',
               write_rows (S fuel) b
                          (s32 (u32 (Height (Header b) - 1) * Width (Header b))) f
               = Returns (BMP_IO_ERROR, f') /\
               Z.of_nat (length (written f'))
               = Z.of_nat (length (written f)) + Width (Header b)).
  { intros f Hroom. rewrite Hidx. cbn [write_rows].
    destruct ((Height (Header b) - 1) * Width (Header b) >=? 0) eqn:E;
      [| exfalso; nia]. cbn [negb].
    destruct (read_block_in_range (Data b) ((Height (Header b) - 1) * Width (Header b))
                (Width (Header b))) as (row & Erow & Hlen); [nia | lia | nia |].
    rewrite Erow. unfold fwrite. rewrite Nat.min_l by lia. rewrite Hlen.
    destruct (Width (Header b) =? ImageDataSize (Header b)) eqn:En;
      [apply Z.eqb_eq in En; contradiction |].
    cbn [negb]. eexists. split; [reflexivity |].
    simpl. rewrite length_app, length_take_le by lia. lia. }
  destruct (WriteHeader_fits b {| written := []; room := space |} ltac:(simpl; lia))
    as (hdr & Hhdr & Ehdr).
  unfold BMP_WriteFile. rewrite Hopen, Ehdr.
  pose proof (valid_palette _ Hv) as Hpal.
  destruct (Palette b) as [pal |].
  - destruct Hpal as [H8 Hlen].
    destruct (read_block_in_range pal 0 BMP_PALETTE_SIZE) as (bytes & Ebytes & Hbytes);
      [lia | unfold BMP_PALETTE_SIZE; lia | unfold BMP_PALETTE_SIZE; lia |].
    rewrite Ebytes. unfold fwrite at 1. cbn [room written].
    assert (Hbl : length bytes = 1024%nat) by (unfold BMP_PALETTE_SIZE in Hbytes; lia).
    rewrite Nat.min_l by lia. rewrite Hbl.
    change (negb (Z.of_nat 1024 =? BMP_PALETTE_SIZE)) with false. cbv iota.
    destruct (Hrow {| written := ([] ++ hdr) ++ take 1024 bytes;
                      room := (space - 54 - 1024)%nat |} ltac:(simpl; lia))
      as (f' & E & Hlen').
    rewrite E. eexists. split; [reflexivity |].
    rewrite Hlen', H8. cbn [written]. rewrite !length_app, length_take_le by lia.
    simpl. lia.
  - cbn [written room].
    destruct (Hrow {| written := [] ++ hdr; room := (space - 54)%nat |}
                ltac:(simpl; lia)) as (f' & E & Hlen').
    rewrite E. eexists. split; [reflexivity |].
    rewrite Hlen'. destruct (BitsPerPixel (Header b) =? 8) eqn:E8;
      [apply Z.eqb_eq in E8; contradiction |].
    cbn [written]. rewrite length_app. simpl. lia.
Qed.

(** ** C1, C2, C3: the row loops on sample inputs *)

(** The one shape on which the two row loops agree with the rest of the
    code is depth 8 with a single row whose width is a multiple of 4
    (then [Width = RowStride = ImageDataSize]): there the file written
    is read back as the same bitmap. *)
Example round_trip_4x1_depth8 :
  exists b file,
    strip_4x1 = Some b /\
    BMP_WriteFile (sample_env [] 4096) 8 (Some b) (Some "out.bmp"%string)
    = Returns (Some file, BMP_OK) /\
    length file = (54 + 1024 + 4)%nat /\
    BMP_ReadFile (sample_env file 0) 8 (Some "out.bmp"%string)
    = Returns (Some b, BMP_OK).
Proof.
  eexists. eexists. split; [vm_compute; reflexivity |].
  split; [vm_compute; reflexivity |].
  split; vm_compute; reflexivity.
Qed.

(** C1. Round trip [decode (encode B) = B], tried on the blank 2x2
    bitmap of depth 24 with a device that takes every byte:
    [BMP_WriteFile] stops after the header and two pixel bytes with
    [BMP_IO_ERROR], and [BMP_ReadFile] of what was written ends in
    [BMP_FILE_INVALID] with no bitmap. *)
Theorem round_trip_2x2_depth24 :
  blank 2 2 24 = Some rgb_2x2 /\
  BMP_WriteFile (sample_env [] 4096) 8 (Some rgb_2x2) (Some "out.bmp"%string)
  = Returns (Some (header_2x2_depth24 ++ [x00; x00]), BMP_IO_ERROR) /\
  BMP_ReadFile (sample_env (header_2x2_depth24 ++ [x00; x00]) 0) 8 (Some "out.bmp"%string)
  = Returns (None, BMP_FILE_INVALID).
Proof. repeat split; vm_compute; reflexivity. Qed.

(** C2. Where decoding puts the pixel bytes, tried on a well-formed 1x2
    file of depth 24 (bottom row [11 12 13], top row [21 22 23], one
    padding byte each): the block receives only the first byte of each
    row, at offsets 1 and 0, instead of rows of three bytes at offsets 0
    and 4; reading pixel (0,0) back yields untouched memory. *)
Theorem decode_1x2_depth24 :
  drop 54 file_1x2_depth24 = [x11; x12; x13; x00; x21; x22; x23; x00] /\
  ReadHeader file_1x2_depth24 = (Some parsed_1x2_depth24, drop 54 file_1x2_depth24) /\
  header_invariants parsed_1x2_depth24 /\
  spec_pixel_offset parsed_1x2_depth24 0 1 = 0 /\
  spec_pixel_offset parsed_1x2_depth24 0 0 = 4 /\
  BMP_ReadFile (sample_env file_1x2_depth24 0) 8 (Some "in.bmp"%string)
  = Returns (Some decoded_1x2_depth24, BMP_OK) /\
  Data decoded_1x2_depth24 = [x21; x11; xcd; xcd; xcd; xcd; xcd; xcd] /\
  BMP_GetPixelRGB 0 0 (Some x00) (Some x00) (Some x00)
                  (on_bitmap (Some decoded_1x2_depth24) BMP_OK)
  = Returns ((Some xcd, Some xcd, Some xcd),
             {| bmp_obj := Some decoded_1x2_depth24;
                BMP_LAST_ERROR_CODE := BMP_OK;
                accesses := [LoadAt DataBlock 6; LoadAt DataBlock 5; LoadAt DataBlock 4] |}).
Proof.
  repeat split; try (vm_compute; reflexivity); simpl; lia.
Qed.

(** C3. Encoding the blank 2x2 bitmap of depth 8 to a device with room
    for 4096 bytes: header and palette are written, then two bytes of
    the first row, and the status is [BMP_IO_ERROR] although all 1080
    bytes were accepted. *)
Theorem encode_2x2_depth8 :
  blank 2 2 8 = Some indexed_2x2 /\
  BMP_WriteFile (sample_env [] 4096) 8 (Some indexed_2x2) (Some "out.bmp"%string)
  = Returns (Some (header_2x2_depth8 ++ replicate 1024 x00 ++ [x00; x00]),
             BMP_IO_ERROR) /\
  length (header_2x2_depth8 ++ replicate 1024 x00 ++ [x00; x00]) = 1080%nat.
Proof. repeat split; vm_compute; reflexivity. Qed.

(** * Further properties *)

(** ** The little-endian codec *)

Lemma byte_to_Z_to_byte z : byte_to_Z (Z_to_byte z) = z mod 2^8.
Proof.
  unfold byte_to_Z, Z_to_byte, u8.
  pose proof (Z.mod_pos_bound z (2^8) ltac:(lia)) as Hr.
  destruct (Byte.of_N (Z.to_N (z mod 2^8))) as [b |] eqn:E.
  - apply Byte.to_of_N in E. rewrite E. lia.
  - exfalso.
    pose proof (Byte.to_of_N_option_map (Z.to_N (z mod 2^8))) as H.
    rewrite E in H. simpl in H.
    destruct (N.leb_spec (Z.to_N (z mod 2^8)) 255); [discriminate | lia].
Qed.

Lemma Z_to_byte_to_Z (b : byte) : Z_to_byte (byte_to_Z b) = b.
Proof.
  unfold Z_to_byte, u8. pose proof (byte_to_Z_range b) as Hr.
  rewrite Z.mod_small by lia. unfold byte_to_Z. rewrite N2Z.id, Byte.of_to_N.
  reflexivity.
Qed.

Lemma Z_to_byte_congr a b : a mod 2^8 = b mod 2^8 -> Z_to_byte a = Z_to_byte b.
Proof. intros H. unfold Z_to_byte, u8. now rewrite H. Qed.

(** A masked and shifted byte of [x] is the corresponding digit of [x]
    in base 256. *)
Lemma masked_byte x mask k :
  0 <= k -> mask = Z.shiftl 255 k ->
  Z.shiftr (Z.land x mask) k mod 2^8 = (x / 2^k) mod 2^8.
Proof.
  intros Hk ->. rewrite Z.shiftr_land, Z.shiftr_shiftl_l by lia.
  rewrite Z.sub_diag, Z.shiftl_0_r. change 255 with (Z.ones 8).
  rewrite Z.land_ones by lia. rewrite Z.shiftr_div_pow2 by lia.
  apply Z.mod_mod. lia.
Qed.

Lemma Writeuint32_t_le32 x f : Writeuint32_t x f = fwrite_item (le32 x) f.
Proof.
  unfold Writeuint32_t, le32. cbv zeta. do 2 f_equal;
    [| f_equal; [| f_equal; [| f_equal]]];
    apply Z_to_byte_congr.
  - rewrite (masked_byte x _ 0) by (lia || reflexivity). now rewrite Z.div_1_r.
  - apply masked_byte; [lia | reflexivity].
  - apply masked_byte; [lia | reflexivity].
  - apply masked_byte; [lia | reflexivity].
Qed.

Lemma Writeuint16_t_le16 x f : Writeuint16_t x f = fwrite_item (le16 x) f.
Proof.
  unfold Writeuint16_t, le16. cbv zeta. do 2 f_equal; [| f_equal];
    apply Z_to_byte_congr.
  - rewrite (masked_byte x _ 0) by (lia || reflexivity). now rewrite Z.div_1_r.
  - apply masked_byte; [lia | reflexivity].
Qed.

(** Or-ing a shifted value onto a smaller one adds them. *)
Lemma lor_shiftl_small hi lo k :
  0 <= k -> 0 <= lo < 2^k -> Z.lor (Z.shiftl hi k) lo = hi * 2^k + lo.
Proof.
  intros Hk Hlo.
  assert (Hdisj : Z.land (Z.shiftl hi k) lo = 0).
  { apply Z.bits_inj'. intros n Hn. rewrite Z.land_spec, Z.bits_0.
    destruct (Z_lt_le_dec n k) as [Hlt | Hge].
    - rewrite Z.shiftl_spec_low by lia. reflexivity.
    - rewrite <- (Z.mod_small lo (2^k)) by lia.
      rewrite Z.mod_pow2_bits_high by lia. apply andb_false_r. }
  rewrite <- Z.lxor_lor by exact Hdisj.
  rewrite <- Z.add_nocarry_lxor by exact Hdisj.
  now rewrite Z.shiftl_mul_pow2 by lia.
Qed.

Lemma le32_value x :
  u32 (Z.lor (Z.lor (Z.lor (Z.shiftl (byte_to_Z (Z_to_byte (x / 2^24))) 24)
                           (Z.shiftl (byte_to_Z (Z_to_byte (x / 2^16))) 16))
                    (Z.shiftl (byte_to_Z (Z_to_byte (x / 2^8))) 8))
             (byte_to_Z (Z_to_byte x)))
  = u32 x.
Proof.
  rewrite !byte_to_Z_to_byte.
  set (b0 := x mod 2^8). set (b1 := (x / 2^8) mod 2^8).
  set (b2 := (x / 2^16) mod 2^8). set (b3 := (x / 2^24) mod 2^8).
  assert (H0 : 0 <= b0 < 2^8) by (apply Z.mod_pos_bound; lia).
  assert (H1 : 0 <= b1 < 2^8) by (apply Z.mod_pos_bound; lia).
  assert (H2 : 0 <= b2 < 2^8) by (apply Z.mod_pos_bound; lia).
  assert (H3 : 0 <= b3 < 2^8) by (apply Z.mod_pos_bound; lia).
  replace (Z.shiftl b3 24) with (Z.shiftl (Z.shiftl (Z.shiftl b3 8) 8) 8)
    by (rewrite !Z.shiftl_shiftl by lia; reflexivity).
  replace (Z.shiftl b2 16) with (Z.shiftl (Z.shiftl b2 8) 8)
    by (rewrite !Z.shiftl_shiftl by lia; reflexivity).
  rewrite <- !Z.shiftl_lor.
  rewrite (lor_shiftl_small b3 b2 8) by lia.
  rewrite (lor_shiftl_small _ b1 8) by lia.
  rewrite (lor_shiftl_small _ b0 8) by lia.
  unfold u32, b0, b1, b2, b3.
  pose proof (Z.div_mod x (2^8) ltac:(lia)) as E0.
  pose proof (Z.div_mod (x / 2^8) (2^8) ltac:(lia)) as E1.
  pose proof (Z.div_mod (x / 2^8 / 2^8) (2^8) ltac:(lia)) as E2.
  pose proof (Z.div_mod (x / 2^8 / 2^8 / 2^8) (2^8) ltac:(lia)) as E3.
  replace (x / 2^16) with (x / 2^8 / 2^8) by (rewrite Z.div_div by lia; reflexivity).
  replace (x / 2^24) with (x / 2^8 / 2^8 / 2^8)
    by (rewrite !Z.div_div by lia; reflexivity).
  pose proof (Z.mod_pos_bound x (2^8) ltac:(lia)).
  pose proof (Z.mod_pos_bound (x / 2^8) (2^8) ltac:(lia)).
  pose proof (Z.mod_pos_bound (x / 2^8 / 2^8) (2^8) ltac:(lia)).
  pose proof (Z.mod_pos_bound (x / 2^8 / 2^8 / 2^8) (2^8) ltac:(lia)).
  rewrite Z.mod_small by lia.
  apply Z.mod_unique with (q := x / 2^8 / 2^8 / 2^8 / 2^8); lia.
Qed.

Lemma le16_value x :
  u16 (Z.lor (Z.shiftl (byte_to_Z (Z_to_byte (x / 2^8))) 8) (byte_to_Z (Z_to_byte x)))
  = u16 x.
Proof.
  rewrite !byte_to_Z_to_byte.
  pose proof (Z.mod_pos_bound x (2^8) ltac:(lia)).
  pose proof (Z.mod_pos_bound (x / 2^8) (2^8) ltac:(lia)).
  rewrite lor_shiftl_small by lia. unfold u16.
  pose proof (Z.div_mod x (2^8) ltac:(lia)) as E0.
  pose proof (Z.div_mod (x / 2^8) (2^8) ltac:(lia)) as E1.
  rewrite Z.mod_small by lia.
  apply Z.mod_unique with (q := x / 2^8 / 2^8); lia.
Qed.

Lemma Readuint32_t_cons l0 l1 l2 l3 tl :
  Readuint32_t (l0 :: l1 :: l2 :: l3 :: tl)
  = (Some (u32 (Z.lor (Z.lor (Z.lor (Z.shiftl (byte_to_Z l3) 24)
                                    (Z.shiftl (byte_to_Z l2) 16))
                             (Z.shiftl (byte_to_Z l1) 8))
                      (byte_to_Z l0))), tl).
Proof. reflexivity. Qed.

Lemma Readuint16_t_cons l0 l1 tl :
  Readuint16_t (l0 :: l1 :: tl)
  = (Some (u16 (Z.lor (Z.shiftl (byte_to_Z l1) 8) (byte_to_Z l0))), tl).
Proof. reflexivity. Qed.

Lemma Readuint32_t_le32 x rest : Readuint32_t (le32 x ++ rest) = (Some (u32 x), rest).
Proof. unfold le32. cbn [app]. now rewrite Readuint32_t_cons, le32_value. Qed.

Lemma Readuint16_t_le16 x rest : Readuint16_t (le16 x ++ rest) = (Some (u16 x), rest).
Proof. unfold le16. cbn [app]. now rewrite Readuint16_t_cons, le16_value. Qed.

Lemma fwrite_item_short bs f :
  (room f < length bs)%nat -> fst (fwrite_item bs f) = false.
Proof.
  intros H. unfold fwrite_item, fwrite. rewrite Nat.min_r by lia. simpl.
  apply Z.eqb_neq. lia.
Qed.

(** The digits of the value [Readuint32_t] assembles are the bytes it
    was given. *)
Lemma le32_of_bytes (l0 l1 l2 l3 : byte) :
  let v := u32 (Z.lor (Z.lor (Z.lor (Z.shiftl (byte_to_Z l3) 24)
                                    (Z.shiftl (byte_to_Z l2) 16))
                             (Z.shiftl (byte_to_Z l1) 8))
                      (byte_to_Z l0)) in
  v = byte_to_Z l0 + 2^8 * byte_to_Z l1 + 2^16 * byte_to_Z l2 + 2^24 * byte_to_Z l3 /\
  le32 v = [l0; l1; l2; l3].
Proof.
  pose proof (byte_to_Z_range l0) as H0. pose proof (byte_to_Z_range l1) as H1.
  pose proof (byte_to_Z_range l2) as H2. pose proof (byte_to_Z_range l3) as H3.
  cbv zeta.
  replace (Z.shiftl (byte_to_Z l3) 24)
    with (Z.shiftl (Z.shiftl (Z.shiftl (byte_to_Z l3) 8) 8) 8)
    by (rewrite !Z.shiftl_shiftl by lia; reflexivity).
  replace (Z.shiftl (byte_to_Z l2) 16) with (Z.shiftl (Z.shiftl (byte_to_Z l2) 8) 8)
    by (rewrite !Z.shiftl_shiftl by lia; reflexivity).
  rewrite <- !Z.shiftl_lor.
  rewrite (lor_shiftl_small (byte_to_Z l3) (byte_to_Z l2) 8) by lia.
  rewrite (lor_shiftl_small _ (byte_to_Z l1) 8) by lia.
  rewrite (lor_shiftl_small _ (byte_to_Z l0) 8) by lia.
  rewrite u32_small by lia.
  split; [lia |].
  set (v := ((byte_to_Z l3 * 2^8 + byte_to_Z l2) * 2^8 + byte_to_Z l1) * 2^8
            + byte_to_Z l0).
  assert (D1 : v / 2^8 = (byte_to_Z l3 * 2^8 + byte_to_Z l2) * 2^8 + byte_to_Z l1).
  { symmetry. apply Z.div_unique with (r := byte_to_Z l0); unfold v; lia. }
  assert (D2 : v / 2^16 = byte_to_Z l3 * 2^8 + byte_to_Z l2).
  { symmetry. apply Z.div_unique with (r := byte_to_Z l1 * 2^8 + byte_to_Z l0);
      unfold v; lia. }
  assert (D3 : v / 2^24 = byte_to_Z l3).
  { symmetry.
    apply Z.div_unique
      with (r := (byte_to_Z l2 * 2^8 + byte_to_Z l1) * 2^8 + byte_to_Z l0);
      unfold v; lia. }
  unfold le32. rewrite D1, D2, D3.
  assert (Hb : forall (b : byte) q, Z_to_byte (q * 2^8 + byte_to_Z b) = b).
  { intros b q. rewrite <- (Z_to_byte_to_Z b) at 2. apply Z_to_byte_congr.
    rewrite Z.add_comm, Z.mod_add by lia. reflexivity. }
  unfold v. rewrite !Hb. now rewrite Z_to_byte_to_Z.
Qed.

Lemma le16_of_bytes (l0 l1 : byte) :
  let v := u16 (Z.lor (Z.shiftl (byte_to_Z l1) 8) (byte_to_Z l0)) in
  v = byte_to_Z l0 + 2^8 * byte_to_Z l1 /\ le16 v = [l0; l1].
Proof.
  pose proof (byte_to_Z_range l0) as H0. pose proof (byte_to_Z_range l1) as H1.
  cbv zeta. rewrite lor_shiftl_small by lia.
  unfold u16. rewrite Z.mod_small by lia. split; [lia |].
  assert (D1 : (byte_to_Z l1 * 2^8 + byte_to_Z l0) / 2^8 = byte_to_Z l1).
  { symmetry. apply Z.div_unique with (r := byte_to_Z l0); lia. }
  unfold le16. rewrite D1, Z_to_byte_to_Z. f_equal.
  rewrite <- (Z_to_byte_to_Z l0) at 2. apply Z_to_byte_congr.
  rewrite Z.add_comm, Z.mod_add by lia. reflexivity.
Qed.

(** Inversion of the two readers: what they return determines the bytes
    they took. *)
Lemma Readuint32_t_inv f v rest :
  Readuint32_t f = (Some v, rest) -> f = le32 v ++ rest /\ 0 <= v < 2^32.
Proof.
  destruct f as [| l0 [| l1 [| l2 [| l3 tl]]]]; try discriminate.
  rewrite Readuint32_t_cons. intros E. injection E as <- <-.
  destruct (le32_of_bytes l0 l1 l2 l3) as [_ Hle]. cbv zeta in Hle.
  rewrite Hle. split; [reflexivity | apply u32_range].
Qed.

Lemma Readuint16_t_inv f v rest :
  Readuint16_t f = (Some v, rest) -> f = le16 v ++ rest /\ 0 <= v < 2^16.
Proof.
  destruct f as [| l0 [| l1 tl]]; try discriminate.
  rewrite Readuint16_t_cons. intros E. injection E as <- <-.
  destruct (le16_of_bytes l0 l1) as [_ Hle]. cbv zeta in Hle.
  rewrite Hle. split; [reflexivity |]. unfold u16. apply Z.mod_pos_bound. lia.
Qed.

(** X1. [Writeuint32_t] and [Writeuint16_t] put out the base-256 digits
    of their argument, least significant first, when the stream takes
    them, and report failure when it does not. *)
Theorem writers_are_little_endian :
  forall (x : Z) (f : FILE_out),
    ((4 <= room f)%nat ->
     Writeuint32_t x f
     = (true, {| written := written f ++ le32 x; room := (room f - 4)%nat |})) /\
    ((room f < 4)%nat -> fst (Writeuint32_t x f) = false) /\
    ((2 <= room f)%nat ->
     Writeuint16_t x f
     = (true, {| written := written f ++ le16 x; room := (room f - 2)%nat |})) /\
    ((room f < 2)%nat -> fst (Writeuint16_t x f) = false) /\
    byte_to_Z <$> le32 x
    = [x mod 2^8; (x / 2^8) mod 2^8; (x / 2^16) mod 2^8; (x / 2^24) mod 2^8] /\
    byte_to_Z <$> le16 x = [x mod 2^8; (x / 2^8) mod 2^8].
Proof.
  intros x f. rewrite Writeuint32_t_le32, Writeuint16_t_le16.
  split; [intros H; now apply fwrite_item_fits |].
  split; [intros H; now apply fwrite_item_short |].
  split; [intros H; now apply fwrite_item_fits |].
  split; [intros H; now apply fwrite_item_short |].
  unfold le32, le16. cbn [fmap list_fmap]. rewrite !byte_to_Z_to_byte. now split.
Qed.

Lemma writers_are_little_endian_witness :
  Writeuint32_t 0x12345678 {| written := [x42]; room := 4 |}
  = (true, {| written := [x42; x78; x56; x34; x12]; room := 0 |}) /\
  fst (Writeuint32_t 0x12345678 {| written := [x42]; room := 3 |}) = false /\
  Writeuint16_t 0x4D42 {| written := []; room := 2 |}
  = (true, {| written := [x42; x4d]; room := 0 |}) /\
  fst (Writeuint16_t 0x4D42 {| written := []; room := 1 |}) = false.
Proof.
  destruct (writers_are_little_endian 0x12345678 {| written := [x42]; room := 4 |})
    as (H32 & _).
  destruct (writers_are_little_endian 0x12345678 {| written := [x42]; room := 3 |})
    as (_ & H32s & _).
  destruct (writers_are_little_endian 0x4D42 {| written := []; room := 2 |})
    as (_ & _ & H16 & _).
  destruct (writers_are_little_endian 0x4D42 {| written := []; room := 1 |})
    as (_ & _ & _ & H16s & _).
  split; [rewrite H32 by (simpl; lia); vm_compute; reflexivity |].
  split; [apply H32s; simpl; lia |].
  split; [rewrite H16 by (simpl; lia); vm_compute; reflexivity |].
  apply H16s; simpl; lia.
Defined.

(** X2. What [Writeuint32_t] ([Writeuint16_t]) wrote, [Readuint32_t]
    ([Readuint16_t]) reads back: the same value for an argument that
    fits the type, its low 32 (16) bits otherwise; the bytes behind it
    are left in the stream. *)
Theorem read_back_what_was_written :
  forall (x : Z) (f : FILE_out),
    ((4 <= room f)%nat ->
     exists bs,
       Writeuint32_t x f
       = (true, {| written := written f ++ bs; room := (room f - 4)%nat |}) /\
       (forall rest, Readuint32_t (bs ++ rest) = (Some (u32 x), rest)) /\
       (0 <= x < 2^32 -> forall rest, Readuint32_t (bs ++ rest) = (Some x, rest))) /\
    ((2 <= room f)%nat ->
     exists bs,
       Writeuint16_t x f
       = (true, {| written := written f ++ bs; room := (room f - 2)%nat |}) /\
       (forall rest, Readuint16_t (bs ++ rest) = (Some (u16 x), rest)) /\
       (0 <= x < 2^16 -> forall rest, Readuint16_t (bs ++ rest) = (Some x, rest))).
Proof.
  intros x f. split; intros Hroom.
  - exists (le32 x). rewrite Writeuint32_t_le32.
    split; [now apply fwrite_item_fits |].
    split; [intros rest; apply Readuint32_t_le32 |].
    intros Hx rest. rewrite Readuint32_t_le32, u32_small by lia. reflexivity.
  - exists (le16 x). rewrite Writeuint16_t_le16.
    split; [now apply fwrite_item_fits |].
    split; [intros rest; apply Readuint16_t_le16 |].
    intros Hx rest. rewrite Readuint16_t_le16. unfold u16.
    rewrite Z.mod_small by lia. reflexivity.
Qed.

Lemma read_back_what_was_written_witness :
  exists bs,
    Writeuint32_t 0xCAFEF00D {| written := []; room := 8 |}
    = (true, {| written := [] ++ bs; room := 4 |}) /\
    Readuint32_t (bs ++ [x01; x02]) = (Some 0xCAFEF00D, [x01; x02]).
Proof.
  destruct (read_back_what_was_written 0xCAFEF00D {| written := []; room := 8 |})
    as (H32 & _).
  destruct (H32 ltac:(simpl; lia)) as (bs & Hw & _ & Hr).
  exists bs. split; [exact Hw |]. apply Hr. lia.
Defined.

(** X3. [Readuint32_t] ([Readuint16_t]) fails on fewer than 4 (2) bytes;
    otherwise it takes exactly that many and returns
    [b0 + 256 b1 + 65536 b2 + 16777216 b3] ([b0 + 256 b1]), a value of
    the type whose little-endian bytes are the ones taken. *)
Theorem readers_are_little_endian :
  forall f : FILE_in,
    ((length f < 4)%nat -> fst (Readuint32_t f) = None) /\
    ((length f < 2)%nat -> fst (Readuint16_t f) = None) /\
    (forall l0 l1 l2 l3 tl,
        f = l0 :: l1 :: l2 :: l3 :: tl ->
        Readuint32_t f
        = (Some (byte_to_Z l0 + 2^8 * byte_to_Z l1 + 2^16 * byte_to_Z l2
                 + 2^24 * byte_to_Z l3), tl)) /\
    (forall l0 l1 tl,
        f = l0 :: l1 :: tl ->
        Readuint16_t f = (Some (byte_to_Z l0 + 2^8 * byte_to_Z l1), tl)) /\
    (forall v rest,
        Readuint32_t f = (Some v, rest) -> f = le32 v ++ rest /\ 0 <= v < 2^32) /\
    (forall v rest,
        Readuint16_t f = (Some v, rest) -> f = le16 v ++ rest /\ 0 <= v < 2^16).
Proof.
  intros f.
  split; [intros H; now apply (Readuint32_t_reads f) |].
  split; [intros H; now apply (Readuint16_t_reads f) |].
  split.
  { intros l0 l1 l2 l3 tl ->. rewrite Readuint32_t_cons.
    destruct (le32_of_bytes l0 l1 l2 l3) as [Hv _]. cbv zeta in Hv. now rewrite Hv. }
  split.
  { intros l0 l1 tl ->. rewrite Readuint16_t_cons.
    destruct (le16_of_bytes l0 l1) as [Hv _]. cbv zeta in Hv. now rewrite Hv. }
  split; [intros v rest; apply Readuint32_t_inv | intros v rest; apply Readuint16_t_inv].
Qed.

Lemma readers_are_little_endian_witness :
  fst (Readuint32_t [x01; x02; x03]) = None /\
  Readuint32_t [x78; x56; x34; x12; xff] = (Some 0x12345678, [xff]) /\
  Readuint16_t [x42; x4d; xff] = (Some 0x4D42, [xff]) /\
  [x78; x56; x34; x12; xff] = le32 0x12345678 ++ [xff].
Proof.
  destruct (readers_are_little_endian [x01; x02; x03]) as (Hshort & _).
  destruct (readers_are_little_endian [x78; x56; x34; x12; xff])
    as (_ & _ & H32 & _ & Hinv & _).
  destruct (readers_are_little_endian [x42; x4d; xff]) as (_ & _ & _ & H16 & _).
  split; [apply Hshort; simpl; lia |].
  split; [rewrite (H32 _ _ _ _ _ eq_refl); reflexivity |].
  split; [rewrite (H16 _ _ _ eq_refl); reflexivity |].
  apply (Hinv 0x12345678 [xff]). rewrite (H32 _ _ _ _ _ eq_refl). reflexivity.
Defined.

(** ** The header codec *)

Lemma writes_bytes_seq bs1 bs2 w1 w2 :
  writes_bytes bs1 w1 -> writes_bytes bs2 w2 -> writes_bytes (bs1 ++ bs2) (w1 >>> w2).
Proof.
  intros H1 H2 f. unfold wseq. rewrite length_app.
  destruct (H1 f) as [Hok1 Hshort1]. split; intros Hroom.
  - rewrite Hok1 by lia.
    destruct (H2 {| written := written f ++ bs1; room := (room f - length bs1)%nat |})
      as [Hok2 _].
    rewrite Hok2 by (simpl; lia). cbn [written room].
    rewrite <- app_assoc. do 2 f_equal. lia.
  - destruct (le_lt_dec (length bs1) (room f)) as [Hfit | Hno].
    + rewrite Hok1 by lia.
      destruct (H2 {| written := written f ++ bs1; room := (room f - length bs1)%nat |})
        as [_ Hshort2].
      apply Hshort2. simpl. lia.
    + specialize (Hshort1 Hno). destruct (w1 f) as [[|] f']; [discriminate | reflexivity].
Qed.

Lemma Writeuint32_t_writes_bytes x : writes_bytes (le32 x) (Writeuint32_t x).
Proof.
  intros f. rewrite Writeuint32_t_le32. split; intros H;
    [now apply fwrite_item_fits | now apply fwrite_item_short].
Qed.

Lemma Writeuint16_t_writes_bytes x : writes_bytes (le16 x) (Writeuint16_t x).
Proof.
  intros f. rewrite Writeuint16_t_le16. split; intros H;
    [now apply fwrite_item_fits | now apply fwrite_item_short].
Qed.

Lemma encode_header_length h : length (encode_header h) = 54%nat.
Proof. reflexivity. Qed.

Lemma WriteHeader_writes_bytes b f :
  ((54 <= room f)%nat ->
   WriteHeader (Some b) f
   = (BMP_OK, {| written := written f ++ encode_header (Header b);
                 room := (room f - 54)%nat |})) /\
  ((room f < 54)%nat -> fst (WriteHeader (Some b) f) = BMP_IO_ERROR).
Proof.
  assert (Hw : writes_bytes (encode_header (Header b))
                 (Writeuint16_t (Magic (Header b)) >>>
                  Writeuint32_t (FileSize (Header b)) >>>
                  Writeuint16_t (Reserved1 (Header b)) >>>
                  Writeuint16_t (Reserved2 (Header b)) >>>
                  Writeuint32_t (DataOffset (Header b)) >>>
                  Writeuint32_t (HeaderSize (Header b)) >>>
                  Writeuint32_t (Width (Header b)) >>>
                  Writeuint32_t (Height (Header b)) >>>
                  Writeuint16_t (Planes (Header b)) >>>
                  Writeuint16_t (BitsPerPixel (Header b)) >>>
                  Writeuint32_t (CompressionType (Header b)) >>>
                  Writeuint32_t (ImageDataSize (Header b)) >>>
                  Writeuint32_t (HPixelsPerMeter (Header b)) >>>
                  Writeuint32_t (VPixelsPerMeter (Header b)) >>>
                  Writeuint32_t (ColorsUsed (Header b)) >>>
                  Writeuint32_t (ColorsRequired (Header b)))).
  { unfold encode_header.
    repeat first [ apply writes_bytes_seq
                 | apply Writeuint32_t_writes_bytes
                 | apply Writeuint16_t_writes_bytes ]. }
  unfold WriteHeader. destruct (Hw f) as [Hok Hshort].
  rewrite encode_header_length in Hok, Hshort. split; intros Hroom.
  - now rewrite Hok.
  - specialize (Hshort Hroom).
    match type of Hshort with
    | fst ?c = false => destruct c as [[|] f']
    end; [discriminate | reflexivity].
Qed.

Lemma decodes_bind {A B} bs1 bs2 (v : A) (w : B) r (k : A -> reader B) :
  decodes bs1 v r -> decodes bs2 w (k v) -> decodes (bs1 ++ bs2) w (rbind r k).
Proof.
  intros Hr Hk rest. unfold rbind. rewrite <- app_assoc, Hr. apply Hk.
Qed.

Lemma decodes_bind_last {A B} bs (v : A) (w : B) r (k : A -> reader B) :
  decodes bs v r -> decodes [] w (k v) -> decodes bs w (rbind r k).
Proof.
  intros Hr Hk. rewrite <- (app_nil_r bs). exact (decodes_bind _ _ v w r k Hr Hk).
Qed.

(** The header with every field reduced to its C type. *)
Lemma ReadHeader_decodes h :
  decodes (encode_header h)
          {| Magic := u16 (Magic h); FileSize := u32 (FileSize h);
             Reserved1 := u16 (Reserved1 h); Reserved2 := u16 (Reserved2 h);
             DataOffset := u32 (DataOffset h); HeaderSize := u32 (HeaderSize h);
             Width := u32 (Width h); Height := u32 (Height h);
             Planes := u16 (Planes h); BitsPerPixel := u16 (BitsPerPixel h);
             CompressionType := u32 (CompressionType h);
             ImageDataSize := u32 (ImageDataSize h);
             HPixelsPerMeter := u32 (HPixelsPerMeter h);
             VPixelsPerMeter := u32 (VPixelsPerMeter h);
             ColorsUsed := u32 (ColorsUsed h);
             ColorsRequired := u32 (ColorsRequired h) |}
          ReadHeader.
Proof.
  unfold encode_header, ReadHeader.
  do 15 (eapply decodes_bind;
         [first [intros ?; apply Readuint32_t_le32 | intros ?; apply Readuint16_t_le16]
         | cbv beta]).
  eapply decodes_bind_last; [intros ?; apply Readuint32_t_le32 | cbv beta].
  intros rest. reflexivity.
Qed.

Lemma header_in_range_fixed h :
  header_in_range h ->
  {| Magic := u16 (Magic h); FileSize := u32 (FileSize h);
     Reserved1 := u16 (Reserved1 h); Reserved2 := u16 (Reserved2 h);
     DataOffset := u32 (DataOffset h); HeaderSize := u32 (HeaderSize h);
     Width := u32 (Width h); Height := u32 (Height h);
     Planes := u16 (Planes h); BitsPerPixel := u16 (BitsPerPixel h);
     CompressionType := u32 (CompressionType h);
     ImageDataSize := u32 (ImageDataSize h);
     HPixelsPerMeter := u32 (HPixelsPerMeter h);
     VPixelsPerMeter := u32 (VPixelsPerMeter h);
     ColorsUsed := u32 (ColorsUsed h);
     ColorsRequired := u32 (ColorsRequired h) |} = h.
Proof.
  unfold header_in_range, u16. intros H. decompose [and] H. clear H.
  destruct h; simpl in *. rewrite !u32_small by lia. rewrite !Z.mod_small by lia.
  reflexivity.
Qed.

Lemma parses_bind {A B} pre (enc1 : A -> list byte) (enc : B -> list byte)
      r (k : A -> reader B) :
  (forall f a f1, r f = (Some a, f1) -> f = enc1 a ++ f1) ->
  (forall a, parses (pre ++ enc1 a) enc (k a)) ->
  parses pre enc (rbind r k).
Proof.
  intros Hr Hk f w rest E. unfold rbind in E.
  destruct (r f) as [[a |] f1] eqn:Er; [| discriminate].
  rewrite (Hr _ _ _ Er), app_assoc. exact (Hk a _ _ _ E).
Qed.

Lemma ReadHeader_parses : parses [] encode_header ReadHeader.
Proof.
  unfold ReadHeader.
  repeat first
    [ apply parses_bind with (enc1 := le32);
        [intros ? ? ? E; exact (proj1 (Readuint32_t_inv _ _ _ E)) | intros ?; cbv beta]
    | apply parses_bind with (enc1 := le16);
        [intros ? ? ? E; exact (proj1 (Readuint16_t_inv _ _ _ E)) | intros ?; cbv beta] ].
  intros f v rest E. cbv beta in E. injection E as <- <-. unfold encode_header. cbn [Magic FileSize
    Reserved1 Reserved2 DataOffset HeaderSize Width Height Planes BitsPerPixel
    CompressionType ImageDataSize HPixelsPerMeter VPixelsPerMeter ColorsUsed
    ColorsRequired].
  rewrite <- !app_assoc. reflexivity.
Qed.

Lemma parses_range {A} (P : A -> Prop) n r :
  reads n P r -> forall f v rest, r f = (Some v, rest) -> P v.
Proof.
  intros Hr f v rest E. destruct (Hr f) as [Hok Hshort].
  destruct (le_lt_dec n (length f)) as [Hlen | Hlen].
  - destruct (Hok Hlen) as (a & Ea & Pa). rewrite E in Ea.
    injection Ea as Hv Hrest. now rewrite Hv.
  - specialize (Hshort Hlen). rewrite E in Hshort. discriminate.
Qed.

Lemma Readuint16_t_reads_range : reads 2 (fun v => 0 <= v < 2^16) Readuint16_t.
Proof.
  intros f. split.
  - intros Hlen. destruct f as [| l0 [| l1 rest]]; simpl in Hlen; try lia.
    eexists. split; [reflexivity |]. unfold u16. apply Z.mod_pos_bound. lia.
  - intros Hlen. now apply (Readuint16_t_reads f).
Qed.

Lemma ReadHeader_in_range f h rest :
  ReadHeader f = (Some h, rest) -> header_in_range h.
Proof.
  apply (parses_range header_in_range 54).
  change 54%nat with
    (2 + (4 + (2 + (2 + (4 + (4 + (4 + (4 + (2 + (2 + (4 + (4 + (4 + (4 + (4 + (4 + 0
     ))))))))))))))))%nat.
  unfold ReadHeader.
  repeat (first
    [ apply reads_bind with (P := fun v => 0 <= v < 2^32);
        [exact Readuint32_t_reads | intros ? ?]
    | apply reads_bind with (P := fun v => 0 <= v < 2^16);
        [exact Readuint16_t_reads_range | intros ? ?] ]).
  apply reads_value. unfold header_in_range. simpl. repeat split; lia.
Qed.

(** X4. [WriteHeader] returns [BMP_INVALID_ARGUMENT] for a NULL bitmap
    and writes nothing; for a bitmap it returns [BMP_OK] exactly when
    the stream takes 54 bytes, and then has appended the sixteen fields
    in order, each little-endian; when the stream takes fewer it returns
    [BMP_IO_ERROR]. *)
Theorem WriteHeader_outcome :
  forall (b : BMP) (f : FILE_out),
    WriteHeader None f = (BMP_INVALID_ARGUMENT, f) /\
    ((54 <= room f)%nat ->
     WriteHeader (Some b) f
     = (BMP_OK, {| written := written f ++ encode_header (Header b);
                   room := (room f - 54)%nat |})) /\
    ((room f < 54)%nat -> fst (WriteHeader (Some b) f) = BMP_IO_ERROR) /\
    length (encode_header (Header b)) = 54%nat.
Proof.
  intros b f. split; [reflexivity |].
  destruct (WriteHeader_writes_bytes b f) as [Hok Hshort].
  repeat split; assumption.
Qed.

Lemma WriteHeader_outcome_witness :
  WriteHeader (Some rgb_2x2) {| written := []; room := 54 |}
  = (BMP_OK, {| written := header_2x2_depth24; room := 0 |}) /\
  fst (WriteHeader (Some rgb_2x2) {| written := []; room := 53 |}) = BMP_IO_ERROR.
Proof.
  destruct (WriteHeader_outcome rgb_2x2 {| written := []; room := 54 |})
    as (_ & Hok & _).
  destruct (WriteHeader_outcome rgb_2x2 {| written := []; room := 53 |})
    as (_ & _ & Hshort & _).
  split; [rewrite Hok by (simpl; lia); vm_compute; reflexivity |].
  apply Hshort. simpl. lia.
Defined.

(** X5. A header whose fields fit their C types survives the trip
    through [WriteHeader] and [ReadHeader]: reading the 54 bytes written
    returns the same header and leaves the rest of the stream. *)
Theorem header_round_trip :
  forall (b : BMP) (f : FILE_out) (rest : FILE_in),
    (54 <= room f)%nat ->
    header_in_range (Header b) ->
    exists bytes,
      WriteHeader (Some b) f
      = (BMP_OK, {| written := written f ++ bytes; room := (room f - 54)%nat |}) /\
      ReadHeader (bytes ++ rest) = (Some (Header b), rest).
Proof.
  intros b f rest Hroom Hrange. exists (encode_header (Header b)).
  split; [now apply WriteHeader_writes_bytes |].
  rewrite (ReadHeader_decodes (Header b) rest).
  now rewrite header_in_range_fixed.
Qed.

Lemma header_round_trip_witness :
  exists bytes,
    WriteHeader (Some indexed_2x2) {| written := []; room := 100 |}
    = (BMP_OK, {| written := [] ++ bytes; room := 46 |}) /\
    ReadHeader (bytes ++ [x01; x02; x03]) = (Some (Header indexed_2x2), [x01; x02; x03]).
Proof.
  apply (header_round_trip indexed_2x2 {| written := []; room := 100 |} [x01; x02; x03]).
  - simpl. lia.
  - unfold header_in_range. simpl. lia.
Defined.

(** X6. [ReadHeader] fails on fewer than 54 bytes; on 54 or more it
    takes exactly 54, every field it returns is a value of its C type,
    and the bytes taken are the encoding of the header returned (so
    [WriteHeader] would write them back unchanged). *)
Theorem ReadHeader_outcome :
  forall f : FILE_in,
    ((length f < 54)%nat -> fst (ReadHeader f) = None) /\
    ((54 <= length f)%nat ->
     exists h,
       ReadHeader f = (Some h, drop 54 f) /\
       header_in_range h /\
       take 54 f = encode_header h /\
       forall (palette : option (list byte)) (data : list byte) (out : FILE_out),
         (54 <= room out)%nat ->
         WriteHeader (Some {| Header := h; Palette := palette; Data := data |}) out
         = (BMP_OK, {| written := written out ++ take 54 f;
                       room := (room out - 54)%nat |})).
Proof.
  intros f. split; [apply ReadHeader_short |].
  intros Hlen. destruct (ReadHeader_complete f Hlen) as (h & E & _).
  exists h. split; [exact E |].
  split; [exact (ReadHeader_in_range _ _ _ E) |].
  pose proof (ReadHeader_parses _ _ _ E) as Hp. cbn [app] in Hp.
  assert (Htake : take 54 f = encode_header h).
  { rewrite Hp. rewrite take_app_length'; [reflexivity | reflexivity]. }
  split; [exact Htake |].
  intros palette data out Hroom. rewrite Htake.
  now apply (WriteHeader_writes_bytes {| Header := h; Palette := palette; Data := data |}).
Qed.

Lemma ReadHeader_outcome_witness :
  fst (ReadHeader [x42; x4d]) = None /\
  exists h,
    ReadHeader file_1x2_depth24 = (Some h, drop 54 file_1x2_depth24) /\
    header_in_range h.
Proof.
  destruct (ReadHeader_outcome [x42; x4d]) as (Hshort & _).
  destruct (ReadHeader_outcome file_1x2_depth24) as (_ & Hok).
  split; [apply Hshort; simpl; lia |].
  destruct (Hok ltac:(simpl; lia)) as (h & E & Hr & _).
  exists h. now split.
Defined.

(** ** Writing and reading back a pixel *)

Lemma different_pixels_apart h x y x' y' :
  header_invariants h ->
  0 <= x < Width h -> 0 <= y < Height h ->
  0 <= x' < Width h -> 0 <= y' < Height h ->
  (x, y) <> (x', y') ->
  spec_pixel_offset h x' y' + spec_BytesPerPixel (BitsPerPixel h)
  <= spec_pixel_offset h x y
  \/ spec_pixel_offset h x y + spec_BytesPerPixel (BitsPerPixel h)
     <= spec_pixel_offset h x' y'.
Proof.
  intros Hinv Hx Hy Hx' Hy' Hne.
  destruct (bytes_per_pixel_of_depth _ (inv_depth _ Hinv)) as [_ Hbpp].
  unfold spec_pixel_offset.
  set (bpp := spec_BytesPerPixel (BitsPerPixel h)) in *.
  assert (Hrow : Width h * bpp <= spec_RowStride (Width h) (BitsPerPixel h)).
  { unfold spec_RowStride. fold bpp. apply row_fits_stride. nia. }
  set (stride := spec_RowStride (Width h) (BitsPerPixel h)) in *.
  assert (Hcol : forall c, 0 <= c < Width h -> 0 <= c * bpp /\ c * bpp + bpp <= stride).
  { intros c Hc. split; nia. }
  pose proof (Hcol x Hx) as Hcx. pose proof (Hcol x' Hx') as Hcx'.
  destruct (Z.lt_trichotomy y y') as [Hlt | [Heq | Hgt]].
  - left. assert ((Height h - 1 - y') * stride + stride <= (Height h - 1 - y) * stride)
      by nia. lia.
  - subst y'. assert (x <> x') by congruence.
    destruct (Z.lt_trichotomy x x') as [Hl | [He | Hg]]; [right | contradiction | left];
      nia.
  - right. assert ((Height h - 1 - y) * stride + stride <= (Height h - 1 - y') * stride)
      by nia. lia.
Qed.

Lemma data_with_rgb_length data off r g b :
  length (data_with_rgb data off r g b) = length data.
Proof. unfold data_with_rgb. now rewrite !length_insert. Qed.

Lemma data_with_rgb_at data off r g b :
  0 <= off -> off + 3 <= Z.of_nat (length data) ->
  data_with_rgb data off r g b !! Z.to_nat (off + 2) = Some r /\
  data_with_rgb data off r g b !! Z.to_nat (off + 1) = Some g /\
  data_with_rgb data off r g b !! Z.to_nat (off + 0) = Some b.
Proof.
  intros Hoff Hfit. unfold data_with_rgb. repeat split.
  - rewrite !list_lookup_insert_ne by lia. apply list_lookup_insert_eq. lia.
  - rewrite list_lookup_insert_ne by lia.
    apply list_lookup_insert_eq. rewrite !length_insert. lia.
  - apply list_lookup_insert_eq. rewrite !length_insert. lia.
Qed.

Lemma data_with_rgb_elsewhere data off r g b (i : nat) :
  0 <= off -> Z.of_nat i < off \/ off + 3 <= Z.of_nat i ->
  data_with_rgb data off r g b !! i = data !! i.
Proof.
  intros Hoff Hi. unfold data_with_rgb. now rewrite !list_lookup_insert_ne by lia.
Qed.

Lemma SetPixelRGB_stores m bm x y r g b :
  bmp_obj m = Some bm ->
  valid_bitmap bm ->
  BitsPerPixel (Header bm) <> 8 ->
  0 <= x < Width (Header bm) ->
  0 <= y < Height (Header bm) ->
  exists m',
    BMP_SetPixelRGB x y r g b m = Returns (tt, m') /\
    bmp_obj m'
    = Some {| Header := Header bm; Palette := Palette bm;
              Data := data_with_rgb (Data bm) (spec_pixel_offset (Header bm) x y) r g b |} /\
    BMP_LAST_ERROR_CODE m' = BMP_OK.
Proof.
  intros Hm Hv H8 Hx Hy.
  destruct (pixel_address_in_block _ x y (valid_header _ Hv) (valid_size_fits _ Hv) Hx Hy)
    as (Haddr & Hlo & Hhi).
  assert (Hbpp : 3 <= spec_BytesPerPixel (BitsPerPixel (Header bm))).
  { destruct (inv_depth _ (valid_header _ Hv)) as [E | [E | E]]; rewrite E;
      [congruence | |]; vm_compute; congruence. }
  assert (Hdepth : negb (BitsPerPixel (Header bm) =? 24)
                   && negb (BitsPerPixel (Header bm) =? 32) = false).
  { destruct (inv_depth _ (valid_header _ Hv)) as [E | [E | E]]; rewrite E;
      [congruence | reflexivity | reflexivity]. }
  pose proof (valid_data _ Hv) as Hdata.
  unfold BMP_SetPixelRGB, bind at 1, get_bmp. rewrite Hm.
  rewrite (in_bounds_test _ _ _ Hx Hy), Hdepth.
  unfold bind at 1, set_error. rewrite Haddr. unfold padd; simpl fst; simpl snd.
  erewrite bind_returns.
  2:{ eapply store_in_range; [exact Hm | reflexivity | lia]. }
  erewrite bind_returns.
  2:{ eapply store_in_range; [reflexivity | reflexivity |].
      simpl. rewrite length_insert. lia. }
  erewrite store_in_range;
    [| reflexivity | reflexivity | simpl; rewrite !length_insert; lia].
  eexists. split; [reflexivity |]. split; reflexivity.
Qed.

Lemma SetPixelIndex_stores m bm x y v :
  bmp_obj m = Some bm ->
  valid_bitmap bm ->
  BitsPerPixel (Header bm) = 8 ->
  0 <= x < Width (Header bm) ->
  0 <= y < Height (Header bm) ->
  exists m',
    BMP_SetPixelIndex x y v m = Returns (tt, m') /\
    bmp_obj m'
    = Some {| Header := Header bm; Palette := Palette bm;
              Data := <[Z.to_nat (spec_pixel_offset (Header bm) x y) := v]> (Data bm) |} /\
    BMP_LAST_ERROR_CODE m' = BMP_OK.
Proof.
  intros Hm Hv H8 Hx Hy.
  destruct (pixel_address_in_block _ x y (valid_header _ Hv) (valid_size_fits _ Hv) Hx Hy)
    as (Haddr & Hlo & Hhi).
  rewrite H8 in Hhi, Haddr. change (spec_BytesPerPixel 8) with 1 in Hhi.
  change (u8 (Z.shiftr 8 3)) with 1 in Haddr.
  pose proof (valid_data _ Hv) as Hdata.
  unfold BMP_SetPixelIndex, bind at 1, get_bmp. rewrite Hm.
  rewrite (in_bounds_test _ _ _ Hx Hy), H8. simpl (negb (8 =? 8)). cbv iota.
  unfold bind at 1, set_error. rewrite Haddr.
  erewrite store_in_range; [| exact Hm | reflexivity | lia].
  eexists. split; [reflexivity |]. split; reflexivity.
Qed.

Lemma valid_bitmap_new_data bm data :
  valid_bitmap bm -> length data = length (Data bm) ->
  valid_bitmap {| Header := Header bm; Palette := Palette bm; Data := data |}.
Proof.
  intros [Hh Hfit Hdata Hpal] Hlen. split; simpl; try assumption. now rewrite Hlen.
Qed.

(** X7. On a valid bitmap of depth 24 or 32 and in bounds,
    [BMP_SetPixelRGB x y r g b] succeeds, changes only the three bytes
    of that pixel (blue, green, red from its offset; palette, header and
    block size stay), and afterwards [BMP_GetPixelRGB x y] returns
    [(r, g, b)] while every other pixel reads as before. *)
Theorem SetPixelRGB_then_GetPixelRGB :
  forall (m : machine) (bm : BMP) (x y : Z) (r g b : byte),
    bmp_obj m = Some bm ->
    valid_bitmap bm ->
    BitsPerPixel (Header bm) <> 8 ->
    0 <= x < Width (Header bm) ->
    0 <= y < Height (Header bm) ->
    exists m' bm',
      BMP_SetPixelRGB x y r g b m = Returns (tt, m') /\
      BMP_LAST_ERROR_CODE m' = BMP_OK /\
      bmp_obj m' = Some bm' /\
      valid_bitmap bm' /\
      Header bm' = Header bm /\ Palette bm' = Palette bm /\
      Data bm' = data_with_rgb (Data bm) (spec_pixel_offset (Header bm) x y) r g b /\
      (forall r0 g0 b0, exists m'',
          BMP_GetPixelRGB x y (Some r0) (Some g0) (Some b0) m'
          = Returns ((Some r, Some g, Some b), m'') /\
          BMP_LAST_ERROR_CODE m'' = BMP_OK) /\
      (forall x' y',
          0 <= x' < Width (Header bm) -> 0 <= y' < Height (Header bm) ->
          (x, y) <> (x', y') ->
          forall r0 g0 b0, exists color m1 m2,
            BMP_GetPixelRGB x' y' (Some r0) (Some g0) (Some b0) m = Returns (color, m1) /\
            BMP_GetPixelRGB x' y' (Some r0) (Some g0) (Some b0) m' = Returns (color, m2)).
Proof.
  intros m bm x y r g b Hm Hv H8 Hx Hy.
  destruct (SetPixelRGB_stores m bm x y r g b Hm Hv H8 Hx Hy) as (m' & Hset & Hm' & He').
  set (off := spec_pixel_offset (Header bm) x y) in *.
  set (bm' := {| Header := Header bm; Palette := Palette bm;
                 Data := data_with_rgb (Data bm) off r g b |}) in *.
  assert (Hv' : valid_bitmap bm').
  { apply valid_bitmap_new_data; [exact Hv | apply data_with_rgb_length]. }
  destruct (pixel_address_in_block _ x y (valid_header _ Hv) (valid_size_fits _ Hv) Hx Hy)
    as (_ & Hlo & Hhi). fold off in Hlo, Hhi.
  assert (Hbpp : 3 <= spec_BytesPerPixel (BitsPerPixel (Header bm))).
  { destruct (inv_depth _ (valid_header _ Hv)) as [E | [E | E]]; rewrite E;
      [congruence | |]; vm_compute; congruence. }
  pose proof (valid_data _ Hv) as Hdata.
  exists m', bm'. repeat (split; [first [assumption | reflexivity] |]).
  split.
  - intros r0 g0 b0.
    destruct (GetPixelRGB_direct m' bm' x y Hm' Hv' H8 Hx Hy)
      as (red & green & blue & Hr & Hg & Hb & Hget).
    destruct (data_with_rgb_at (Data bm) off r g b Hlo ltac:(lia)) as (Er & Eg & Eb).
    change (spec_pixel_offset (Header bm') x y) with off in Hr, Hg, Hb.
    change (Data bm') with (data_with_rgb (Data bm) off r g b) in Hr, Hg, Hb.
    destruct (Hget (Some r0) (Some g0) (Some b0)) as (m'' & E & _ & He'').
    exists m''. split; [| exact He'']. rewrite E. simpl. congruence.
  - intros x' y' Hx' Hy' Hne r0 g0 b0.
    destruct (GetPixelRGB_direct m bm x' y' Hm Hv H8 Hx' Hy')
      as (red & green & blue & Hr & Hg & Hb & Hget).
    destruct (GetPixelRGB_direct m' bm' x' y' Hm' Hv' H8 Hx' Hy')
      as (red' & green' & blue' & Hr' & Hg' & Hb' & Hget').
    change (spec_pixel_offset (Header bm') x' y')
      with (spec_pixel_offset (Header bm) x' y') in Hr', Hg', Hb'.
    change (Data bm') with (data_with_rgb (Data bm) off r g b) in Hr', Hg', Hb'.
    destruct (pixel_address_in_block _ x' y' (valid_header _ Hv) (valid_size_fits _ Hv)
                Hx' Hy') as (_ & Hlo' & Hhi').
    pose proof (different_pixels_apart _ x y x' y' (valid_header _ Hv) Hx Hy Hx' Hy' Hne)
      as Hapart. fold off in Hapart.
    rewrite data_with_rgb_elsewhere in Hr', Hg', Hb' by lia.
    destruct (Hget (Some r0) (Some g0) (Some b0)) as (m1 & E1 & _).
    destruct (Hget' (Some r0) (Some g0) (Some b0)) as (m2 & E2 & _).
    exists (Some red, Some green, Some blue), m1, m2. split; [exact E1 |].
    rewrite E2. simpl. congruence.
Qed.

Lemma SetPixelRGB_then_GetPixelRGB_witness :
  exists m',
    BMP_SetPixelRGB 1 0 x0a x14 x1e (on_bitmap (Some rgb_2x2) BMP_OK) = Returns (tt, m') /\
    exists m'',
      BMP_GetPixelRGB 1 0 (Some x00) (Some x00) (Some x00) m'
      = Returns ((Some x0a, Some x14, Some x1e), m'').
Proof.
  destruct (SetPixelRGB_then_GetPixelRGB (on_bitmap (Some rgb_2x2) BMP_OK) rgb_2x2 1 0
              x0a x14 x1e eq_refl rgb_2x2_valid ltac:(simpl; lia)
              ltac:(simpl; lia) ltac:(simpl; lia))
    as (m' & bm' & Hset & _ & _ & _ & _ & _ & _ & Hget & _).
  exists m'. split; [exact Hset |].
  destruct (Hget x00 x00 x00) as (m'' & E & _). now exists m''.
Defined.

(** X8. On a valid bitmap of depth 8 and in bounds,
    [BMP_SetPixelIndex x y v] succeeds and changes only that pixel's
    byte; afterwards [BMP_GetPixelIndex x y] returns [v], every other
    pixel's index is as before, and the palette is untouched. *)
Theorem SetPixelIndex_then_GetPixelIndex :
  forall (m : machine) (bm : BMP) (x y : Z) (v : byte),
    bmp_obj m = Some bm ->
    valid_bitmap bm ->
    BitsPerPixel (Header bm) = 8 ->
    0 <= x < Width (Header bm) ->
    0 <= y < Height (Header bm) ->
    exists m' bm',
      BMP_SetPixelIndex x y v m = Returns (tt, m') /\
      BMP_LAST_ERROR_CODE m' = BMP_OK /\
      bmp_obj m' = Some bm' /\
      valid_bitmap bm' /\
      Header bm' = Header bm /\ Palette bm' = Palette bm /\
      Data bm' = <[Z.to_nat (spec_pixel_offset (Header bm) x y) := v]> (Data bm) /\
      (forall v0, exists m'',
          BMP_GetPixelIndex x y (Some v0) m' = Returns (Some v, m'') /\
          BMP_LAST_ERROR_CODE m'' = BMP_OK) /\
      (forall x' y',
          0 <= x' < Width (Header bm) -> 0 <= y' < Height (Header bm) ->
          (x, y) <> (x', y') ->
          forall v0, exists i m1 m2,
            BMP_GetPixelIndex x' y' (Some v0) m = Returns (i, m1) /\
            BMP_GetPixelIndex x' y' (Some v0) m' = Returns (i, m2)).
Proof.
  intros m bm x y v Hm Hv H8 Hx Hy.
  destruct (SetPixelIndex_stores m bm x y v Hm Hv H8 Hx Hy) as (m' & Hset & Hm' & He').
  set (off := spec_pixel_offset (Header bm) x y) in *.
  set (bm' := {| Header := Header bm; Palette := Palette bm;
                 Data := <[Z.to_nat off := v]> (Data bm) |}) in *.
  assert (Hv' : valid_bitmap bm').
  { apply valid_bitmap_new_data; [exact Hv | apply length_insert]. }
  destruct (pixel_address_in_block _ x y (valid_header _ Hv) (valid_size_fits _ Hv) Hx Hy)
    as (_ & Hlo & Hhi). fold off in Hlo, Hhi.
  rewrite H8 in Hhi. change (spec_BytesPerPixel 8) with 1 in Hhi.
  pose proof (valid_data _ Hv) as Hdata.
  exists m', bm'. repeat (split; [first [assumption | reflexivity] |]).
  split.
  - intros v0.
    destruct (GetPixelIndex_reads m' bm' x y Hm' Hv' H8 Hx Hy) as (i & Hi & Hget).
    change (spec_pixel_offset (Header bm') x y) with off in Hi.
    change (Data bm') with (<[Z.to_nat off := v]> (Data bm)) in Hi.
    rewrite list_lookup_insert_eq in Hi by lia. injection Hi as <-.
    destruct (Hget (Some v0)) as (m'' & E & _ & He''). exists m''. now split.
  - intros x' y' Hx' Hy' Hne v0.
    destruct (GetPixelIndex_reads m bm x' y' Hm Hv H8 Hx' Hy') as (i & Hi & Hget).
    destruct (GetPixelIndex_reads m' bm' x' y' Hm' Hv' H8 Hx' Hy') as (i' & Hi' & Hget').
    change (spec_pixel_offset (Header bm') x' y')
      with (spec_pixel_offset (Header bm) x' y') in Hi'.
    change (Data bm') with (<[Z.to_nat off := v]> (Data bm)) in Hi'.
    destruct (pixel_address_in_block _ x' y' (valid_header _ Hv) (valid_size_fits _ Hv)
                Hx' Hy') as (_ & Hlo' & Hhi').
    pose proof (different_pixels_apart _ x y x' y' (valid_header _ Hv) Hx Hy Hx' Hy' Hne)
      as Hapart. fold off in Hapart.
    rewrite H8 in Hapart. change (spec_BytesPerPixel 8) with 1 in Hapart.
    rewrite list_lookup_insert_ne in Hi' by lia.
    destruct (Hget (Some v0)) as (m1 & E1 & _).
    destruct (Hget' (Some v0)) as (m2 & E2 & _).
    exists (Some i), m1, m2. split; [exact E1 |]. rewrite E2. simpl. congruence.
Qed.

Lemma SetPixelIndex_then_GetPixelIndex_witness :
  exists m',
    BMP_SetPixelIndex 0 1 x05 (on_bitmap (Some indexed_2x2) BMP_OK) = Returns (tt, m') /\
    exists m'', BMP_GetPixelIndex 0 1 (Some x00) m' = Returns (Some x05, m'').
Proof.
  destruct (SetPixelIndex_then_GetPixelIndex (on_bitmap (Some indexed_2x2) BMP_OK)
              indexed_2x2 0 1 x05 eq_refl indexed_2x2_valid eq_refl
              ltac:(simpl; lia) ltac:(simpl; lia))
    as (m' & bm' & Hset & _ & _ & _ & _ & _ & _ & Hget & _).
  exists m'. split; [exact Hset |].
  destruct (Hget x00) as (m'' & E & _). now exists m''.
Defined.

(** ** A fresh bitmap *)

Lemma BMP_Create_blocks env width height depth bm st :
  BMP_Create env width height depth = (Some bm, st) ->
  st = BMP_OK /\
  Header bm = created_header width height depth /\
  Data bm = calloc_block (ImageDataSize (created_header width height depth)) /\
  Palette bm = if depth =? 8 then Some (calloc_block BMP_PALETTE_SIZE) else None.
Proof.
  rewrite BMP_Create_cases. intros E.
  destruct ((height <=? 0) || (width <=? 0)); [discriminate |].
  destruct (negb (depth =? 8) && negb (depth =? 24) && negb (depth =? 32));
    [discriminate |].
  destruct (negb (can_alloc env (sizeof_BMP env))); [discriminate |].
  destruct ((depth =? 8) && negb (can_alloc env BMP_PALETTE_SIZE)); [discriminate |].
  destruct (negb (can_alloc env _)); [discriminate |].
  injection E as <- <-. now repeat split.
Qed.

Lemma calloc_block_lookup n (i : nat) v : calloc_block n !! i = Some v -> v = x00.
Proof. unfold calloc_block. intros H. now apply lookup_replicate in H as [-> _]. Qed.

(** X9. A bitmap fresh from [BMP_Create] is black: every pixel in
    bounds reads as (0, 0, 0) through [BMP_GetPixelRGB] at any depth,
    and at depth 8 every pixel index and every palette entry is 0. *)
Theorem fresh_bitmap_is_black :
  forall (env : environment) (width height depth : Z) (bm : BMP) (st : BMP_STATUS)
         (m : machine) (x y : Z),
    BMP_Create env width height depth = (Some bm, st) ->
    spec_RowStride width depth * height < 2^32 ->
    bmp_obj m = Some bm ->
    0 <= x < width -> 0 <= y < height ->
    (forall r0 g0 b0, exists m',
        BMP_GetPixelRGB x y (Some r0) (Some g0) (Some b0) m
        = Returns ((Some x00, Some x00, Some x00), m') /\
        BMP_LAST_ERROR_CODE m' = BMP_OK) /\
    (depth = 8 ->
     (forall v0, exists m',
         BMP_GetPixelIndex x y (Some v0) m = Returns (Some x00, m') /\
         BMP_LAST_ERROR_CODE m' = BMP_OK) /\
     (forall index r0 g0 b0, exists m',
         BMP_GetPaletteColor index (Some r0) (Some g0) (Some b0) m
         = Returns ((Some x00, Some x00, Some x00), m') /\
         BMP_LAST_ERROR_CODE m' = BMP_OK)).
Proof.
  intros env width height depth bm st m x y Hc Hfit Hm Hx Hy.
  pose proof (BMP_Create_valid _ _ _ _ _ _ Hc Hfit) as Hv.
  destruct (BMP_Create_blocks _ _ _ _ _ _ Hc) as (_ & Hh & Hdata & Hpal).
  assert (Hw : Width (Header bm) = width) by (now rewrite Hh).
  assert (Hht : Height (Header bm) = height) by (now rewrite Hh).
  assert (Hd : BitsPerPixel (Header bm) = depth) by (now rewrite Hh).
  rewrite <- Hw in Hx. rewrite <- Hht in Hy.
  assert (Hzero : forall (i : nat) v, Data bm !! i = Some v -> v = x00).
  { intros i v. rewrite Hdata. apply calloc_block_lookup. }
  split.
  - intros r0 g0 b0.
    destruct (Z.eq_dec (BitsPerPixel (Header bm)) 8) as [H8 | H8].
    + destruct (GetPixelRGB_indexed m bm x y Hm Hv H8 Hx Hy)
        as (i & pal & red & green & blue & _ & Hp & Hr & Hg & Hb & Hget).
      rewrite <- Hd, H8 in Hpal. simpl in Hpal. rewrite Hp in Hpal.
      injection Hpal as ->.
      apply calloc_block_lookup in Hr, Hg, Hb. subst.
      destruct (Hget (Some r0) (Some g0) (Some b0)) as (m' & E & _ & He).
      exists m'. now split.
    + destruct (GetPixelRGB_direct m bm x y Hm Hv H8 Hx Hy)
        as (red & green & blue & Hr & Hg & Hb & Hget).
      apply Hzero in Hr, Hg, Hb. subst.
      destruct (Hget (Some r0) (Some g0) (Some b0)) as (m' & E & _ & He).
      exists m'. now split.
  - intros H8. rewrite <- Hd in H8. split.
    + intros v0.
      destruct (GetPixelIndex_reads m bm x y Hm Hv H8 Hx Hy) as (i & Hi & Hget).
      apply Hzero in Hi. subst.
      destruct (Hget (Some v0)) as (m' & E & _ & He). exists m'. now split.
    + intros index r0 g0 b0.
      destruct (valid_palette_present _ Hv H8) as (pal & Hp & Hlen).
      destruct (GetPaletteColor_reads m bm pal index Hm H8 Hp Hlen)
        as (red & green & blue & Hr & Hg & Hb & Hget).
      rewrite <- Hd, H8 in Hpal. simpl in Hpal. rewrite Hp in Hpal.
      injection Hpal as ->.
      apply calloc_block_lookup in Hr, Hg, Hb. subst.
      destruct (Hget (Some r0) (Some g0) (Some b0)) as (m' & E & _ & He).
      exists m'. now split.
Qed.

Lemma fresh_bitmap_is_black_witness :
  exists m',
    BMP_GetPixelRGB 1 1 (Some xff) (Some xff) (Some xff)
                    (on_bitmap (Some rgb_2x2) BMP_OK)
    = Returns ((Some x00, Some x00, Some x00), m').
Proof.
  destruct (fresh_bitmap_is_black (sample_env [] 0) 2 2 24 rgb_2x2 BMP_OK
              (on_bitmap (Some rgb_2x2) BMP_OK) 1 1
              eq_refl ltac:(vm_compute; reflexivity) eq_refl ltac:(lia) ltac:(lia))
    as (Hget & _).
  destruct (Hget xff xff xff) as (m' & E & _). now exists m'.
Defined.

(** ** No accessor leaves the blocks of a valid bitmap *)

(** On a valid bitmap every pixel and palette accessor returns,
    whatever coordinates, palette index or output pointers it is given:
    the checks the code makes keep every read and write inside the pixel
    block and the palette. *)
Lemma accessors_return :
  forall (m : machine) (bm : BMP) (x y : Z),
    bmp_obj m = Some bm ->
    valid_bitmap bm ->
    0 <= x -> 0 <= y ->
    (forall r g b, returns (BMP_GetPixelRGB x y r g b) m) /\
    (forall r g b, returns (BMP_SetPixelRGB x y r g b) m) /\
    (forall val, returns (BMP_GetPixelIndex x y val) m) /\
    (forall val, returns (BMP_SetPixelIndex x y val) m) /\
    (forall index r g b, returns (BMP_GetPaletteColor index r g b) m) /\
    (forall index r g b, returns (BMP_SetPaletteColor index r g b) m).
Proof.
  intros m bm x y Hm Hv Hx0 Hy0. unfold returns.
  destruct (Z.eq_dec (BitsPerPixel (Header bm)) 8) as [H8 | H8];
    (destruct (Z_lt_le_dec x (Width (Header bm))) as [Hx | Hx];
     [destruct (Z_lt_le_dec y (Height (Header bm))) as [Hy | Hy] |]).
  (* in bounds or not, the four pixel accessors *)
  all: try (assert (Hout : (x >=? Width (Header bm)) || (y >=? Height (Header bm)) = true)
              by (apply orb_true_iff; lia)).
  all: try (assert (Hxin : 0 <= x < Width (Header bm)) by lia;
            assert (Hyin : 0 <= y < Height (Header bm)) by lia).
  all: assert (Hpix_out :
                 (x >=? Width (Header bm)) || (y >=? Height (Header bm)) = true ->
                 (forall r g b, exists a m', BMP_GetPixelRGB x y r g b m = Returns (a, m')) /\
                 (forall r g b, exists a m', BMP_SetPixelRGB x y r g b m = Returns (a, m')) /\
                 (forall val, exists a m', BMP_GetPixelIndex x y val m = Returns (a, m')) /\
                 (forall val, exists a m', BMP_SetPixelIndex x y val m = Returns (a, m')))
         by (intros Ho; repeat split; intros;
             unfold BMP_GetPixelRGB, BMP_SetPixelRGB, BMP_GetPixelIndex,
                    BMP_SetPixelIndex, bind, get_bmp;
             rewrite Hm; simpl; rewrite Ho; simpl; eauto).
  all: assert (Hmismatch8 :
                 BitsPerPixel (Header bm) <> 8 ->
                 (forall index r g b,
                     exists a m', BMP_GetPaletteColor index r g b m = Returns (a, m')) /\
                 (forall index r g b,
                     exists a m', BMP_SetPaletteColor index r g b m = Returns (a, m')))
         by (intros Hn; apply Z.eqb_neq in Hn; split; intros;
             unfold BMP_GetPaletteColor, BMP_SetPaletteColor, bind, get_bmp;
             rewrite Hm, Hn; simpl; eauto).
  all: assert (Hpal8 :
                 BitsPerPixel (Header bm) = 8 ->
                 (forall index r g b,
                     exists a m', BMP_GetPaletteColor index r g b m = Returns (a, m')) /\
                 (forall index r g b,
                     exists a m', BMP_SetPaletteColor index r g b m = Returns (a, m'))).
  all: try (intros He8; destruct (valid_palette_present _ Hv He8) as (pal & Hp & Hlen);
            split; intros index r g b;
            [ destruct (GetPaletteColor_reads m bm pal index Hm He8 Hp Hlen)
                as (red & green & blue & _ & _ & _ & Hget);
              destruct (Hget r g b) as (m' & E & _); eauto
            | destruct (SetPaletteColor_stores m bm pal index r g b Hm He8 Hp Hlen)
                as (m' & E & _); eauto ]).
  (* depth 8, in bounds *)
  - destruct (Hpal8 H8) as [Hgp Hsp].
    split; [| split; [| split; [| split; [| split; assumption]]]].
    + intros r g b.
      destruct (GetPixelRGB_indexed m bm x y Hm Hv H8 Hxin Hyin)
        as (i & pal & red & green & blue & _ & _ & _ & _ & _ & Hget).
      destruct (Hget r g b) as (m' & E & _). eauto.
    + intros r g b. unfold BMP_SetPixelRGB, bind, get_bmp.
      rewrite Hm, (in_bounds_test _ _ _ Hxin Hyin), H8. simpl. eauto.
    + intros val. destruct (GetPixelIndex_reads m bm x y Hm Hv H8 Hxin Hyin)
        as (i & _ & Hget).
      destruct (Hget val) as (m' & E & _). eauto.
    + intros val. destruct (SetPixelIndex_stores m bm x y val Hm Hv H8 Hxin Hyin)
        as (m' & E & _). eauto.
  - destruct (Hpal8 H8) as [Hgp Hsp]. destruct (Hpix_out Hout) as (H1 & H2 & H3 & H4).
    repeat split; assumption.
  - destruct (Hpal8 H8) as [Hgp Hsp]. destruct (Hpix_out Hout) as (H1 & H2 & H3 & H4).
    repeat split; assumption.
  (* depth 24 or 32, in bounds *)
  - destruct (Hmismatch8 H8) as [Hgp Hsp].
    split; [| split; [| split; [| split; [| split; assumption]]]].
    + intros r g b.
      destruct (GetPixelRGB_direct m bm x y Hm Hv H8 Hxin Hyin)
        as (red & green & blue & _ & _ & _ & Hget).
      destruct (Hget r g b) as (m' & E & _). eauto.
    + intros r g b. destruct (SetPixelRGB_stores m bm x y r g b Hm Hv H8 Hxin Hyin)
        as (m' & E & _). eauto.
    + intros val. apply Z.eqb_neq in H8. unfold BMP_GetPixelIndex, bind, get_bmp.
      rewrite Hm, (in_bounds_test _ _ _ Hxin Hyin), H8. simpl. eauto.
    + intros val. apply Z.eqb_neq in H8. unfold BMP_SetPixelIndex, bind, get_bmp.
      rewrite Hm, (in_bounds_test _ _ _ Hxin Hyin), H8. simpl. eauto.
  - destruct (Hmismatch8 H8) as [Hgp Hsp]. destruct (Hpix_out Hout) as (H1 & H2 & H3 & H4).
    repeat split; assumption.
  - destruct (Hmismatch8 H8) as [Hgp Hsp]. destruct (Hpix_out Hout) as (H1 & H2 & H3 & H4).
    repeat split; assumption.
Qed.

Lemma perform_returns c m bm :
  bmp_obj m = Some bm -> valid_bitmap bm -> unsigned_arguments c ->
  exists m', perform c m = Returns (tt, m').
Proof.
  intros Hm Hv Hc.
  assert (Hdrop : forall A (g : M A), returns g m ->
                                      exists m', (run g ;; ret tt) m = Returns (tt, m')).
  { intros A g (a & m' & E). exists m'. unfold bind. now rewrite E. }
  assert (Hunit : forall g : M unit, returns g m -> exists m', g m = Returns (tt, m')).
  { intros g ([] & m' & E). now exists m'. }
  destruct c as [x y r g b | x y r g b | x y val | x y val | index r g b | index r g b];
    cbn [perform unsigned_arguments] in *.
  - destruct Hc as [Hx Hy]. apply Hdrop.
    apply (accessors_return m bm x y Hm Hv Hx Hy).
  - destruct Hc as [Hx Hy]. apply Hunit.
    apply (accessors_return m bm x y Hm Hv Hx Hy).
  - destruct Hc as [Hx Hy]. apply Hdrop.
    apply (accessors_return m bm x y Hm Hv Hx Hy).
  - destruct Hc as [Hx Hy]. apply Hunit.
    apply (accessors_return m bm x y Hm Hv Hx Hy).
  - apply Hdrop.
    apply (accessors_return m bm 0 0 Hm Hv ltac:(lia) ltac:(lia)).
  - apply Hunit.
    apply (accessors_return m bm 0 0 Hm Hv ltac:(lia) ltac:(lia)).
Qed.

Lemma perform_keeps_valid c : keeps_valid (perform c).
Proof.
  destruct c; cbn [perform];
    unfold BMP_GetPixelRGB, BMP_SetPixelRGB, BMP_GetPixelIndex, BMP_SetPixelIndex,
           BMP_GetPaletteColor, BMP_SetPaletteColor;
    keeps_valid_tac.
Qed.

Lemma perform_keeps_header c : keeps_header (perform c).
Proof.
  destruct c; cbn [perform];
    unfold BMP_GetPixelRGB, BMP_SetPixelRGB, BMP_GetPixelIndex, BMP_SetPixelIndex,
           BMP_GetPaletteColor, BMP_SetPaletteColor;
    keeps_header_tac.
Qed.

(** X10. Whatever sequence of pixel and palette accessor calls is made
    on a valid bitmap, with whatever coordinates, palette indices and
    output pointers: every call returns (the checks the code makes keep
    each read and write inside the pixel block and the palette), and
    the bitmap left at the end is valid and has the header it started
    with. *)
Theorem accessor_calls_keep_bitmap_valid :
  forall (cs : list accessor_call) (m : machine) (bm : BMP),
    bmp_obj m = Some bm ->
    valid_bitmap bm ->
    Forall unsigned_arguments cs ->
    exists m' bm',
      perform_all cs m = Returns (tt, m') /\
      bmp_obj m' = Some bm' /\
      valid_bitmap bm' /\
      Header bm' = Header bm.
Proof.
  induction cs as [| c cs IH]; intros m bm Hm Hv Hcs.
  - exists m, bm. split; [reflexivity | split; [exact Hm | split; [exact Hv | reflexivity]]].
  - apply Forall_cons in Hcs as [Hc Hcs].
    destruct (perform_returns c m bm Hm Hv Hc) as (m1 & E1).
    destruct (perform_keeps_valid c m tt m1 bm E1 Hm Hv) as (bm1 & Hm1 & Hv1).
    pose proof (perform_keeps_header c m tt m1 E1) as Hh1.
    rewrite Hm1, Hm in Hh1. injection Hh1 as Hh1.
    destruct (IH m1 bm1 Hm1 Hv1 Hcs) as (m' & bm' & E & Hm' & Hv' & Hh').
    exists m', bm'. cbn [perform_all]. unfold bind at 1. rewrite E1.
    split; [exact E | split; [exact Hm' | split; [exact Hv' | congruence]]].
Qed.

Lemma accessor_calls_keep_bitmap_valid_witness :
  exists m' bm',
    perform_all [CallSetPaletteColor xff x01 x02 x03; CallSetPixelIndex 1 1 xff;
                 CallSetPixelRGB 0 0 x01 x02 x03; CallGetPixelRGB 7 0 None (Some x00) None]
                (on_bitmap (Some indexed_2x2) BMP_OK)
    = Returns (tt, m') /\
    bmp_obj m' = Some bm' /\ valid_bitmap bm' /\ Header bm' = Header indexed_2x2.
Proof.
  apply (accessor_calls_keep_bitmap_valid _ (on_bitmap (Some indexed_2x2) BMP_OK)
           indexed_2x2 eq_refl indexed_2x2_valid).
  repeat constructor; simpl; lia.
Defined.

(** ** The readers write nothing *)

Lemma reads_only_ret {A} (a : A) : reads_only (ret a).
Proof.
  intros m a' m' E. injection E as <- <-. split; [reflexivity |].
  exists []. now rewrite app_nil_r.
Qed.

Lemma reads_only_bind {A B} (c : M A) (k : A -> M B) :
  reads_only c -> (forall a, reads_only (k a)) -> reads_only (bind c k).
Proof.
  intros Hc Hk m b m' E. unfold bind in E.
  destruct (c m) as [[a m1] | |] eqn:Ec; try discriminate.
  destruct (Hc _ _ _ Ec) as (Hb1 & l1 & Hl1 & Hf1).
  destruct (Hk a _ _ _ E) as (Hb2 & l2 & Hl2 & Hf2).
  split; [congruence |].
  exists (l1 ++ l2). split.
  - now rewrite Hl2, Hl1, app_assoc.
  - now apply Forall_app.
Qed.

Lemma reads_only_get_bmp : reads_only get_bmp.
Proof.
  intros m a m' E. injection E as <- <-. split; [reflexivity |].
  exists []. now rewrite app_nil_r.
Qed.

Lemma reads_only_set_error e : reads_only (set_error e).
Proof.
  intros m a m' E. injection E as <- <-. split; [reflexivity |].
  exists []. simpl. now rewrite app_nil_r.
Qed.

Lemma reads_only_load p : reads_only (load p).
Proof.
  intros m a m' E. unfold load in E.
  destruct (bmp_obj m) as [b |] eqn:Eb; [| discriminate].
  destruct (block_of b (fst p)); [| discriminate].
  destruct (0 <=? snd p); [| discriminate].
  destruct (_ !! _); [| discriminate].
  injection E as <- <-. split; [now simpl |].
  exists [LoadAt (fst p) (snd p)]. split; [reflexivity |].
  repeat constructor.
Qed.

Lemma reads_only_write_out cell p : reads_only (write_out cell p).
Proof.
  destruct cell; simpl.
  - apply reads_only_bind; [apply reads_only_load | intros; apply reads_only_ret].
  - apply reads_only_ret.
Qed.

Ltac reads_only_tac :=
  repeat first
    [ apply reads_only_ret
    | apply reads_only_get_bmp
    | apply reads_only_set_error
    | apply reads_only_load
    | apply reads_only_write_out
    | apply reads_only_bind; [| intros ?]
    | match goal with
      | |- reads_only (match ?x with _ => _ end) => destruct x
      end ].

(** X11. The three readers, the three dimension getters and the
    pointer getters write nothing: whenever one returns, the bitmap
    object (header, palette and pixel block) is what it was, and every
    access it made to the blocks was a load. *)
Theorem readers_write_nothing :
  (forall x y r g b, reads_only (BMP_GetPixelRGB x y r g b)) /\
  (forall x y val, reads_only (BMP_GetPixelIndex x y val)) /\
  (forall index r g b, reads_only (BMP_GetPaletteColor index r g b)) /\
  reads_only BMP_GetWidth /\ reads_only BMP_GetHeight /\ reads_only BMP_GetDepth /\
  reads_only BMP_GetPixelData /\ reads_only BMP_GetPalletteData /\
  reads_only BMP_GetError.
Proof.
  assert (Hsame : forall A (c : M A),
             (forall m a m', c m = Returns (a, m') -> m' = m) -> reads_only c).
  { intros A c H m a m' E. rewrite (H _ _ _ E). split; [reflexivity |].
    exists []. now rewrite app_nil_r. }
  repeat apply conj; intros.
  - unfold BMP_GetPixelRGB. reads_only_tac.
  - unfold BMP_GetPixelIndex. reads_only_tac.
  - unfold BMP_GetPaletteColor. reads_only_tac.
  - unfold BMP_GetWidth. reads_only_tac.
  - unfold BMP_GetHeight. reads_only_tac.
  - unfold BMP_GetDepth. reads_only_tac.
  - apply Hsame. unfold BMP_GetPixelData. intros m a m' E.
    destruct (bmp_obj m); [| discriminate]. now injection E as _ <-.
  - apply Hsame. unfold BMP_GetPalletteData. intros m a m' E.
    destruct (bmp_obj m); [| discriminate]. now injection E as _ <-.
  - apply Hsame. unfold BMP_GetError. intros m a m' E. now injection E as _ <-.
Qed.

(** ** A NULL bitmap *)

(** X12. Given a NULL bitmap, each of the six pixel and palette
    accessors sets [BMP_INVALID_ARGUMENT] and does nothing else (output
    cells keep their contents); [BMP_GetWidth] and [BMP_GetHeight]
    return 0xFFFFFFFF and [BMP_GetDepth] returns 0xFFFF, with the same
    error; [BMP_GetPixelData] and [BMP_GetPalletteData] make no NULL
    test and dereference the pointer. *)
Theorem null_bitmap :
  forall m : machine,
    bmp_obj m = None ->
    let m' := with_error BMP_INVALID_ARGUMENT m in
    (forall x y r g b, BMP_GetPixelRGB x y r g b m = Returns ((r, g, b), m')) /\
    (forall x y r g b, BMP_SetPixelRGB x y r g b m = Returns (tt, m')) /\
    (forall x y val, BMP_GetPixelIndex x y val m = Returns (val, m')) /\
    (forall x y val, BMP_SetPixelIndex x y val m = Returns (tt, m')) /\
    (forall index r g b, BMP_GetPaletteColor index r g b m = Returns ((r, g, b), m')) /\
    (forall index r g b, BMP_SetPaletteColor index r g b m = Returns (tt, m')) /\
    BMP_GetWidth m = Returns (0xFFFFFFFF, m') /\
    BMP_GetHeight m = Returns (0xFFFFFFFF, m') /\
    BMP_GetDepth m = Returns (0xFFFF, m') /\
    BMP_GetPixelData m = Undefined /\
    BMP_GetPalletteData m = Undefined.
Proof.
  intros m Hm m'.
  repeat split; intros;
    unfold BMP_GetPixelRGB, BMP_SetPixelRGB, BMP_GetPixelIndex, BMP_SetPixelIndex,
           BMP_GetPaletteColor, BMP_SetPaletteColor, BMP_GetWidth, BMP_GetHeight,
           BMP_GetDepth, BMP_GetPixelData, BMP_GetPalletteData, bind, get_bmp;
    rewrite Hm; reflexivity.
Qed.

Lemma null_bitmap_witness :
  BMP_GetWidth (on_bitmap None BMP_OK)
  = Returns (0xFFFFFFFF, on_bitmap None BMP_INVALID_ARGUMENT) /\
  BMP_GetPixelData (on_bitmap None BMP_OK) = Undefined.
Proof.
  destruct (null_bitmap (on_bitmap None BMP_OK) eq_refl)
    as (_ & _ & _ & _ & _ & _ & Hw & _ & _ & Hd & _).
  split; [exact Hw | exact Hd].
Defined.

(** ** The palette accessors away from depth 8 *)

(** X13. On a bitmap whose depth is not 8, [BMP_GetPaletteColor] and
    [BMP_SetPaletteColor] set [BMP_TYPE_MISMATCH] and touch nothing:
    the bitmap, the output cells and the access log are as before,
    whether or not the bitmap has a palette block. *)
Theorem palette_needs_depth_8 :
  forall (m : machine) (bm : BMP) (index : byte),
    bmp_obj m = Some bm ->
    BitsPerPixel (Header bm) <> 8 ->
    (forall r g b,
        BMP_GetPaletteColor index r g b m
        = Returns ((r, g, b), with_error BMP_TYPE_MISMATCH m)) /\
    (forall r g b,
        BMP_SetPaletteColor index r g b m
        = Returns (tt, with_error BMP_TYPE_MISMATCH m)).
Proof.
  intros m bm index Hm H8. apply Z.eqb_neq in H8.
  split; intros; unfold BMP_GetPaletteColor, BMP_SetPaletteColor, bind, get_bmp;
    rewrite Hm, H8; reflexivity.
Qed.

Lemma palette_needs_depth_8_witness :
  BMP_SetPaletteColor x01 xff xff xff (on_bitmap (Some rgb_2x2) BMP_OK)
  = Returns (tt, on_bitmap (Some rgb_2x2) BMP_TYPE_MISMATCH).
Proof.
  destruct (palette_needs_depth_8 (on_bitmap (Some rgb_2x2) BMP_OK) rgb_2x2 x01
              eq_refl ltac:(vm_compute; discriminate)) as [_ Hset].
  exact (Hset xff xff xff).
Defined.

(** ** What a decode stores where *)

Lemma write_block_inside blk off bs blk' (j : nat) :
  write_block blk off bs = Some blk' -> 0 <= off -> (j < length bs)%nat ->
  blk' !! (Z.to_nat off + j)%nat = bs !! j.
Proof.
  unfold write_block. intros E Hoff Hj.
  destruct ((0 <=? off) && (off + Z.of_nat (length bs) <=? Z.of_nat (length blk))) eqn:Ec.
  - injection E as <-. apply andb_true_iff in Ec as [_ Hfit]. apply Z.leb_le in Hfit.
    rewrite lookup_app_r by (rewrite length_take_le by lia; lia).
    rewrite length_take_le by lia.
    replace (Z.to_nat off + j - Z.to_nat off)%nat with j by lia.
    now apply lookup_app_l.
  - destruct bs; [simpl in Hj; lia | discriminate].
Qed.

(** The successful exit of [BMP_ReadFile], with the streams named. *)
Lemma BMP_ReadFile_inv env fuel filename bm st :
  BMP_ReadFile env fuel filename = Returns (Some bm, st) ->
  exists name file,
    filename = Some name /\ fopen_rb env name = Some file /\ st = BMP_OK /\
    ReadHeader file = (Some (Header bm), drop 54 file) /\
    Magic (Header bm) = 0x4D42 /\ unsupported_variant (Header bm) = false /\
    Palette bm = (if BitsPerPixel (Header bm) =? 8
                  then Some (take 1024 (drop 54 file)) else None) /\
    (BitsPerPixel (Header bm) = 8 -> (54 + 1024 <= length file)%nat) /\
    read_rows fuel (Width (Header bm))
              (s32 (u32 (Height (Header bm) - 1) * Width (Header bm)))
              (payload_of (Header bm) file)
              (malloc_block env (ImageDataSize (Header bm)))
    = Returns (Some (Data bm)).
Proof.
  unfold BMP_ReadFile. intros E.
  destruct filename as [name |]; [| discriminate].
  destruct (negb (can_alloc env (sizeof_BMP env))); [discriminate |].
  destruct (fopen_rb env name) as [file |] eqn:Eopen; [| discriminate].
  destruct (ReadHeader file) as [[h |] rest] eqn:Ehdr; [| discriminate].
  destruct (negb (Magic h =? 19778)) eqn:Emagic; [discriminate |].
  apply negb_false_iff, Z.eqb_eq in Emagic.
  destruct (unsupported_variant h) eqn:Evar; [discriminate |].
  destruct (ReadHeader_Some _ _ _ Ehdr) as (Hlen & -> & _).
  exists name, file. unfold payload_of.
  destruct (BitsPerPixel h =? 8) eqn:E8.
  - destruct (negb (can_alloc env BMP_PALETTE_SIZE)); [discriminate |].
    change (fread BMP_PALETTE_SIZE (drop 54 file))
      with (take 1024 (drop 54 file), drop 1024 (drop 54 file)) in E.
    cbv beta iota in E.
    destruct (negb (Z.of_nat (length (take 1024 (drop 54 file))) =? BMP_PALETTE_SIZE))
      eqn:Epal; [discriminate |].
    apply negb_false_iff, Z.eqb_eq in Epal.
    destruct (read_image_data_result _ _ _ _ _ _ _ E)
      as [(-> & data & Ebm & Erows) | (_ & Hnone)]; [| discriminate].
    injection Ebm as ->. cbn [Header Palette Data]. rewrite E8.
    repeat split; try assumption; try reflexivity.
    intros _. pose proof (take_at_most (drop 54 file) 1024) as Ht.
    assert (Hl : length (take 1024 (drop 54 file)) = 1024%nat)
      by (unfold BMP_PALETTE_SIZE in Epal; lia).
    destruct (le_lt_dec 1024 (length (drop 54 file))) as [Hd | Hd].
    + rewrite length_drop in Hd. lia.
    + rewrite length_take_ge in Hl by lia. lia.
  - destruct (read_image_data_result _ _ _ _ _ _ _ E)
      as [(-> & data & Ebm & Erows) | (_ & Hnone)]; [| discriminate].
    injection Ebm as ->. cbn [Header Palette Data]. rewrite E8.
    apply Z.eqb_neq in E8.
    repeat split; try assumption; try reflexivity.
    intros H8. exfalso. lia.
Qed.

(** The loop over rows [n, ..., 0]: file row [k] (with the padding the
    loop skips after each row) ends up at block offset [(n - k) * width]. *)
Lemma read_rows_layout (n : nat) :
  forall (fuel : nat) (width : Z) (f data data' : list byte),
    0 < width ->
    (Z.of_nat n + 1) * width < 2^31 ->
    (Z.of_nat n + 1) * width <= Z.of_nat (length data) ->
    read_rows fuel width (Z.of_nat n * width) f data = Returns (Some data') ->
    forall k j : nat,
      (k <= n)%nat -> Z.of_nat j < width ->
      exists v,
        f !! (k * Z.to_nat (width + row_padding width) + j)%nat = Some v /\
        data' !! ((n - k) * Z.to_nat width + j)%nat = Some v.
Proof.
  induction n as [| n IH]; intros fuel width f data data' Hw Hint Hfit E k j Hk Hj;
    (destruct fuel as [| fuel]; [discriminate |]).
  - change (Z.of_nat 0) with 0 in *. rewrite Z.mul_0_l in E.
    destruct (read_rows_step fuel width 0 f data Hw ltac:(lia) ltac:(lia))
      as [Hshort Hfull].
    destruct (Z_lt_le_dec (Z.of_nat (length f)) width) as [Hlen | Hlen].
    + rewrite (Hshort Hlen) in E. discriminate.
    + destruct (Hfull Hlen) as (data1 & Ew & Hlen1 & Er). rewrite Er in E.
      rewrite s32_small in E by lia.
      destruct fuel as [| fuel]; [discriminate |].
      rewrite read_rows_exit in E by lia. injection E as <-.
      assert (k = 0%nat) as -> by lia. cbn [Nat.mul Nat.add Nat.sub].
      destruct (lookup_lt_is_Some_2 f j ltac:(lia)) as [v Hv].
      exists v. split; [exact Hv |].
      pose proof (write_block_inside data 0 (take (Z.to_nat width) f) data1 j Ew
                    ltac:(lia) ltac:(rewrite length_take_le by lia; lia)) as Hin.
      change (Z.to_nat 0 + j)%nat with j in Hin. rewrite Hin.
      rewrite lookup_take_lt by lia. exact Hv.
  - assert (Hpos : 0 <= Z.of_nat (S n) * width) by nia.
    destruct (read_rows_step fuel width (Z.of_nat (S n) * width) f data Hw Hpos ltac:(nia))
      as [Hshort Hfull].
    destruct (Z_lt_le_dec (Z.of_nat (length f)) width) as [Hlen | Hlen].
    + rewrite (Hshort Hlen) in E. discriminate.
    + destruct (Hfull Hlen) as (data1 & Ew & Hlen1 & Er). rewrite Er in E.
      assert (Hnext : s32 (Z.of_nat (S n) * width - width) = Z.of_nat n * width).
      { rewrite s32_small by nia. nia. }
      rewrite Hnext in E.
      assert (Hfit1 : (Z.of_nat n + 1) * width <= Z.of_nat (length data1))
        by (rewrite Hlen1; nia).
      pose proof (row_padding_range width) as Hpad.
      destruct k as [| k].
      * cbn [Nat.mul Nat.add]. rewrite Nat.sub_0_r.
        destruct (lookup_lt_is_Some_2 f j ltac:(lia)) as [v Hv].
        exists v. split; [exact Hv |].
        assert (Hi : (S n * Z.to_nat width + j)%nat
                     = (Z.to_nat (Z.of_nat (S n) * width) + j)%nat).
        { rewrite Z2Nat.inj_mul, Nat2Z.id by lia. reflexivity. }
        rewrite (read_rows_untouched n fuel width _ data1 data' Hw ltac:(nia) Hfit1 E)
          by (rewrite Hi; nia).
        rewrite Hi.
        rewrite (write_block_inside data _ (take (Z.to_nat width) f) data1 j Ew Hpos)
          by (rewrite length_take_le by lia; lia).
        rewrite lookup_take_lt by lia. exact Hv.
      * destruct (IH _ _ _ data1 data' Hw ltac:(nia) Hfit1 E k j ltac:(lia) Hj)
          as (v & Hf & Hd).
        exists v. split.
        -- rewrite !lookup_drop in Hf. rewrite <- Hf. f_equal.
           rewrite Z2Nat.inj_add by lia. lia.
        -- rewrite <- Hd. f_equal.
Qed.

(** X14. What a successful [BMP_ReadFile] returns, in terms of the
    file: the status is [BMP_OK]; the header is the one the first 54
    bytes encode; at depth 8 the palette is the next 1024 bytes, and
    there is none otherwise; with [Height * Width <= ImageDataSize < 2^31]
    the pixel block holds [Width] bytes of each file row, the file's row
    [row] at offset [(Height - 1 - row) * Width], where a file row is
    taken to be [Width] bytes and the padding of [Width] to a multiple
    of four; the rest of the block is as [malloc] left it. *)
Theorem decode_layout :
  forall (env : environment) (fuel : nat) (name : string) (file : list byte)
         (bm : BMP) (st : BMP_STATUS),
    fopen_rb env name = Some file ->
    BMP_ReadFile env fuel (Some name) = Returns (Some bm, st) ->
    0 < Height (Header bm) ->
    Height (Header bm) * Width (Header bm) <= ImageDataSize (Header bm) ->
    ImageDataSize (Header bm) < 2^31 ->
    st = BMP_OK /\
    take 54 file = encode_header (Header bm) /\
    Palette bm = (if BitsPerPixel (Header bm) =? 8
                  then Some (take 1024 (drop 54 file)) else None) /\
    (forall row col : Z,
        0 <= row < Height (Header bm) -> 0 <= col < Width (Header bm) ->
        exists v,
          payload_of (Header bm) file
            !! Z.to_nat (row * (Width (Header bm) + row_padding (Width (Header bm))) + col)
          = Some v /\
          Data bm !! Z.to_nat ((Height (Header bm) - 1 - row) * Width (Header bm) + col)
          = Some v) /\
    (forall i : Z,
        Height (Header bm) * Width (Header bm) <= i < ImageDataSize (Header bm) ->
        Data bm !! Z.to_nat i = Some (junk env (Z.to_nat i))).
Proof.
  intros env fuel name file bm st Hopen E Hh Hrows Hint.
  destruct (BMP_ReadFile_inv _ _ _ _ _ E)
    as (name' & file' & Hname & Hopen' & -> & Ehdr & _ & _ & Hpal & _ & Erows).
  injection Hname as <-. rewrite Hopen in Hopen'. injection Hopen' as <-.
  set (h := Header bm) in *.
  assert (Hwpos : 0 < Width h).
  { destruct (ReadHeader_Some _ _ _ Ehdr) as (_ & _ & (Hw & _)).
    destruct (Z.eq_dec (Width h) 0) as [E0 | E0]; [| lia].
    exfalso. rewrite E0, Z.mul_0_r in Erows. change (s32 0) with 0 in Erows.
    rewrite read_rows_zero_width in Erows. discriminate. }
  assert (Hidx : s32 (u32 (Height h - 1) * Width h)
                 = Z.of_nat (Z.to_nat (Height h - 1)) * Width h).
  { rewrite u32_small by nia. rewrite s32_small by nia. f_equal. lia. }
  rewrite Hidx in Erows.
  assert (Hn : Z.of_nat (Z.to_nat (Height h - 1)) + 1 = Height h) by lia.
  pose proof (row_padding_range (Width h)) as Hpad.
  split; [reflexivity |]. split; [| split; [exact Hpal | split]].
  - pose proof (ReadHeader_parses file h (drop 54 file) Ehdr) as Hparse.
    change ([] ++ file) with file in Hparse.
    apply (f_equal (take 54)) in Hparse.
    rewrite take_app_length' in Hparse by apply (encode_header_length h). exact Hparse.
  - intros row col Hrow Hcol.
    assert (Hint' : (Z.of_nat (Z.to_nat (Height h - 1)) + 1) * Width h < 2^31)
      by (rewrite Hn; lia).
    assert (Hfit' : (Z.of_nat (Z.to_nat (Height h - 1)) + 1) * Width h
                    <= Z.of_nat (length (malloc_block env (ImageDataSize h))))
      by (rewrite Hn, malloc_block_length; lia).
    assert (Hrow' : (Z.to_nat row <= Z.to_nat (Height h - 1))%nat) by lia.
    assert (Hcol' : Z.of_nat (Z.to_nat col) < Width h) by lia.
    destruct (read_rows_layout _ _ _ _ _ _ Hwpos Hint' Hfit' Erows _ _ Hrow' Hcol')
      as (v & Hf & Hd).
    exists v. split.
    + rewrite <- Hf. f_equal. rewrite Z2Nat.inj_add, Z2Nat.inj_mul by nia. reflexivity.
    + rewrite <- Hd. f_equal. rewrite Z2Nat.inj_add, Z2Nat.inj_mul by nia.
      f_equal. f_equal. lia.
  - intros i Hi.
    rewrite (read_rows_untouched (Z.to_nat (Height h - 1)) fuel (Width h)
               (payload_of h file)
               (malloc_block env (ImageDataSize h)) (Data bm) Hwpos);
      [apply malloc_block_lookup; lia | rewrite Hn; lia
      | rewrite Hn, malloc_block_length; lia | exact Erows | rewrite Hn; lia].
Qed.

Lemma decode_layout_witness :
  Data decoded_1x2_depth24 !! 1%nat = Some x11 /\
  Data decoded_1x2_depth24 !! 7%nat = Some xcd.
Proof.
  destruct (decode_layout (sample_env file_1x2_depth24 0) 8 "in.bmp"%string
              file_1x2_depth24 decoded_1x2_depth24 BMP_OK eq_refl
              ltac:(vm_compute; reflexivity) ltac:(simpl; lia) ltac:(simpl; lia)
              ltac:(simpl; lia))
    as (_ & _ & _ & Hrows & Htail).
  split.
  - destruct (Hrows 0 0 ltac:(simpl; lia) ltac:(simpl; lia)) as (v & Hf & Hd).
    vm_compute in Hf. injection Hf as <-. exact Hd.
  - exact (Htail 7 ltac:(simpl; lia)).
Defined.

(** ** When a decode leaves the pixel block *)

Lemma read_rows_overflow fuel width idx (f data : list byte) :
  0 < width -> 0 <= idx -> Z.of_nat (length data) <= idx -> f <> [] ->
  read_rows (S fuel) width idx f data = Undefined.
Proof.
  intros Hw Hidx Hlen Hf. cbn [read_rows].
  destruct (idx >=? 0) eqn:E; [| exfalso; lia]. cbn [negb].
  change (fread width f) with (take (Z.to_nat width) f, drop (Z.to_nat width) f).
  cbv beta iota zeta.
  destruct f as [| x f]; [contradiction |].
  destruct (Z.to_nat width) as [| w] eqn:Ew; [exfalso; lia |].
  cbn [take]. unfold write_block.
  destruct ((0 <=? idx) && (idx + Z.of_nat (length (x :: take w f))
                            <=? Z.of_nat (length data))) eqn:Ec; [| reflexivity].
  apply andb_true_iff in Ec as [_ Hc]. apply Z.leb_le in Hc.
  cbn [length] in Hc. exfalso. lia.
Qed.

(** X15. [BMP_ReadFile] trusts the header's [ImageDataSize]: on a file
    whose header passes its checks, with positive [Width] and [Height],
    it stays inside the block it allocates when
    [Height * Width <= ImageDataSize < 2^31] (and then returns, with a
    bitmap or with an error); when [ImageDataSize <= (Height - 1) * Width]
    and any pixel byte follows the header (and palette), its first
    [fread] stores behind the end of the block. *)
Theorem decode_memory_safety :
  forall (env : environment) (fuel : nat) (name : string) (file : list byte)
         (h : BMP_Header),
    fopen_rb env name = Some file ->
    (forall n, can_alloc env n = true) ->
    ReadHeader file = (Some h, drop 54 file) ->
    Magic h = 0x4D42 ->
    unsupported_variant h = false ->
    0 < Width h -> 0 < Height h ->
    (Z.to_nat (Height h) + 1 <= fuel)%nat ->
    (Height h * Width h <= ImageDataSize h -> ImageDataSize h < 2^31 ->
     exists result st, BMP_ReadFile env fuel (Some name) = Returns (result, st)) /\
    (ImageDataSize h <= (Height h - 1) * Width h -> (Height h - 1) * Width h < 2^31 ->
     payload_of h file <> [] ->
     BMP_ReadFile env fuel (Some name) = Undefined).
Proof.
  intros env fuel name file h Hopen Halloc Ehdr Hmagic Hvar Hw Hh Hfuel.
  destruct (ReadHeader_Some _ _ _ Ehdr) as (_ & _ & (_ & _ & Hsize)).
  unfold BMP_ReadFile. rewrite Hopen, Ehdr, Hmagic, Hvar, !Halloc.
  change (negb (19778 =? 19778)) with false. cbn [negb]. cbv iota.
  split.
  - intros Hrows Hint.
    assert (Htail : forall palette f,
               exists result st,
                 read_image_data env fuel h palette f = Returns (result, st)).
    { intros palette f.
      pose proof (read_image_data_rows env fuel h palette f Hw Hh Hrows Hint
                    (Halloc _) Hfuel) as Hr.
      destruct (_ <? _).
      - eauto.
      - destruct Hr as (data & Er & _). eauto. }
    destruct (BitsPerPixel h =? 8).
    + change (fread BMP_PALETTE_SIZE (drop 54 file))
        with (take 1024 (drop 54 file), drop 1024 (drop 54 file)).
      cbv beta iota.
      destruct (negb _); [eauto | apply Htail].
    + apply Htail.
  - intros Hsmall Hint Hpay.
    assert (Hidx : s32 (u32 (Height h - 1) * Width h) = (Height h - 1) * Width h).
    { rewrite u32_small by nia. apply s32_small. nia. }
    assert (Htail : forall palette,
               read_image_data env fuel h palette (payload_of h file) = Undefined).
    { intros palette. unfold read_image_data. rewrite Halloc. cbn [negb].
      destruct fuel as [| fuel]; [exfalso; lia |].
      rewrite Hidx, read_rows_overflow; try reflexivity; try assumption; try nia.
      rewrite malloc_block_length. lia. }
    unfold payload_of in Hpay, Htail.
    destruct (BitsPerPixel h =? 8).
    + change (fread BMP_PALETTE_SIZE (drop 54 file))
        with (take 1024 (drop 54 file), drop 1024 (drop 54 file)).
      cbv beta iota.
      assert (Hlen : length (take 1024 (drop 54 file)) = 1024%nat).
      { destruct (le_lt_dec 1024 (length (drop 54 file))) as [Hl | Hl].
        - now apply length_take_le.
        - exfalso. apply Hpay. apply drop_ge. lia. }
      rewrite Hlen. change (negb (Z.of_nat 1024 =? BMP_PALETTE_SIZE)) with false.
      cbv iota. apply Htail.
    + apply Htail.
Qed.

Lemma decode_memory_safety_witness :
  BMP_ReadFile (sample_env file_1x2_depth24_size1 0) 8 (Some "in.bmp"%string)
  = Undefined.
Proof.
  apply (decode_memory_safety (sample_env file_1x2_depth24_size1 0) 8 "in.bmp"%string
           file_1x2_depth24_size1 parsed_1x2_depth24_size1).
  - reflexivity.
  - intros n. reflexivity.
  - vm_compute. reflexivity.
  - reflexivity.
  - reflexivity.
  - simpl. lia.
  - simpl. lia.
  - simpl. lia.
  - simpl. lia.
  - simpl. lia.
  - vm_compute. discriminate.
Defined.

(** ** The bitmaps [BMP_WriteFile] can write *)

(** [BMP_WriteFile] compares the count of each row write with
    [ImageDataSize]; with the header invariants the two agree only for
    a single row of depth 8 without padding. *)
Lemma single_row_shape h :
  header_invariants h ->
  (Width h = ImageDataSize h <->
   BitsPerPixel h = 8 /\ Height h = 1 /\ Width h mod 4 = 0).
Proof.
  intros Hinv.
  pose proof (inv_width _ Hinv) as Hw. pose proof (inv_height _ Hinv) as Hh.
  pose proof (inv_image_data_size _ Hinv) as Hsize.
  pose proof (inv_depth _ Hinv) as Hd.
  split.
  - intros Heq. rewrite Hsize in Heq. unfold spec_RowStride in Heq.
    assert (Hbpp : 1 <= spec_BytesPerPixel (BitsPerPixel h))
      by (destruct Hd as [-> | [-> | ->]]; vm_compute; congruence).
    pose proof (row_fits_stride (Width h) (spec_BytesPerPixel (BitsPerPixel h))
                  ltac:(nia)) as Hfit.
    set (rs := (Width h * spec_BytesPerPixel (BitsPerPixel h) + 3) / 4 * 4) in *.
    assert (Hone : Height h = 1) by nia.
    rewrite Hone, Z.mul_1_r in Heq.
    assert (H8 : BitsPerPixel h = 8).
    { destruct Hd as [E | [E | E]]; [exact E | |]; exfalso;
        rewrite E in Hfit; [change (spec_BytesPerPixel 24) with 3 in Hfit
                           | change (spec_BytesPerPixel 32) with 4 in Hfit]; lia. }
    repeat split; try assumption.
    unfold rs in Heq. rewrite H8 in Heq. change (spec_BytesPerPixel 8) with 1 in Heq.
    rewrite Z.mul_1_r, pad_to_multiple_of_4 in Heq.
    destruct (Width h mod 4 =? 0) eqn:E; [now apply Z.eqb_eq in E |].
    cbn [negb] in Heq. pose proof (Z.mod_pos_bound (Width h) 4 ltac:(lia)). lia.
  - intros (H8 & Hone & Hmod). rewrite Hsize, H8, Hone, Z.mul_1_r.
    unfold spec_RowStride. change (spec_BytesPerPixel 8) with 1.
    rewrite Z.mul_1_r, pad_to_multiple_of_4, Hmod. simpl. lia.
Qed.

Lemma BMP_WriteFile_single_row env fuel b name space :
  valid_bitmap b ->
  ImageDataSize (Header b) < 2^31 ->
  Width (Header b) = ImageDataSize (Header b) ->
  fopen_wb env name = Some space ->
  (2 <= fuel)%nat ->
  (54 + 1024 + Z.to_nat (Width (Header b)) <= space)%nat ->
  BMP_WriteFile env fuel (Some b) (Some name) = Returns (Some (file_of b), BMP_OK).
Proof.
  intros Hv Hint Heq Hopen Hfuel Hspace.
  pose proof (valid_header _ Hv) as Hinv.
  destruct (proj1 (single_row_shape _ Hinv) Heq) as (H8 & Hone & Hmod).
  pose proof (inv_width _ Hinv) as Hw.
  pose proof (valid_data _ Hv) as Hdata.
  destruct (valid_palette_present _ Hv H8) as (pal & Hpal & Hplen).
  destruct fuel as [| [| fuel]]; [lia | lia |].
  unfold BMP_WriteFile, file_of. rewrite Hopen, Hpal.
  destruct (WriteHeader_writes_bytes b {| written := []; room := space |})
    as [Hfits _]. cbn [room written] in Hfits.
  assert (Hread : read_block pal 0 BMP_PALETTE_SIZE = Some pal).
  { unfold read_block.
    assert (Hc : (0 <=? 0) && (0 <=? BMP_PALETTE_SIZE)
                 && (0 + BMP_PALETTE_SIZE <=? Z.of_nat (length pal)) = true)
      by (rewrite Hplen; reflexivity).
    rewrite Hc. change (Z.to_nat 0) with 0%nat. cbn [drop]. f_equal.
    apply take_ge. rewrite Hplen. change (Z.to_nat BMP_PALETTE_SIZE) with 1024%nat. lia. }
  assert (Hrow : read_block (Data b) 0 (Width (Header b)) = Some (Data b)).
  { unfold read_block.
    destruct ((0 <=? 0) && (0 <=? Width (Header b))
              && (0 + Width (Header b) <=? Z.of_nat (length (Data b)))) eqn:Ec.
    - cbn [Z.to_nat drop]. f_equal. apply take_ge. lia.
    - exfalso. rewrite !andb_false_iff in Ec.
      destruct Ec as [[Ec | Ec] | Ec]; [discriminate | apply Z.leb_gt in Ec; lia
                                       | apply Z.leb_gt in Ec; lia]. }
  assert (Hidx : s32 (u32 (Height (Header b) - 1) * Width (Header b)) = 0).
  { rewrite Hone. reflexivity. }
  rewrite (Hfits ltac:(lia)), Hread. unfold fwrite at 1. cbn [room written].
  rewrite Hplen, Nat.min_l by lia.
  change (negb (Z.of_nat 1024 =? BMP_PALETTE_SIZE)) with false. cbv iota.
  rewrite Hidx. cbn [write_rows].
  change (negb (0 >=? 0)) with false. cbv iota. rewrite Hrow.
  unfold fwrite. cbn [room written]. rewrite Nat.min_l by lia.
  replace (Z.of_nat (length (Data b)) =? ImageDataSize (Header b)) with true
    by (symmetry; apply Z.eqb_eq; lia).
  cbn [negb]. rewrite Hmod. change (negb (0 =? 0)) with false. cbv iota.
  destruct (s32 (0 - Width (Header b)) >=? 0) eqn:Eexit.
  - exfalso. rewrite s32_small in Eexit by lia. lia.
  - cbn [negb written]. rewrite <- Hplen, !firstn_all, app_nil_l, app_assoc.
    reflexivity.
Qed.

(** X16. What [BMP_WriteFile] does with a valid bitmap when the file
    opens and every byte handed to [fwrite] is taken.  The count of a
    row write is compared with [ImageDataSize], and the two agree
    exactly for depth 8, a single row and a width that is a multiple of
    four.  Such a bitmap is written as header, palette and pixel block,
    with [BMP_OK].  Every other valid bitmap ends in [BMP_IO_ERROR]
    after the first [Width] pixel bytes, although every write was taken
    in full. *)
Theorem encode_outcome :
  forall (env : environment) (fuel : nat) (b : BMP) (name : string) (space : nat),
    valid_bitmap b ->
    ImageDataSize (Header b) < 2^31 ->
    fopen_wb env name = Some space ->
    (54 + 1024 + Z.to_nat (Width (Header b)) <= space)%nat ->
    (2 <= fuel)%nat ->
    (Width (Header b) = ImageDataSize (Header b) <->
     BitsPerPixel (Header b) = 8 /\ Height (Header b) = 1 /\ Width (Header b) mod 4 = 0) /\
    (Width (Header b) = ImageDataSize (Header b) ->
     BMP_WriteFile env fuel (Some b) (Some name)
     = Returns (Some (file_of b), BMP_OK)) /\
    (Width (Header b) <> ImageDataSize (Header b) ->
     exists bytes,
       BMP_WriteFile env fuel (Some b) (Some name)
       = Returns (Some bytes, BMP_IO_ERROR) /\
       Z.of_nat (length bytes)
       = 54 + (if BitsPerPixel (Header b) =? 8 then 1024 else 0) + Width (Header b)).
Proof.
  intros env fuel b name space Hv Hint Hopen Hspace Hfuel.
  split; [apply single_row_shape, (valid_header _ Hv) |]. split.
  - intros Heq. apply (BMP_WriteFile_single_row env fuel b name space); assumption.
  - intros Hne.
    apply (BMP_WriteFile_stops_after_first_row env fuel b name space);
      try assumption. lia.
Qed.

Lemma encode_outcome_witness :
  exists bytes,
    BMP_WriteFile (sample_env [] 4096) 8 (Some indexed_2x2) (Some "out.bmp"%string)
    = Returns (Some bytes, BMP_IO_ERROR) /\
    Z.of_nat (length bytes) = 54 + 1024 + 2.
Proof.
  destruct (encode_outcome (sample_env [] 4096) 8 indexed_2x2 "out.bmp"%string 4096
              indexed_2x2_valid ltac:(simpl; lia) eq_refl ltac:(simpl; lia) ltac:(lia))
    as (_ & _ & Hfail).
  apply Hfail. simpl. lia.
Defined.

(** ** Round trip *)

Lemma BMP_ReadFile_file_of env fuel name b :
  valid_bitmap b ->
  Magic (Header b) = 0x4D42 ->
  header_in_range (Header b) ->
  Width (Header b) = ImageDataSize (Header b) ->
  ImageDataSize (Header b) < 2^31 ->
  fopen_rb env name = Some (file_of b) ->
  (forall n, can_alloc env n = true) ->
  (2 <= fuel)%nat ->
  BMP_ReadFile env fuel (Some name) = Returns (Some b, BMP_OK).
Proof.
  intros Hv Hmagic Hrange Heq Hint Hopen Halloc Hfuel.
  pose proof (valid_header _ Hv) as Hinv.
  destruct (proj1 (single_row_shape _ Hinv) Heq) as (H8 & Hone & Hmod).
  pose proof (inv_width _ Hinv) as Hw.
  pose proof (valid_data _ Hv) as Hdata.
  destruct (valid_palette_present _ Hv H8) as (pal & Hpal & Hplen).
  destruct fuel as [| [| fuel]]; [lia | lia |].
  unfold BMP_ReadFile. rewrite Hopen, !Halloc. cbn [negb].
  unfold file_of. rewrite Hpal.
  rewrite (ReadHeader_decodes (Header b) (pal ++ Data b)).
  rewrite header_in_range_fixed by assumption.
  rewrite Hmagic. change (negb (19778 =? 19778)) with false. cbv iota.
  assert (Hvar : unsupported_variant (Header b) = false).
  { unfold unsupported_variant.
    rewrite H8, (inv_compression _ Hinv), (inv_header_size _ Hinv). reflexivity. }
  rewrite Hvar, H8. change (8 =? 8) with true. cbv iota.
  change (fread BMP_PALETTE_SIZE (pal ++ Data b))
    with (take 1024 (pal ++ Data b), drop 1024 (pal ++ Data b)).
  cbv beta iota.
  rewrite take_app_length', drop_app_length' by (symmetry; assumption).
  rewrite Hplen. change (negb (Z.of_nat 1024 =? BMP_PALETTE_SIZE)) with false.
  cbv iota. unfold read_image_data. rewrite Halloc. cbn [negb].
  rewrite Hone. change (s32 (u32 (1 - 1) * Width (Header b))) with 0.
  cbn [read_rows]. change (negb (0 >=? 0)) with false. cbv iota.
  change (fread (Width (Header b)) (Data b))
    with (take (Z.to_nat (Width (Header b))) (Data b),
          drop (Z.to_nat (Width (Header b))) (Data b)).
  cbv beta iota zeta.
  rewrite take_ge by lia.
  assert (Hwrite : write_block (malloc_block env (ImageDataSize (Header b))) 0 (Data b)
                   = Some (Data b)).
  { unfold write_block. rewrite malloc_block_length.
    destruct ((0 <=? 0) && (0 + Z.of_nat (length (Data b))
                            <=? Z.of_nat (Z.to_nat (ImageDataSize (Header b))))) eqn:Ec.
    - cbn [Z.to_nat take Nat.add app]. rewrite drop_ge by (rewrite malloc_block_length; lia).
      now rewrite app_nil_r.
    - exfalso. apply andb_false_iff in Ec as [Ec | Ec]; [discriminate |].
      apply Z.leb_gt in Ec. lia. }
  rewrite Hwrite.
  replace (Z.of_nat (length (Data b)) =? Width (Header b)) with true
    by (symmetry; apply Z.eqb_eq; lia).
  cbn [negb]. rewrite Hmod. change (negb (0 =? 0)) with false. cbv iota.
  destruct (s32 (0 - Width (Header b)) >=? 0) eqn:Eexit.
  - exfalso. rewrite s32_small in Eexit by lia. lia.
  - cbn [negb]. rewrite <- Hpal. now destruct b.
Qed.

(** X17. Round trip: a valid bitmap of depth 8 with a single row whose
    width is a multiple of four (so that [Width = ImageDataSize]), with
    the magic number and header fields in the range of their C types,
    is written with [BMP_OK], and reading the file written gives the
    same bitmap back: same header, palette and pixel block. *)
Theorem round_trip_single_row :
  forall (env : environment) (fuel : nat) (b : BMP) (name : string) (space : nat),
    valid_bitmap b ->
    Magic (Header b) = 0x4D42 ->
    header_in_range (Header b) ->
    Width (Header b) = ImageDataSize (Header b) ->
    ImageDataSize (Header b) < 2^31 ->
    fopen_wb env name = Some space ->
    (54 + 1024 + Z.to_nat (Width (Header b)) <= space)%nat ->
    (2 <= fuel)%nat ->
    exists file,
      BMP_WriteFile env fuel (Some b) (Some name) = Returns (Some file, BMP_OK) /\
      forall (env' : environment) (name' : string),
        fopen_rb env' name' = Some file ->
        (forall n, can_alloc env' n = true) ->
        BMP_ReadFile env' fuel (Some name') = Returns (Some b, BMP_OK).
Proof.
  intros env fuel b name space Hv Hmagic Hrange Heq Hint Hopen Hspace Hfuel.
  exists (file_of b). split.
  - apply (BMP_WriteFile_single_row env fuel b name space); assumption.
  - intros env' name' Hopen' Halloc. now apply BMP_ReadFile_file_of.
Qed.

Lemma round_trip_single_row_witness :
  exists file,
    BMP_WriteFile (sample_env [] 4096) 8 (Some indexed_4x1) (Some "out.bmp"%string)
    = Returns (Some file, BMP_OK) /\
    BMP_ReadFile (sample_env file 0) 8 (Some "out.bmp"%string)
    = Returns (Some indexed_4x1, BMP_OK).
Proof.
  destruct (round_trip_single_row (sample_env [] 4096) 8 indexed_4x1 "out.bmp"%string 4096)
    as (file & Hw & Hr).
  - apply (BMP_Create_valid (sample_env [] 0) 4 1 8 indexed_4x1 BMP_OK).
    + vm_compute. reflexivity.
    + vm_compute. reflexivity.
  - reflexivity.
  - unfold header_in_range. simpl. lia.
  - vm_compute. reflexivity.
  - simpl. lia.
  - reflexivity.
  - simpl. lia.
  - lia.
  - exists file. split; [exact Hw |].
    apply Hr; [reflexivity | intros n; reflexivity].
Defined.

(** ** The getters *)

(** X18. [BMP_GetWidth], [BMP_GetHeight] and [BMP_GetDepth] set
    [BMP_OK] and return, on a bitmap from [BMP_Create], the arguments it
    was created with, and on a bitmap from [BMP_ReadFile], the values
    that stand little-endian at offsets 18, 22 and 28 of the file. *)
Theorem dimensions_reported :
  forall (m : machine) (bm : BMP),
    bmp_obj m = Some bm ->
    (forall env width height depth st,
        BMP_Create env width height depth = (Some bm, st) ->
        BMP_GetWidth m = Returns (width, with_error BMP_OK m) /\
        BMP_GetHeight m = Returns (height, with_error BMP_OK m) /\
        BMP_GetDepth m = Returns (depth, with_error BMP_OK m)) /\
    (forall env fuel name file st,
        fopen_rb env name = Some file ->
        BMP_ReadFile env fuel (Some name) = Returns (Some bm, st) ->
        exists width height depth,
          BMP_GetWidth m = Returns (width, with_error BMP_OK m) /\
          BMP_GetHeight m = Returns (height, with_error BMP_OK m) /\
          BMP_GetDepth m = Returns (depth, with_error BMP_OK m) /\
          take 4 (drop 18 file) = le32 width /\
          take 4 (drop 22 file) = le32 height /\
          take 2 (drop 28 file) = le16 depth).
Proof.
  intros m bm Hm.
  assert (Hget : BMP_GetWidth m = Returns (Width (Header bm), with_error BMP_OK m) /\
                 BMP_GetHeight m = Returns (Height (Header bm), with_error BMP_OK m) /\
                 BMP_GetDepth m = Returns (BitsPerPixel (Header bm), with_error BMP_OK m)).
  { unfold BMP_GetWidth, BMP_GetHeight, BMP_GetDepth, bind, get_bmp.
    rewrite Hm. repeat split. }
  split.
  - intros env width height depth st Hc.
    destruct (BMP_Create_blocks _ _ _ _ _ _ Hc) as (_ & Hh & _).
    rewrite Hh in Hget. exact Hget.
  - intros env fuel name file st Hopen E.
    destruct (BMP_ReadFile_inv _ _ _ _ _ E)
      as (name' & file' & Hname & Hopen' & _ & Ehdr & _).
    injection Hname as <-. rewrite Hopen in Hopen'. injection Hopen' as <-.
    pose proof (ReadHeader_parses file _ _ Ehdr) as Hparse.
    change ([] ++ file) with file in Hparse.
    destruct Hget as (Hw & Hh & Hd).
    exists (Width (Header bm)), (Height (Header bm)), (BitsPerPixel (Header bm)).
    repeat split; try assumption; rewrite Hparse; reflexivity.
Qed.

Lemma dimensions_reported_witness :
  (exists width,
      BMP_GetWidth (on_bitmap (Some decoded_1x2_depth24) BMP_FILE_INVALID)
      = Returns (width, on_bitmap (Some decoded_1x2_depth24) BMP_OK) /\
      take 4 (drop 18 file_1x2_depth24) = le32 width) /\
  BMP_GetHeight (on_bitmap (Some rgb_2x2) BMP_FILE_INVALID)
  = Returns (2, on_bitmap (Some rgb_2x2) BMP_OK).
Proof.
  split.
  - destruct (dimensions_reported (on_bitmap (Some decoded_1x2_depth24) BMP_FILE_INVALID)
                decoded_1x2_depth24 eq_refl) as [_ Hdec].
    destruct (Hdec (sample_env file_1x2_depth24 0) 8%nat "in.bmp"%string
                file_1x2_depth24 BMP_OK eq_refl ltac:(vm_compute; reflexivity))
      as (w & h & d & Hw & _ & _ & Hbytes & _).
    exists w. split; [exact Hw | exact Hbytes].
  - destruct (dimensions_reported (on_bitmap (Some rgb_2x2) BMP_FILE_INVALID)
                rgb_2x2 eq_refl) as [Hcr _].
    destruct (Hcr (sample_env [] 0) 2 2 24 BMP_OK ltac:(vm_compute; reflexivity))
      as (_ & Hh & _).
    exact Hh.
Defined.

(** X19. On a valid bitmap [BMP_GetPixelData] returns the start of the
    pixel block, from which every offset below [ImageDataSize] can be
    read and holds the byte of the block at that offset, and
    [BMP_GetPalletteData] returns NULL exactly when the depth is not 8,
    and otherwise the start of the 1024 palette bytes.  Neither changes
    [BMP_LAST_ERROR_CODE]. *)
Theorem block_pointers :
  forall (m : machine) (bm : BMP),
    bmp_obj m = Some bm ->
    valid_bitmap bm ->
    (exists p,
        BMP_GetPixelData m = Returns (p, m) /\
        forall k, 0 <= k < ImageDataSize (Header bm) ->
                  exists v,
                    Data bm !! Z.to_nat k = Some v /\
                    load (padd p k) m = Returns (v, logged (LoadAt DataBlock k) m)) /\
    (exists q,
        BMP_GetPalletteData m = Returns (q, m) /\
        (q = None <-> BitsPerPixel (Header bm) <> 8) /\
        forall p, q = Some p ->
                  exists pal,
                    Palette bm = Some pal /\
                    forall k, 0 <= k < 1024 ->
                              exists v,
                                pal !! Z.to_nat k = Some v /\
                                load (padd p k) m
                                = Returns (v, logged (LoadAt PaletteBlock k) m)).
Proof.
  intros m bm Hm Hv. split.
  - exists (DataBlock, 0). unfold BMP_GetPixelData. rewrite Hm.
    split; [reflexivity |]. intros k Hk.
    destruct (block_lookup (Data bm) k) as [v Hlook];
      [rewrite (valid_data _ Hv); lia |].
    exists v. split; [exact Hlook |].
    change (padd (DataBlock, 0) k) with (DataBlock, 0 + k). rewrite Z.add_0_l.
    apply (load_in_range m bm DataBlock (Data bm)); [exact Hm | reflexivity | lia | exact Hlook].
  - unfold BMP_GetPalletteData. rewrite Hm.
    pose proof (valid_palette _ Hv) as Hp.
    destruct (Palette bm) as [pal |] eqn:Epal.
    + destruct Hp as [H8 Hlen]. exists (Some (PaletteBlock, 0)).
      split; [reflexivity |]. split.
      * split; [discriminate | intros Hn; contradiction].
      * intros p Ep. injection Ep as <-. exists pal. split; [reflexivity |].
        intros k Hk.
        destruct (block_lookup pal k) as [v Hlook]; [rewrite Hlen; lia |].
        exists v. split; [exact Hlook |].
        change (padd (PaletteBlock, 0) k) with (PaletteBlock, 0 + k). rewrite Z.add_0_l.
        apply (load_in_range m bm PaletteBlock pal);
          [exact Hm | exact Epal | lia | exact Hlook].
    + exists None. split; [reflexivity |]. split.
      * split; [intros _; exact Hp | reflexivity].
      * intros p Ep. discriminate.
Qed.

Lemma block_pointers_witness :
  exists p,
    BMP_GetPixelData (on_bitmap (Some indexed_2x2) BMP_OK)
    = Returns (p, on_bitmap (Some indexed_2x2) BMP_OK) /\
    exists v m', load (padd p 7) (on_bitmap (Some indexed_2x2) BMP_OK) = Returns (v, m').
Proof.
  destruct (block_pointers (on_bitmap (Some indexed_2x2) BMP_OK) indexed_2x2
              eq_refl indexed_2x2_valid) as ((p & Hp & Hload) & _).
  exists p. split; [exact Hp |].
  destruct (Hload 7 ltac:(simpl; lia)) as (v & _ & E). eauto.
Defined.

(** ** Files that cannot be opened, and a NULL bitmap *)

(** X20. [BMP_ReadFile] answers a NULL file name with
    [BMP_INVALID_ARGUMENT], a failed allocation of the bitmap object
    with [BMP_OUT_OF_MEMORY] (before it tries the file), and a file it
    cannot open with [BMP_FILE_NOT_FOUND]; it returns no bitmap then.
    [BMP_WriteFile] answers a NULL file name with
    [BMP_INVALID_ARGUMENT] and a file it cannot open with
    [BMP_FILE_NOT_FOUND], writing nothing; given a NULL bitmap and a
    name it can open, it creates the file, writes nothing to it and
    reports [BMP_IO_ERROR]. *)
Theorem file_errors :
  forall (env : environment) (fuel : nat) (bmp : option BMP) (name : string),
    BMP_ReadFile env fuel None = Returns (None, BMP_INVALID_ARGUMENT) /\
    (can_alloc env (sizeof_BMP env) = false ->
     BMP_ReadFile env fuel (Some name) = Returns (None, BMP_OUT_OF_MEMORY)) /\
    (can_alloc env (sizeof_BMP env) = true -> fopen_rb env name = None ->
     BMP_ReadFile env fuel (Some name) = Returns (None, BMP_FILE_NOT_FOUND)) /\
    BMP_WriteFile env fuel bmp None = Returns (None, BMP_INVALID_ARGUMENT) /\
    (fopen_wb env name = None ->
     BMP_WriteFile env fuel bmp (Some name) = Returns (None, BMP_FILE_NOT_FOUND)) /\
    (forall space,
        fopen_wb env name = Some space ->
        BMP_WriteFile env fuel None (Some name) = Returns (Some [], BMP_IO_ERROR)).
Proof.
  intros env fuel bmp name.
  split; [reflexivity |]. split; [| split; [| split; [reflexivity | split]]].
  - intros Ha. unfold BMP_ReadFile. now rewrite Ha.
  - intros Ha Ho. unfold BMP_ReadFile. now rewrite Ha, Ho.
  - intros Ho. unfold BMP_WriteFile. now rewrite Ho.
  - intros space Ho. unfold BMP_WriteFile. now rewrite Ho.
Qed.

Lemma file_errors_witness :
  BMP_WriteFile (sample_env [] 4096) 8 None (Some "out.bmp"%string)
  = Returns (Some [], BMP_IO_ERROR).
Proof.
  destruct (file_errors (sample_env [] 4096) 8 None "out.bmp"%string)
    as (_ & _ & _ & _ & _ & Hnull).
  exact (Hnull 4096%nat eq_refl).
Defined.

(** ** How [BMP_Create] fails *)

(** X21. [BMP_Create] returns a bitmap exactly when it leaves
    [BMP_OK].  With arguments it accepts, it leaves
    [BMP_OUT_OF_MEMORY] and returns NULL as soon as one of its
    allocations fails: the bitmap object, the 1024-byte palette (depth
    8 only), or the pixel block of [RowStride * height] bytes, the
    product taken in 32 bits. *)
Theorem BMP_Create_failures :
  forall (env : environment) (width height depth : Z),
    (forall result st,
        BMP_Create env width height depth = (result, st) ->
        (st = BMP_OK <-> result <> None)) /\
    (0 < height -> 0 < width -> depth = 8 \/ depth = 24 \/ depth = 32 ->
     can_alloc env (sizeof_BMP env) = false \/
     (depth = 8 /\ can_alloc env BMP_PALETTE_SIZE = false) \/
     can_alloc env (u32 (spec_RowStride width depth * height)) = false ->
     BMP_Create env width height depth = (None, BMP_OUT_OF_MEMORY)).
Proof.
  intros env width height depth. rewrite BMP_Create_cases. split.
  - intros result st E.
    repeat match type of E with
           | (if ?c then _ else _) = _ => destruct c
           end;
      injection E as <- <-; split; intros H; try discriminate; try reflexivity;
      exfalso; now apply H.
  - intros Hh Hw Hd Hfail.
    assert (E : (height <=? 0) || (width <=? 0) = false)
      by (apply orb_false_iff; split; lia).
    rewrite E.
    assert (Ed : negb (depth =? 8) && negb (depth =? 24) && negb (depth =? 32) = false).
    { destruct Hd as [-> | [-> | ->]]; reflexivity. }
    rewrite Ed.
    change (ImageDataSize (created_header width height depth))
      with (u32 (spec_RowStride width depth * height)).
    destruct (can_alloc env (sizeof_BMP env)); [| reflexivity]. cbn [negb].
    destruct Hfail as [Hf | [[-> Hf] | Hf]]; [discriminate | |].
    + rewrite Hf. reflexivity.
    + rewrite Hf. cbn [negb]. now destruct ((depth =? 8) && _).
Qed.

Lemma BMP_Create_failures_witness :
  BMP_Create {| can_alloc := fun n => n <? 1000; sizeof_BMP := 72;
                junk := fun _ => x00; fopen_rb := fun _ => None;
                fopen_wb := fun _ => None |} 2 2 8
  = (None, BMP_OUT_OF_MEMORY).
Proof.
  apply BMP_Create_failures; [lia | lia | left; reflexivity |].
  right. left. split; reflexivity.
Defined.

(** ** Dimensions the row loop cannot handle *)

(** [BMP_ReadFile] from the point where the header has passed the
    checks, in terms of the row loop. *)
Lemma BMP_ReadFile_past_checks env fuel name file h :
  fopen_rb env name = Some file ->
  (forall n, can_alloc env n = true) ->
  ReadHeader file = (Some h, drop 54 file) ->
  Magic h = 0x4D42 ->
  unsupported_variant h = false ->
  (BitsPerPixel h = 8 -> (54 + 1024 <= length file)%nat) ->
  BMP_ReadFile env fuel (Some name)
  = match read_rows fuel (Width h) (s32 (u32 (Height h - 1) * Width h))
                    (payload_of h file) (malloc_block env (ImageDataSize h)) with
    | Returns (Some data) =>
        Returns (Some {| Header := h;
                         Palette := if BitsPerPixel h =? 8
                                    then Some (take 1024 (drop 54 file)) else None;
                         Data := data |}, BMP_OK)
    | Returns None => Returns (None, BMP_FILE_INVALID)
    | Undefined => Undefined
    | OutOfFuel => OutOfFuel
    end.
Proof.
  intros Hopen Halloc Ehdr Hmagic Hvar Hpal.
  unfold BMP_ReadFile. rewrite Hopen, Ehdr, Hmagic, Hvar, !Halloc.
  change (negb (19778 =? 19778)) with false. cbn [negb]. cbv iota.
  unfold payload_of, read_image_data. rewrite Halloc. cbn [negb].
  destruct (BitsPerPixel h =? 8) eqn:E8; [| reflexivity].
  apply Z.eqb_eq in E8. specialize (Hpal E8).
  change (fread BMP_PALETTE_SIZE (drop 54 file))
    with (take 1024 (drop 54 file), drop 1024 (drop 54 file)).
  cbv beta iota.
  rewrite length_take_le by (rewrite length_drop; lia).
  change (negb (Z.of_nat 1024 =? BMP_PALETTE_SIZE)) with false. cbv iota.
  reflexivity.
Qed.

(** X22. A file whose header passes the checks of [BMP_ReadFile] and
    has Width 0 makes it loop for ever: the row loop steps its index by
    [Width], and reading zero bytes is not a short read.  (In the model:
    out of fuel for every amount of fuel.) *)
Theorem decode_zero_width_never_returns :
  forall (env : environment) (fuel : nat) (name : string) (file : list byte)
         (h : BMP_Header),
    fopen_rb env name = Some file ->
    (forall n, can_alloc env n = true) ->
    ReadHeader file = (Some h, drop 54 file) ->
    Magic h = 0x4D42 ->
    unsupported_variant h = false ->
    (BitsPerPixel h = 8 -> (54 + 1024 <= length file)%nat) ->
    Width h = 0 ->
    BMP_ReadFile env fuel (Some name) = OutOfFuel.
Proof.
  intros env fuel name file h Hopen Halloc Ehdr Hmagic Hvar Hpal Hw.
  rewrite (BMP_ReadFile_past_checks env fuel name file h) by assumption.
  rewrite Hw, Z.mul_0_r. change (s32 0) with 0.
  now rewrite read_rows_zero_width.
Qed.

Lemma decode_zero_width_never_returns_witness :
  BMP_ReadFile (sample_env file_zero_width 0) 1000 (Some "in.bmp"%string) = OutOfFuel.
Proof.
  apply (decode_zero_width_never_returns (sample_env file_zero_width 0) 1000
           "in.bmp"%string file_zero_width header_zero_width).
  - reflexivity.
  - intros n. reflexivity.
  - vm_compute. reflexivity.
  - reflexivity.
  - reflexivity.
  - intros H. exfalso. vm_compute in H. discriminate.
  - reflexivity.
Defined.

(** X23. The row loop of [BMP_ReadFile] keeps its index in an [int]
    (32 bits, two's complement).  When [(Height - 1) * Width] is 2^31 or
    more (and below 2^32) the index starts negative, the loop body never
    runs, and the file is accepted with [BMP_OK]: the bitmap returned
    has the header of the file and a pixel block of [ImageDataSize]
    bytes none of which was read from the file. *)
Theorem decode_skips_oversized_images :
  forall (env : environment) (fuel : nat) (name : string) (file : list byte)
         (h : BMP_Header),
    fopen_rb env name = Some file ->
    (forall n, can_alloc env n = true) ->
    ReadHeader file = (Some h, drop 54 file) ->
    Magic h = 0x4D42 ->
    unsupported_variant h = false ->
    (BitsPerPixel h = 8 -> (54 + 1024 <= length file)%nat) ->
    0 < Height h ->
    2^31 <= (Height h - 1) * Width h < 2^32 ->
    (1 <= fuel)%nat ->
    BMP_ReadFile env fuel (Some name)
    = Returns (Some {| Header := h;
                       Palette := if BitsPerPixel h =? 8
                                  then Some (take 1024 (drop 54 file)) else None;
                       Data := malloc_block env (ImageDataSize h) |}, BMP_OK).
Proof.
  intros env fuel name file h Hopen Halloc Ehdr Hmagic Hvar Hpal Hh Hbig Hfuel.
  rewrite (BMP_ReadFile_past_checks env fuel name file h) by assumption.
  destruct (ReadHeader_Some _ _ _ Ehdr) as (_ & _ & (_ & Hhr & _)).
  destruct fuel as [| fuel]; [lia |].
  rewrite u32_small by lia.
  rewrite read_rows_exit; [reflexivity |].
  unfold s32. rewrite u32_small by lia. cbv zeta.
  destruct (_ <? _) eqn:E; [apply Z.ltb_lt in E |]; lia.
Qed.

Lemma decode_skips_oversized_images_witness :
  BMP_ReadFile (sample_env file_oversized 0) 8 (Some "in.bmp"%string)
  = Returns (Some {| Header := header_oversized; Palette := None;
                     Data := [xcd; xcd; xcd; xcd] |}, BMP_OK).
Proof.
  apply (decode_skips_oversized_images (sample_env file_oversized 0) 8
           "in.bmp"%string file_oversized header_oversized).
  - reflexivity.
  - intros n. reflexivity.
  - vm_compute. reflexivity.
  - reflexivity.
  - reflexivity.
  - intros H. exfalso. vm_compute in H. discriminate.
  - simpl. lia.
  - simpl. lia.
  - lia.
Defined.
